(** * Carta Porte verifier: a shallow embedding of the extraction engine

    The development follows the Python sources file by file:
    - [utils.py]          : [parse_float], [format_and_compare_liters],
                            [map_clave_to_combustible];
    - [xml_processor.py]  : [identify_format], [extract_common_data], the three
                            [process_xml_format*] extractors and the dispatcher
                            [process_file_based_on_format];
    - [pdf_handler.py]    : [identify_pdf] and the per-document loop, sort and
                            column drop of [process_uploaded_files].

    The interpreter and the libraries the program calls are modelled first:
    exceptions, binary64 floats (on the Corelib [SpecFloat] definitions, which
    are plain integer arithmetic), the [float()] constructor, the [.3f] format,
    dates with and without an offset from UTC, [xml.etree.ElementTree] trees
    with their descendant search and the ways [ET.parse] fails, and the part
    of [pandas] used by the batch.  Two library routines are parameters:
    [datetime.fromisoformat], whose grammar depends on the interpreter, and
    the sorting routine under [sort_values], which leaves the order of equal
    keys open. *)

From Stdlib Require Import ZArith String Ascii List Bool Lia.
From Stdlib Require Import Floats.SpecFloat Numbers.DecimalString.
From Stdlib Require Import Sorting.Sorted Sorting.Permutation.
From stdpp Require Import gmap strings sorting.

Import ListNotations.
Local Open Scope string_scope.

(** ** Exceptions

    A Python call either returns or raises.  Only the exception classes that
    the program can meet are listed. *)

Inductive exn : Set :=
  | ParseError      (* xml.etree.ElementTree.ParseError *)
  | ValueError
  | TypeError
  | KeyError
  | AttributeError
  | LookupError
  | OSError.

Inductive result (A : Type) : Type :=
  | Ok (a : A)
  | Raise (e : exn).
Arguments Ok {A} a.
Arguments Raise {A} e.

#[export] Instance result_ret : MRet result := fun A a => Ok a.

#[export] Instance result_bind : MBind result := fun A B k r =>
  match r with
  | Ok a => k a
  | Raise e => Raise e
  end.

(** [try: body  except (classes): handler] *)
Definition try_except {A} (body : result A) (classes : exn -> bool)
    (handler : result A) : result A :=
  match body with
  | Ok a => Ok a
  | Raise e => if classes e then handler else Raise e
  end.

Definition is_ValueError (e : exn) : bool :=
  match e with ValueError => true | _ => false end.

Definition is_ValueError_or_TypeError (e : exn) : bool :=
  match e with ValueError | TypeError => true | _ => false end.

(** [except Exception]: every class above derives from [Exception]. *)
Definition is_Exception (e : exn) : bool := true.

(** ** Binary64 floats

    Python's [float] is the IEEE 754 binary64 format.  Values are
    [spec_float]s and the operations are those of [SpecFloat] at precision 53
    and maximal exponent 1024. *)

Module PyFloat.

Local Open Scope Z_scope.

Definition prec : Z := 53.
Definition emax : Z := 1024.

Abbreviation float := spec_float.

Definition sub (x y : float) : float := SFsub prec emax x y.
Definition abs (x : float) : float := SFabs x.
Definition ltb (x y : float) : bool := SFltb x y.

Definition is_finite (x : float) : bool :=
  match x with
  | S754_zero _ | S754_finite _ _ _ => true
  | S754_infinity _ | S754_nan => false
  end.

(** The nearest binary64 (ties to even) to [(-1)^s * M * 10^E]: the value a
    correctly rounded decimal-to-binary conversion returns.  Overflow gives an
    infinity, underflow a (signed) zero or a subnormal. *)
Definition of_decimal (s : bool) (M E : Z) : float :=
  match M with
  | Zpos m =>
      if 0 <=? E
      then binary_round prec emax s (m * Z.to_pos (10 ^ E)) 0
      else
        let '(q, e, l) := SFdiv_core_binary prec emax (Zpos m) 0 (10 ^ (- E)) 0 in
        binary_round_aux prec emax s q e l
  | _ => S754_zero s
  end.

(** *** Characters *)

Definition is_digit (c : ascii) : bool :=
  let n := nat_of_ascii c in (48 <=? n)%nat && (n <=? 57)%nat.

Definition digit_val (c : ascii) : Z := Z.of_nat (nat_of_ascii c) - 48.

(** The white space [float()] strips at both ends: the ASCII white space
    (tab to carriage return, and the space), and U+0085 and U+00A0, the two
    white-space code points between 128 and 255, which it turns into a space
    first.  The separators U+001C to U+001F are white space for [str.isspace]
    but are not stripped. *)
Definition is_space (c : ascii) : bool :=
  let n := nat_of_ascii c in
  ((9 <=? n)%nat && (n <=? 13)%nat) || (n =? 32)%nat
  || (n =? 133)%nat || (n =? 160)%nat.

Definition to_lower (c : ascii) : ascii :=
  let n := nat_of_ascii c in
  if (65 <=? n)%nat && (n <=? 90)%nat then ascii_of_nat (n + 32) else c.

Fixpoint lower (s : string) : string :=
  match s with
  | EmptyString => EmptyString
  | String c r => String (to_lower c) (lower r)
  end.

(** *** The grammar of [float(str)]

    An underscore is allowed between two digits and removed; white space is
    stripped at both ends; what is left is an optional sign followed by a
    decimal number or by [inf], [infinity] or [nan] in any letter case;
    anything else is a [ValueError].  (CPython strips before it looks at the
    underscores; since an underscore must stand between two digits the order
    makes no difference.)  A character is a code point below 256; the digits
    and spaces that Unicode has beyond, which [float] also reads, are not part
    of this model. *)

Definition underscore : ascii := "_"%char.

(** [prev] is the preceding character ([None] at the start). *)
Fixpoint remove_underscores (prev : option ascii) (s : string) : option string :=
  match s with
  | EmptyString =>
      match prev with
      | Some p => if Ascii.eqb p underscore then None else Some EmptyString
      | None => Some EmptyString
      end
  | String c r =>
      if Ascii.eqb c underscore then
        match prev with
        | Some p => if is_digit p then remove_underscores (Some c) r else None
        | None => None
        end
      else
        let after_underscore :=
          match prev with Some p => Ascii.eqb p underscore | None => false end in
        if after_underscore && negb (is_digit c) then None
        else option_map (String c) (remove_underscores (Some c) r)
  end.

Fixpoint lstrip (s : string) : string :=
  match s with
  | String c r => if is_space c then lstrip r else s
  | EmptyString => EmptyString
  end.

(** Trailing white space is dropped, but never the first character. *)
Fixpoint rstrip_tail (s : string) : string :=
  match s with
  | EmptyString => EmptyString
  | String c r =>
      match rstrip_tail r with
      | EmptyString => if is_space c then EmptyString else String c EmptyString
      | r' => String c r'
      end
  end.

Definition strip (s : string) : string :=
  match lstrip s with
  | EmptyString => EmptyString
  | String c r => String c (rstrip_tail r)
  end.

(** Leading digits of [s], accumulated in base ten: the number read so far,
    how many digits were read, and the rest. *)
Fixpoint take_digits (acc : Z) (n : Z) (s : string) : Z * Z * string :=
  match s with
  | String c r =>
      if is_digit c then take_digits (10 * acc + digit_val c) (n + 1) r
      else (acc, n, s)
  | EmptyString => (acc, n, s)
  end.

Definition take_sign (s : string) : bool * string :=
  match s with
  | String "-" r => (true, r)
  | String "+" r => (false, r)
  | _ => (false, s)
  end.

(** The exponent part: [e] or [E], an optional sign, at least one digit.
    Without a digit nothing is consumed. *)
Definition take_exponent (s : string) : Z * string :=
  match s with
  | String c r =>
      if Ascii.eqb (to_lower c) "e"%char then
        let '(neg, r1) := take_sign r in
        let '(e, n, r2) := take_digits 0 0 r1 in
        if n =? 0 then (0, s) else ((if neg then - e else e), r2)
      else (0, s)
  | EmptyString => (0, s)
  end.

(** A decimal number: digits, an optional point and digits, an optional
    exponent; at least one digit in the mantissa. *)
Definition parse_decimal (neg : bool) (s : string) : option float :=
  let '(ip, ni, r1) := take_digits 0 0 s in
  let '(m, nf, r2) :=
    match r1 with
    | String "." r => take_digits ip 0 r
    | _ => (ip, 0, r1)
    end in
  if ni + nf =? 0 then None
  else
    let '(e, r3) := take_exponent r2 in
    match r3 with
    | EmptyString => Some (of_decimal neg m (e - nf))
    | _ => None
    end.

Definition parse_inf_or_nan (neg : bool) (s : string) : option float :=
  let t := lower s in
  if String.eqb t "inf" || String.eqb t "infinity" then Some (S754_infinity neg)
  else if String.eqb t "nan" then Some S754_nan
  else None.

(** [float(s)] for a string [s]: [None] stands for the [ValueError]. *)
Definition of_string (s : string) : option float :=
  match remove_underscores None s with
  | None => None
  | Some s1 =>
      let '(neg, body) := take_sign (strip s1) in
      match parse_decimal neg body with
      | Some x => Some x
      | None => parse_inf_or_nan neg body
      end
  end.

(** *** The format [f"{x:.3f}"]

    Correctly rounded to three decimals, ties to even on the exact binary
    value; the sign is kept even when the digits are all zero; [nan] and the
    infinities are spelled out. *)

Definition round_half_even (num den : Z) : Z :=
  let q := num / den in
  let r := num mod den in
  match 2 * r ?= den with
  | Lt => q
  | Gt => q + 1
  | Eq => if Z.even q then q else q + 1
  end.

Definition Z_to_string (z : Z) : string := NilZero.string_of_int (Z.to_int z).

Definition digit_char (d : Z) : ascii := ascii_of_nat (Z.to_nat (48 + d)).

Definition three_digits (n : Z) : string :=
  String (digit_char (n / 100 mod 10))
    (String (digit_char (n / 10 mod 10))
       (String (digit_char (n mod 10)) EmptyString)).

Definition sign_prefix (s : bool) : string := if s then "-" else "".

(** The thousandths of [|x|], rounded. *)
Definition thousandths (m : positive) (e : Z) : Z :=
  if 0 <=? e then Zpos m * 2 ^ e * 1000
  else round_half_even (Zpos m * 1000) (2 ^ (- e)).

Definition format_3f (x : float) : string :=
  match x with
  | S754_nan => "nan"
  | S754_infinity s => sign_prefix s ++ "inf"
  | S754_zero s => sign_prefix s ++ "0.000"
  | S754_finite s m e =>
      let n := thousandths m e in
      sign_prefix s ++ Z_to_string (n / 1000) ++ "." ++ three_digits (n mod 1000)
  end.

(** The literal [1e-9]. *)
Definition lit_1e_9 : float := Eval vm_compute in of_decimal false 1 (-9).

Definition zero : float := S754_zero false.

End PyFloat.


(** ** Python values

    The values that the program stores in its record dictionaries. *)

(** A [datetime.datetime].  It is naive when [utcoffset] is [None] and aware
    otherwise: [datetime.fromisoformat] returns an aware value, with a fixed
    offset from UTC (here in microseconds, east of UTC positive), for a text
    that ends in an offset, and a naive one for a text without.  The [Fecha]
    of a CFDI is written without an offset, but the program parses whatever
    the attribute holds. *)
Record datetime : Set := mkDatetime {
  year : Z; month : Z; day : Z;
  hour : Z; minute : Z; second : Z; microsecond : Z;
  utcoffset : option Z
}.

Definition aware (d : datetime) : bool :=
  match utcoffset d with Some _ => true | None => false end.

(** The proleptic Gregorian calendar of the [datetime] module. *)
Definition is_leap (y : Z) : bool :=
  ((y mod 4 =? 0) && (negb (y mod 100 =? 0) || (y mod 400 =? 0)))%Z.

Definition days_in_month (y m : Z) : Z :=
  (if m =? 2 then (if is_leap y then 29 else 28)
   else if (m =? 4) || (m =? 6) || (m =? 9) || (m =? 11) then 30
   else 31)%Z.

Definition days_before_year (y : Z) : Z :=
  (let y := y - 1 in y * 365 + y / 4 - y / 100 + y / 400)%Z.

(** Days of the year [y] before the first of month [m]. *)
Definition days_before_month (y m : Z) : Z :=
  fold_right Z.add 0%Z
    (map (days_in_month y) (map Z.of_nat (seq 1 (Z.to_nat (m - 1))))).

(** [d.toordinal()]: 1 for the first of January of year 1. *)
Definition toordinal (d : datetime) : Z :=
  (days_before_year (year d) + days_before_month (year d) (month d) + day d)%Z.

(** The instant of [d] on a common scale, in microseconds: the wall time, less
    the offset for an aware value.  Two aware values compare as their
    instants, and so do two naive ones. *)
Definition timestamp (d : datetime) : Z :=
  ((((toordinal d * 24 + hour d) * 60 + minute d) * 60 + second d) * 1000000
   + microsecond d - default 0 (utcoffset d))%Z.

(** [a == b] on dates: a naive value never equals an aware one. *)
Definition datetime_eqb (a b : datetime) : bool :=
  Bool.eqb (aware a) (aware b) && (timestamp a =? timestamp b)%Z.

Inductive pyval : Set :=
  | PNone
  | PStr (s : string)
  | PFloat (x : PyFloat.float)
  | PDatetime (d : datetime).

(** Truth value of an object, as [if], [or] and the conditional expression
    test it.  A [datetime] object is always true. *)
Definition truthy (v : pyval) : bool :=
  match v with
  | PNone => false
  | PStr s => negb (String.eqb s "")
  | PFloat x => negb (SFeqb x PyFloat.zero)
  | PDatetime _ => true
  end.

(** [a or b] *)
Definition py_or (a b : pyval) : pyval := if truthy a then a else b.

(** [float(v)]: a [TypeError] for [None] (and for a [datetime]), a
    [ValueError] for a string outside the grammar. *)
Definition py_float (v : pyval) : result PyFloat.float :=
  match v with
  | PStr s =>
      match PyFloat.of_string s with
      | Some x => Ok x
      | None => Raise ValueError
      end
  | PFloat x => Ok x
  | PNone | PDatetime _ => Raise TypeError
  end.

(** [str(n)] for an [int]. *)
Definition py_str_int (n : Z) : string := PyFloat.Z_to_string n.

(** [v.month] *)
Definition getattr_month (v : pyval) : result Z :=
  match v with
  | PDatetime d => Ok (month d)
  | _ => Raise AttributeError
  end.

(** [datetime.fromisoformat] applied to a string: [Some d] when the string is
    accepted, [None] for the [ValueError] it raises otherwise.  Which strings
    are accepted depends on the interpreter version (3.11 widened the
    grammar), so the function is a parameter of the development. *)
Class DatetimeLib : Type := { fromisoformat : string -> option datetime }.

Definition datetime_fromisoformat `{DatetimeLib} (s : string) : result pyval :=
  match fromisoformat s with
  | Some d => Ok (PDatetime d)
  | None => Raise ValueError
  end.

(** Record dictionaries.  [d[k]] raises [KeyError] on a missing key;
    [d.get(k, dflt)] returns the stored value, which may be [None]. *)
Abbreviation dict := (gmap string pyval).

Definition dict_getitem (d : dict) (k : string) : result pyval :=
  match d !! k with
  | Some v => Ok v
  | None => Raise KeyError
  end.

Definition dict_get (d : dict) (k : string) (dflt : pyval) : pyval :=
  default dflt (d !! k).

(** ** xml.etree.ElementTree

    An element has a tag, an attribute dictionary and children.  ElementTree
    writes a namespace-qualified tag as [{uri}local]; here the two parts are
    the fields of a [QName].  Text, tails, comments and processing instructions
    play no role in the program. *)

Module ET.

Record QName : Set := qn { uri : string; local : string }.

#[export] Instance QName_eq_dec : EqDecision QName.
Proof. solve_decision. Defined.

#[local] Unset Elimination Schemes.
Inductive Element : Type :=
  mkElement (tag : QName) (attrib : gmap string string) (children : list Element).

#[local] Set Elimination Schemes.

Definition tag (e : Element) : QName := let 'mkElement t _ _ := e in t.
Definition attrib (e : Element) : gmap string string := let 'mkElement _ a _ := e in a.
Definition children (e : Element) : list Element := let 'mkElement _ _ c := e in c.

(** [e.attrib.get(k, dflt)] *)
Definition get (e : Element) (k dflt : string) : string := default dflt (attrib e !! k).

(** [e.iter()]: [e], then its descendants, in document order. *)
Fixpoint iter (e : Element) : list Element :=
  match e with
  | mkElement _ _ cs => e :: flat_map iter cs
  end.

(** The elements selected by the path [.//prefix:local] from [e]: the
    descendants of [e] ([e] itself left out) whose tag is the qualified name
    the prefix resolves to, in document order. *)
Definition descendants (e : Element) : list Element := flat_map iter (children e).

Definition findall (e : Element) (t : QName) : list Element :=
  filter (fun d => tag d = t) (descendants e).

(** [e.find(path)]: the first selected element, or [None]. *)
Definition find (e : Element) (t : QName) : option Element := head (findall e t).

(** Why [ET.parse] fails on a file, and what it raises then: the text is not
    well-formed XML ([ParseError]); the XML declaration names a multi-byte
    encoding, which the parser does not support ([ValueError]), or an encoding
    Python has no codec for ([LookupError]); the file cannot be opened or read
    ([OSError]). *)
Inductive failure : Set :=
  | NotWellFormed
  | MultiByteEncoding
  | UnknownEncoding
  | Unreadable.

Definition raised (why : failure) : exn :=
  match why with
  | NotWellFormed => ParseError
  | MultiByteEncoding => ValueError
  | UnknownEncoding => LookupError
  | Unreadable => OSError
  end.

(** What is at a path: a file on which [ET.parse] fails, or a well-formed
    document, given by its root element. *)
Inductive file : Type :=
  | Broken (why : failure)
  | WellFormed (root : Element).

Abbreviation Malformed := (Broken NotWellFormed).

(** [ET.parse(path).getroot()] *)
Definition parse (f : file) : result Element :=
  match f with
  | Broken why => Raise (raised why)
  | WellFormed root => Ok root
  end.

End ET.

(** ** utils.py *)

Definition parse_float (value : pyval) : result PyFloat.float :=
  try_except (py_float value) is_ValueError_or_TypeError (Ok PyFloat.zero).

Definition format_and_compare_liters (facturada_str transportada_str : pyval)
    : result (string * string * string) :=
  facturada_val ← parse_float facturada_str;
  transportada_val ← parse_float transportada_str;
  let facturada_fmt := PyFloat.format_3f facturada_val in
  let transportada_fmt := PyFloat.format_3f transportada_val in
  let comparacion :=
    if PyFloat.ltb (PyFloat.abs (PyFloat.sub facturada_val transportada_val))
                   PyFloat.lit_1e_9
    then "Iguales" else "Diferentes" in
  Ok (facturada_fmt, transportada_fmt, comparacion).

Definition mapping : gmap string string :=
  <["15101514" := "magna"]> (<["15101515" := "premium"]> (<["15101505" := "diesel"]> ∅)).

(** [mapping.get(clave_prod_serv)] *)
Definition map_clave_to_combustible (clave_prod_serv : string) : pyval :=
  match mapping !! clave_prod_serv with
  | Some label => PStr label
  | None => PNone
  end.

(** ** xml_processor.py *)

Definition NS_CFDI : string := "http://www.sat.gob.mx/cfd/4".
Definition NS_CARTAPORTE20 : string := "http://www.sat.gob.mx/CartaPorte20".
Definition NS_CARTAPORTE30 : string := "http://www.sat.gob.mx/CartaPorte30".
Definition NS_CARTAPORTE31 : string := "http://www.sat.gob.mx/CartaPorte31".

Definition is_empty {A} (l : list A) : bool :=
  match l with [] => true | _ => false end.

Definition identify_format (file_path : ET.file) : result (option string) :=
  root ← ET.parse file_path;
  if negb (is_empty (ET.findall root (ET.qn NS_CARTAPORTE20 "Mercancia")))
  then Ok (Some "format1")
  else if negb (is_empty (ET.findall root (ET.qn NS_CARTAPORTE30 "Mercancia")))
  then Ok (Some "format2")
  else if negb (is_empty (ET.findall root (ET.qn NS_CARTAPORTE31 "Mercancia")))
  then Ok (Some "format31")
  else Ok None.

Section xml_processor.
Context `{DatetimeLib}.

Definition extract_common_data (root : ET.Element) : result dict :=
  let fecha_str := ET.get root "Fecha" "" in
  fecha_dt ← try_except (datetime_fromisoformat fecha_str) is_ValueError (Ok PNone);
  periodo ← (if truthy fecha_dt
             then m ← getattr_month fecha_dt; Ok (py_str_int m)
             else Ok "");
  Ok (<["Comparacion" := PStr ""]>
     (<["Combustible" := PNone]>
     (<["Litros Transportada" := PNone]>
     (<["Cantidad Litros Facturada" := PNone]>
     (<["Clave SAT" := PNone]>
     (<["Folio" := PStr (ET.get root "Folio" "")]>
     (<["Serie" := PStr (ET.get root "Serie" "")]>
     (<["Periodo" := PStr periodo]>
     (<["FechaEmision" := fecha_dt]> (∅ : dict)))))))))).

Definition process_xml_format1 (file_path : ET.file) : result dict :=
  root ← ET.parse file_path;
  data ← extract_common_data root;
  let concepto := ET.find root (ET.qn NS_CFDI "Concepto") in
  let data :=
    match concepto with
    | Some concepto =>
        <["Cantidad Litros Facturada" := PStr (ET.get concepto "Cantidad" "")]> data
    | None => data
    end in
  let mercancia := ET.find root (ET.qn NS_CARTAPORTE20 "Mercancia") in
  let data :=
    match mercancia with
    | Some mercancia =>
        let clave_prod_serv := ET.get mercancia "BienesTransp" "" in
        let data := <["Clave SAT" := PStr clave_prod_serv]> data in
        let data := <["Litros Transportada" := PStr (ET.get mercancia "Cantidad" "")]> data in
        <["Combustible" := map_clave_to_combustible clave_prod_serv]> data
    | None => data
    end in
  facturada ← dict_getitem data "Cantidad Litros Facturada";
  transportada ← dict_getitem data "Litros Transportada";
  '(fac, trans, comp) ← format_and_compare_liters
                          (py_or facturada (PStr "0"))
                          (py_or transportada (PStr "0"));
  let data := <["Cantidad Litros Facturada" := PStr fac]> data in
  let data := <["Litros Transportada" := PStr trans]> data in
  let data := <["Comparacion" := PStr comp]> data in
  Ok data.

Definition process_xml_format2 (file_path : ET.file) : result dict :=
  root ← ET.parse file_path;
  data ← extract_common_data root;
  let concepto := ET.find root (ET.qn NS_CFDI "Concepto") in
  let data :=
    match concepto with
    | Some concepto =>
        <["Cantidad Litros Facturada" := PStr (ET.get concepto "Cantidad" "")]> data
    | None => data
    end in
  let mercancia := ET.find root (ET.qn NS_CARTAPORTE30 "Mercancia") in
  let data :=
    match mercancia with
    | Some mercancia =>
        let clave_prod_serv := ET.get mercancia "BienesTransp" "" in
        let data := <["Clave SAT" := PStr clave_prod_serv]> data in
        let cantidad_transporta :=
          ET.find mercancia (ET.qn NS_CARTAPORTE30 "CantidadTransporta") in
        let data :=
          match cantidad_transporta with
          | Some cantidad_transporta =>
              <["Litros Transportada" := PStr (ET.get cantidad_transporta "Cantidad" "")]> data
          | None =>
              <["Litros Transportada" := PStr (ET.get mercancia "Cantidad" "")]> data
          end in
        <["Combustible" := map_clave_to_combustible clave_prod_serv]> data
    | None => data
    end in
  '(fac, trans, comp) ← format_and_compare_liters
                          (dict_get data "Cantidad Litros Facturada" (PStr "0"))
                          (dict_get data "Litros Transportada" (PStr "0"));
  let data := <["Cantidad Litros Facturada" := PStr fac]> data in
  let data := <["Litros Transportada" := PStr trans]> data in
  let data := <["Comparacion" := PStr comp]> data in
  Ok data.

Definition process_xml_format31 (file_path : ET.file) : result dict :=
  root ← ET.parse file_path;
  data ← extract_common_data root;
  let concepto := ET.find root (ET.qn NS_CFDI "Concepto") in
  let data :=
    match concepto with
    | Some concepto =>
        <["Cantidad Litros Facturada" := PStr (ET.get concepto "Cantidad" "")]> data
    | None => data
    end in
  let mercancia := ET.find root (ET.qn NS_CARTAPORTE31 "Mercancia") in
  let data :=
    match mercancia with
    | Some mercancia =>
        let clave_prod_serv := ET.get mercancia "BienesTransp" "" in
        let data := <["Clave SAT" := PStr clave_prod_serv]> data in
        let cantidad_transporta_node :=
          ET.find mercancia (ET.qn NS_CARTAPORTE31 "CantidadTransporta") in
        let data :=
          match cantidad_transporta_node with
          | Some cantidad_transporta_node =>
              <["Litros Transportada" := PStr (ET.get cantidad_transporta_node "Cantidad" "")]> data
          | None =>
              <["Litros Transportada" := PStr (ET.get mercancia "Cantidad" "")]> data
          end in
        <["Combustible" := map_clave_to_combustible clave_prod_serv]> data
    | None => data
    end in
  '(fac, trans, comp) ← format_and_compare_liters
                          (dict_get data "Cantidad Litros Facturada" (PStr "0"))
                          (dict_get data "Litros Transportada" (PStr "0"));
  let data := <["Cantidad Litros Facturada" := PStr fac]> data in
  let data := <["Litros Transportada" := PStr trans]> data in
  let data := <["Comparacion" := PStr comp]> data in
  Ok data.

Definition process_file_based_on_format (file_path : ET.file)
    : result (option dict) :=
  format_type ← identify_format file_path;
  if bool_decide (format_type = Some "format1")
  then data ← process_xml_format1 file_path; Ok (Some data)
  else if bool_decide (format_type = Some "format2")
  then data ← process_xml_format2 file_path; Ok (Some data)
  else if bool_decide (format_type = Some "format31")
  then data ← process_xml_format31 file_path; Ok (Some data)
  else Ok None.

End xml_processor.

(** ** pandas, as used by the batch

    A [DataFrame] built from a list of dictionaries with the same keys is the
    list of its rows. *)

Abbreviation DataFrame := (list dict).

(** Order of two dates that can be compared (both naive, or both aware):
    that of their instants. *)
Definition datetime_leb (a b : datetime) : bool := (timestamp a <=? timestamp b)%Z.

(** The value of a row in a datetime column: [None] is pandas' [NaT]. *)
Definition column_datetime (by_ : string) (row : dict) : option datetime :=
  match row !! by_ with
  | Some (PDatetime d) => Some d
  | _ => None
  end.

Definition notna (by_ : string) (row : dict) : bool :=
  match column_datetime by_ row with Some _ => true | None => false end.

(** The sort key of a row that has a date. *)
Definition column_timestamp (by_ : string) (row : dict) : Z :=
  match column_datetime by_ row with
  | Some d => timestamp d
  | None => 0%Z
  end.

(** Order of the values of a datetime column: ascending, [NaT] after every
    date. *)
Definition key_leb (a b : option datetime) : bool :=
  match a, b with
  | Some x, Some y => datetime_leb x y
  | _, None => true
  | None, Some _ => false
  end.

Definition row_order (by_ : string) (r1 r2 : dict) : Prop :=
  key_leb (column_datetime by_ r1) (column_datetime by_ r2) = true.

#[export] Instance row_order_dec by_ r1 r2 : Decision (row_order by_ r1 r2).
Proof. unfold row_order. apply _. Defined.

(** The sorting routine under [sort_values] (numpy's [argsort] with the
    default [kind='quicksort']): it puts the rows in ascending order of their
    keys, and which order it gives to rows with the same key is not
    specified.  It is a parameter of the development, given by what it
    guarantees. *)
Definition key_le (key : dict -> Z) : relation dict :=
  fun r1 r2 => (key r1 <= key r2)%Z.

#[export] Instance key_le_dec key r1 r2 : Decision (key_le key r1 r2).
Proof. unfold key_le. apply _. Defined.

Class SortLib : Type := {
  argsort : (dict -> Z) -> list dict -> list dict;
  argsort_Permutation key l : Permutation (argsort key l) l;
  argsort_StronglySorted key l : StronglySorted (key_le key) (argsort key l)
}.

(** The column holds an aware date and a naive one. *)
Definition mixed_awareness (dates : list datetime) : bool :=
  existsb aware dates && existsb (fun d => negb (aware d)) dates.

(** The rows in ascending order of the column, those without a value after
    them, in the order they had ([na_position='last']). *)
Definition nargsort `{SortLib} (by_ : string) (df : DataFrame) : DataFrame :=
  (argsort (column_timestamp by_) (List.filter (notna by_) df)
   ++ List.filter (fun row => negb (notna by_ row)) df)%list.

(** [df.sort_values(by=by_, na_position='last').reset_index(drop=True)] on a
    column of dates.  A column that holds both aware and naive dates is kept
    as Python objects, and sorting it compares an aware date with a naive one,
    which raises [TypeError]; [None] is set aside before any comparison.  (A
    row without the key counts as [NaT]; every row the program sorts has
    it.) *)
Definition sort_values `{SortLib} (by_ : string) (df : DataFrame)
    : result DataFrame :=
  if mixed_awareness (omap (column_datetime by_) df) then Raise TypeError
  else Ok (nargsort by_ df).

(** [df[col] = df[col].astype(float)]: [float()] of every cell; a missing
    column is a [KeyError]. *)
Fixpoint astype_float (col : string) (df : DataFrame) : result DataFrame :=
  match df with
  | [] => Ok []
  | row :: rest =>
      v ← dict_getitem row col;
      x ← py_float v;
      rest' ← astype_float col rest;
      Ok (<[col := PFloat x]> row :: rest')
  end.

(** [df.drop(columns=[col], inplace=True)] *)
Definition drop_column (col : string) (df : DataFrame) : DataFrame :=
  map (delete col) df.

(** ** os.path (POSIX) *)

Module os_path.

(** The part of [s] after its last [c], if [c] occurs. *)
Fixpoint after_last (c : ascii) (s : string) : option string :=
  match s with
  | EmptyString => None
  | String x r =>
      match after_last c r with
      | Some t => Some t
      | None => if Ascii.eqb x c then Some r else None
      end
  end.

Definition basename (p : string) : string :=
  default p (after_last "/" p).

Fixpoint all_dots (s : string) : bool :=
  match s with
  | EmptyString => true
  | String c r => Ascii.eqb c "." && all_dots r
  end.

(** [splitext(p)[0]]: the last dot of the last path component starts the
    extension, unless only dots precede it in that component. *)
Definition splitext_root (p : string) : string :=
  let name := basename p in
  match after_last "." name with
  | Some ext =>
      let stem_len := (String.length name - String.length ext - 1)%nat in
      if all_dots (substring 0 stem_len name) then p
      else substring 0 (String.length p - String.length ext - 1) p
  | None => p
  end.

End os_path.

(** ** pdf_handler.py *)

Definition identify_pdf (xml_filename : string) (pdf_files : gmap string string)
    : string :=
  let base_name := os_path.splitext_root xml_filename in
  let pdf_name := base_name ++ ".pdf" in
  if bool_decide (is_Some (pdf_files !! pdf_name)) then pdf_name else "No encontrado".

(** Truth value of what [process_file_based_on_format] returns: [None] and
    the empty dictionary are false. *)
Definition truthy_data (data : option dict) : bool :=
  match data with
  | Some d => negb (bool_decide (d = ∅))
  | None => false
  end.

Section pdf_handler.
Context `{DatetimeLib} `{SortLib}.

(** The files found under the temporary directory: what is at each path. *)
Variable fs : string -> ET.file.

(** The dictionary of PDF files collected before the loop. *)
Variable pdf_files : gmap string string.

(** State of the loop: the records appended to [all_data] and the lines
    printed, each the path and the exception caught. *)
Abbreviation loop_state := (DataFrame * list (string * exn))%type.

(** One iteration of [for idx, xml_path in enumerate(all_xml_files, start=1)].
    The progress bar is display only. *)
Definition process_one (st : loop_state) (xml_path : string) : loop_state :=
  let '(all_data, printed) := st in
  match process_file_based_on_format (fs xml_path) with
  | Ok data =>
      if truthy_data data then
        match data with
        | Some data =>
            let xml_filename := os_path.basename xml_path in
            let data := <["XML_File" := PStr xml_filename]> data in
            let data := <["PDF Asociado" := PStr (identify_pdf xml_filename pdf_files)]> data in
            ((all_data ++ [data])%list, printed)
        | None => (all_data, printed)
        end
      else (all_data, printed)
  | Raise e =>
      if is_Exception e then (all_data, (printed ++ [(xml_path, e)])%list)
      else (all_data, printed)
  end.

Definition process_all (all_xml_files : list string) : loop_state :=
  fold_left process_one all_xml_files ([], []).

(** [process_uploaded_files] from the point where [all_xml_files] (sorted) and
    [pdf_files] have been collected: the loop, then the conversion, the sort
    and the drop on a non-empty frame.  The outcome is the lines printed by
    the loop, which are on the console whether or not the rest raises, and
    the frame returned or the exception raised after the loop. *)
Definition process_uploaded_files (all_xml_files : list string)
    : list (string * exn) * result DataFrame :=
  let '(all_data, printed) := process_all all_xml_files in
  let df_result := all_data in
  (printed,
   if negb (is_empty df_result) then
     df_result ← astype_float "Cantidad Litros Facturada" df_result;
     df_result ← astype_float "Litros Transportada" df_result;
     df_result ← sort_values "FechaEmision" df_result;
     let df_result := drop_column "FechaEmision" df_result in
     Ok df_result
   else Ok df_result).

End pdf_handler.


(** *** pandas: columns of a frame *)

(** [df[col]] on a frame built from dictionaries: the column exists when some
    row has the key, and a row without it shows [NaN]; otherwise [KeyError]
    (so on the frame built from no row at all). *)
Definition getitem_column (df : DataFrame) (col : string) : result (list pyval) :=
  if existsb (fun row : dict => bool_decide (is_Some (row !! col))) df
  then Ok (map (fun row : dict => default (PFloat S754_nan) (row !! col)) df)
  else Raise KeyError.

Definition is_nan (x : PyFloat.float) : bool :=
  match x with S754_nan => true | _ => false end.

(** Two cells hold the same value for [unique]: equal strings, equal
    numbers, two [NaN], two [None], equal dates. *)
Definition same_value (a b : pyval) : bool :=
  match a, b with
  | PNone, PNone => true
  | PStr s, PStr t => String.eqb s t
  | PFloat x, PFloat y => SFeqb x y || (is_nan x && is_nan y)
  | PDatetime d, PDatetime e => datetime_eqb d e
  | _, _ => false
  end.

(** [Series.unique()]: the values in order of first appearance. *)
Fixpoint unique_from (seen : list pyval) (l : list pyval) : list pyval :=
  match l with
  | [] => []
  | v :: rest =>
      if existsb (same_value v) seen then unique_from seen rest
      else v :: unique_from (v :: seen) rest
  end.

Definition unique (l : list pyval) : list pyval := unique_from [] l.

(** [Series.dropna()] *)
Definition isna (v : pyval) : bool :=
  match v with
  | PNone => true
  | PFloat x => is_nan x
  | _ => false
  end.

Definition dropna (l : list pyval) : list pyval :=
  List.filter (fun v => negb (isna v)) l.

(** [v != s] for a string literal [s]. *)
Definition py_ne_str (v : pyval) (s : string) : bool :=
  match v with
  | PStr t => negb (String.eqb t s)
  | _ => true
  end.

(** [d[k]] on a dictionary with string keys and values. *)
Definition str_dict_getitem (d : gmap string string) (k : pyval) : result string :=
  match k with
  | PStr n =>
      match d !! n with
      | Some v => Ok v
      | None => Raise KeyError
      end
  | _ => Raise KeyError
  end.

(** [k in d] *)
Definition str_dict_contains (d : gmap string string) (k : pyval) : bool :=
  match k with
  | PStr n => bool_decide (is_Some (d !! n))
  | _ => false
  end.

(** ** pdf_handler.py: generar_zip

    The archive is given by its members in the order they are written: the
    spreadsheet, written from memory, then the PDF files, read from disk.
    What [DataFrame.to_excel] serializes is a parameter. *)

Inductive zip_member (Excel : Type) : Type :=
  | Writestr (arcname : string) (data : Excel)
  | Write (filename arcname : string).
Arguments Writestr {Excel} arcname data.
Arguments Write {Excel} filename arcname.

Definition arcname {Excel} (m : zip_member Excel) : string :=
  match m with
  | Writestr a _ => a
  | Write _ a => a
  end.

Section generar_zip.
Context {Excel : Type}.
Variable to_excel : DataFrame -> Excel.

(** [for pdf_name in ...: if pdf_name != 'No encontrado' and pdf_name in
    pdf_files: zf.write(pdf_files[pdf_name], arcname=pdf_name)] *)
Fixpoint write_pdfs (pdf_files : gmap string string) (pdf_names : list pyval)
    (zf : list (zip_member Excel)) : result (list (zip_member Excel)) :=
  match pdf_names with
  | [] => Ok zf
  | pdf_name :: rest =>
      if py_ne_str pdf_name "No encontrado" && str_dict_contains pdf_files pdf_name
      then
        filename ← str_dict_getitem pdf_files pdf_name;
        match pdf_name with
        | PStr a => write_pdfs pdf_files rest (zf ++ [Write filename a])%list
        | _ => Raise TypeError
        end
      else write_pdfs pdf_files rest zf
  end.

Definition generar_zip (df : DataFrame) (pdf_files : gmap string string)
    : result (list (zip_member Excel)) :=
  let zf := [Writestr "datos_procesados.xlsx" (to_excel df)] in
  column ← getitem_column df "PDF Asociado";
  write_pdfs pdf_files (unique column) zf.

End generar_zip.

(** ** main.py

    The expressions of [main] that feed the two selection boxes and the PDF
    viewer; the widgets themselves are display only. *)

(** [df_result["Combustible"].dropna().unique()] *)
Definition combustibles_unicos (df_result : DataFrame) : result (list pyval) :=
  column ← getitem_column df_result "Combustible";
  Ok (unique (dropna column)).

(** [df_result[df_result['PDF Asociado'] != 'No encontrado']['PDF Asociado']
    .unique().tolist()] *)
Definition archivos_con_pdf (df_result : DataFrame) : result (list pyval) :=
  column ← getitem_column df_result "PDF Asociado";
  Ok (unique (List.filter (fun v => py_ne_str v "No encontrado") column)).

(** [pdf_path = st.session_state.pdf_files[selected_pdf]] *)
Definition pdf_path (pdf_files : gmap string string) (selected_pdf : pyval)
    : result string :=
  str_dict_getitem pdf_files selected_pdf.

(** ** An instance of the date parser

    The format documented for [datetime.fromisoformat] before Python 3.11,
    [YYYY-MM-DD[*HH[:MM[:SS[.fff[fff]]]][+HH:MM[:SS[.ffffff]]]]] where [*] is any
    one character, with every field in its range; later versions accept these
    texts too, and more.  A text with an offset gives an aware date.  The
    instance is used to run the program on concrete documents; the general
    results hold for any [DatetimeLib]. *)

Module IsoBasic.

Local Open Scope Z_scope.

(** Exactly [n] digits, read in base ten. *)
Fixpoint fixed_digits (n : nat) (acc : Z) (s : string) : option (Z * string) :=
  match n with
  | O => Some (acc, s)
  | S n' =>
      match s with
      | String c r =>
          if PyFloat.is_digit c
          then fixed_digits n' (10 * acc + PyFloat.digit_val c) r
          else None
      | EmptyString => None
      end
  end.

Definition expect (c : ascii) (s : string) : option string :=
  match s with
  | String x r => if Ascii.eqb x c then Some r else None
  | EmptyString => None
  end.

Definition valid_date (y m d : Z) : bool :=
  (1 <=? y) && (1 <=? m) && (m <=? 12) && (1 <=? d) && (d <=? days_in_month y m).

Definition valid_time (h mi s : Z) : bool :=
  (h <=? 23) && (mi <=? 59) && (s <=? 59).

(** Three or six digits after the point: the microseconds. *)
Definition parse_fraction (s : string) : option (Z * string) :=
  let '(us, n, rest) := PyFloat.take_digits 0 0 s in
  if n =? 3 then Some (us * 1000, rest)
  else if n =? 6 then Some (us, rest)
  else None.

(** [HH[:MM[:SS[.fff[fff]]]]], and what follows it. *)
Definition parse_hh_mm_ss_ff (s : string) : option (Z * Z * Z * Z * string) :=
  '(h, s) ← fixed_digits 2 0 s;
  match s with
  | String ":" s =>
      '(mi, s) ← fixed_digits 2 0 s;
      match s with
      | String ":" s =>
          '(sec, s) ← fixed_digits 2 0 s;
          match s with
          | String "." s => '(us, s) ← parse_fraction s; Some (h, mi, sec, us, s)
          | _ => Some (h, mi, sec, 0, s)
          end
      | _ => Some (h, mi, 0, 0, s)
      end
  | _ => Some (h, 0, 0, 0, s)
  end.

Definition parse_sign (c : ascii) : option Z :=
  if Ascii.eqb c "+" then Some 1
  else if Ascii.eqb c "-" then Some (-1)
  else None.

(** [:SS[.ffffff]] of an offset, when there. *)
Definition parse_offset_seconds (s : string) : option (Z * Z * string) :=
  match s with
  | String ":" s =>
      '(sec, s) ← fixed_digits 2 0 s;
      match s with
      | String "." s => '(us, s) ← fixed_digits 6 0 s; Some (sec, us, s)
      | _ => Some (sec, 0, s)
      end
  | _ => Some (0, 0, s)
  end.

(** Nothing, or [+HH:MM[:SS[.ffffff]]] up to the end of the text: the offset
    in microseconds. *)
Definition parse_offset (s : string) : option (option Z) :=
  match s with
  | EmptyString => Some None
  | String c s =>
      sign ← parse_sign c;
      '(h, s) ← fixed_digits 2 0 s;
      s ← expect ":" s;
      '(mi, s) ← fixed_digits 2 0 s;
      '(sec, us, s) ← parse_offset_seconds s;
      match s with
      | EmptyString =>
          if valid_time h mi sec
          then Some (Some (sign * (((h * 60 + mi) * 60 + sec) * 1000000 + us)))
          else None
      | _ => None
      end
  end.

Definition parse (s : string) : option datetime :=
  '(y, s) ← fixed_digits 4 0 s;
  s ← expect "-" s;
  '(m, s) ← fixed_digits 2 0 s;
  s ← expect "-" s;
  '(d, s) ← fixed_digits 2 0 s;
  if valid_date y m d then
    match s with
    | EmptyString => Some (mkDatetime y m d 0 0 0 0 None)
    | String _ t =>
        '(h, mi, sec, us, t) ← parse_hh_mm_ss_ff t;
        offset ← parse_offset t;
        if valid_time h mi sec then Some (mkDatetime y m d h mi sec us offset)
        else None
    end
  else None.

End IsoBasic.

#[export] Instance iso_basic : DatetimeLib := {| fromisoformat := IsoBasic.parse |}.

(** ** An instance of the sorting routine: merge sort *)

#[export] Instance key_le_total key : Total (key_le key).
Proof. intros r1 r2. unfold key_le. lia. Qed.

#[export] Instance key_le_trans key : Transitive (key_le key).
Proof. intros r1 r2 r3. unfold key_le. lia. Qed.

#[export] Instance merge_sorter : SortLib := {|
  argsort key := merge_sort (key_le key);
  argsort_Permutation key := merge_sort_Permutation (key_le key);
  argsort_StronglySorted key := StronglySorted_merge_sort (key_le key)
|}.


(** ** The shape "three decimals"

    An optional minus sign, at least one digit, a point, exactly three
    digits. *)

Fixpoint all_digits (s : string) : bool :=
  match s with
  | EmptyString => true
  | String c r => PyFloat.is_digit c && all_digits r
  end.

(** [s] cut at its first point. *)
Fixpoint split_point (s : string) : option (string * string) :=
  match s with
  | EmptyString => None
  | String c r =>
      if Ascii.eqb c "." then Some (EmptyString, r)
      else match split_point r with
           | Some (ip, fp) => Some (String c ip, fp)
           | None => None
           end
  end.

Definition unsigned_three_decimals (s : string) : bool :=
  match split_point s with
  | Some (ip, fp) =>
      negb (String.eqb ip "") && all_digits ip
      && all_digits fp && Nat.eqb (String.length fp) 3
  | None => false
  end.

Definition three_decimals (s : string) : bool :=
  match s with
  | String "-" r => unsigned_three_decimals r
  | _ => unsigned_three_decimals s
  end.

(** The characters of a rendering with three decimals. *)
Definition plain_char (c : ascii) : bool :=
  PyFloat.is_digit c || Ascii.eqb c "." || Ascii.eqb c "-".

Fixpoint all_plain (s : string) : bool :=
  match s with
  | EmptyString => true
  | String c r => plain_char c && all_plain r
  end.

Definition starts_with_digit (s : string) : bool :=
  match s with
  | String c _ => PyFloat.is_digit c
  | EmptyString => false
  end.

(** [n] is an integer nearest to the fraction [num / den]. *)
Definition nearest_integer (num den n : Z) : Prop :=
  forall k : Z, (Z.abs (num - n * den) <= Z.abs (num - k * den))%Z.

(** ** Reference definitions

    The value [parse_float] settles on: the number read, or [0.0]. *)
Definition coerced (value : pyval) : PyFloat.float :=
  match py_float value with
  | Ok x => x
  | Raise _ => PyFloat.zero
  end.

(** [abs(a - b) < 1e-9] *)
Definition within_tolerance (a b : PyFloat.float) : bool :=
  PyFloat.ltb (PyFloat.abs (PyFloat.sub a b)) PyFloat.lit_1e_9.

(** *** The record, field by field

    What the specification says each field holds, written directly on the
    document. *)

Section reference.
Context `{DatetimeLib}.

Definition emission_date (root : ET.Element) : pyval :=
  match fromisoformat (ET.get root "Fecha" "") with
  | Some d => PDatetime d
  | None => PNone
  end.

Definition period (root : ET.Element) : string :=
  match fromisoformat (ET.get root "Fecha" "") with
  | Some d => py_str_int (month d)
  | None => ""
  end.

Definition header (root : ET.Element) : dict :=
  <["Comparacion" := PStr ""]>
  (<["Combustible" := PNone]>
  (<["Litros Transportada" := PNone]>
  (<["Cantidad Litros Facturada" := PNone]>
  (<["Clave SAT" := PNone]>
  (<["Folio" := PStr (ET.get root "Folio" "")]>
  (<["Serie" := PStr (ET.get root "Serie" "")]>
  (<["Periodo" := PStr (period root)]>
  (<["FechaEmision" := emission_date root]> (∅ : dict))))))))).

(** Where a variant keeps the transported quantity. *)
Inductive quantity_location_policy : Set :=
  | DirectAttribute
  | NestedThenFallback.

Definition transported_quantity (ns : string) (policy : quantity_location_policy)
    (mercancia : ET.Element) : string :=
  match policy with
  | DirectAttribute => ET.get mercancia "Cantidad" ""
  | NestedThenFallback =>
      match ET.find mercancia (ET.qn ns "CantidadTransporta") with
      | Some nested => ET.get nested "Cantidad" ""
      | None => ET.get mercancia "Cantidad" ""
      end
  end.

(** The raw billed and transported quantities of a document: [None] when the
    element that carries them is not there. *)
Definition billed_raw (root : ET.Element) : pyval :=
  match ET.find root (ET.qn NS_CFDI "Concepto") with
  | Some concepto => PStr (ET.get concepto "Cantidad" "")
  | None => PNone
  end.

Definition transported_raw (ns : string) (policy : quantity_location_policy)
    (root : ET.Element) : pyval :=
  match ET.find root (ET.qn ns "Mercancia") with
  | Some mercancia => PStr (transported_quantity ns policy mercancia)
  | None => PNone
  end.

(** Step 7 of the specification: ["0"] stands for an unset value. *)
Definition substitute_unset (v : pyval) : pyval :=
  match v with
  | PNone => PStr "0"
  | _ => v
  end.

(** Step 3: the billed quantity is the [Cantidad] of the first invoice
    line. *)
Definition read_concepto (root : ET.Element) (data : dict) : dict :=
  match ET.find root (ET.qn NS_CFDI "Concepto") with
  | Some concepto =>
      <["Cantidad Litros Facturada" := PStr (ET.get concepto "Cantidad" "")]> data
  | None => data
  end.

(** Step 7: the two raw values go through [format_and_compare_liters] and
    the three results are written over the record. *)
Definition store_comparison (data : dict) (facturada transportada : pyval)
    : result dict :=
  '(fac, trans, comp) ← format_and_compare_liters facturada transportada;
  Ok (<["Comparacion" := PStr comp]>
     (<["Litros Transportada" := PStr trans]>
     (<["Cantidad Litros Facturada" := PStr fac]> data))).

(** The three fields written by the shared normalization step. *)
Definition normalized (data : dict) (billed transported : pyval) : dict :=
  <["Comparacion" :=
      PStr (if within_tolerance (coerced billed) (coerced transported)
            then "Iguales" else "Diferentes")]>
  (<["Litros Transportada" := PStr (PyFloat.format_3f (coerced transported))]>
  (<["Cantidad Litros Facturada" := PStr (PyFloat.format_3f (coerced billed))]> data)).

(** The fields read from the merchandise element of namespace [ns]. *)
Definition merchandise_fields (ns : string) (policy : quantity_location_policy)
    (root : ET.Element) (data : dict) : dict :=
  match ET.find root (ET.qn ns "Mercancia") with
  | Some mercancia =>
      let sat_key := ET.get mercancia "BienesTransp" "" in
      <["Combustible" := map_clave_to_combustible sat_key]>
      (<["Litros Transportada" := PStr (transported_quantity ns policy mercancia)]>
      (<["Clave SAT" := PStr sat_key]> data))
  | None => data
  end.

(** The record of a well-formed document under a variant. *)
Definition record (ns : string) (policy : quantity_location_policy)
    (root : ET.Element) : dict :=
  normalized (merchandise_fields ns policy root (read_concepto root (header root)))
    (billed_raw root) (transported_raw ns policy root).

(** The single extractor of the specification, parametrized by the namespace
    of the variant and by its quantity-location policy (section 4.5, steps 1
    to 7). *)
Definition generic_extractor (ns : string) (policy : quantity_location_policy)
    (file_path : ET.file) : result dict :=
  root ← ET.parse file_path;
  data ← extract_common_data root;
  let data := read_concepto root data in
  let data :=
    match ET.find root (ET.qn ns "Mercancia") with
    | Some mercancia =>
        let sat_key := ET.get mercancia "BienesTransp" "" in
        <["Combustible" := map_clave_to_combustible sat_key]>
        (<["Litros Transportada" := PStr (transported_quantity ns policy mercancia)]>
        (<["Clave SAT" := PStr sat_key]> data))
    | None => data
    end in
  store_comparison data
    (substitute_unset (dict_get data "Cantidad Litros Facturada" PNone))
    (substitute_unset (dict_get data "Litros Transportada" PNone)).

End reference.

(** Substituting one namespace for another throughout a document: the two
    URIs are exchanged in every tag. *)
Definition swap_uri (a b u : string) : string :=
  if bool_decide (u = a) then b else if bool_decide (u = b) then a else u.

Definition swap_tag (a b : string) (t : ET.QName) : ET.QName :=
  ET.qn (swap_uri a b (ET.uri t)) (ET.local t).

Fixpoint swap_ns (a b : string) (e : ET.Element) : ET.Element :=
  match e with
  | ET.mkElement t attrs cs => ET.mkElement (swap_tag a b t) attrs (map (swap_ns a b) cs)
  end.

Definition swap_ns_file (a b : string) (f : ET.file) : ET.file :=
  match f with
  | ET.Broken why => ET.Broken why
  | ET.WellFormed root => ET.WellFormed (swap_ns a b root)
  end.

(** The fields of a record that do not come from the quantity-location
    policy. *)
Definition policy_independent_fields : list string :=
  ["FechaEmision"; "Periodo"; "Serie"; "Folio"; "Clave SAT";
   "Cantidad Litros Facturada"; "Combustible"].


(** The classifier names a variant for the file. *)
Definition recognized (f : ET.file) : bool :=
  match identify_format f with
  | Ok (Some _) => true
  | _ => false
  end.

(** What a record holds under a key, when there is a record. *)
Definition result_field (k : string) (r : result dict) : result (option pyval) :=
  match r with
  | Ok data => Ok (data !! k)
  | Raise e => Raise e
  end.

(** The state of the two quantity fields and of the comparison after the
    shared normalization step, for raw values [billed] and [transported]. *)
Definition normalization_invariant (billed transported : pyval)
    (r : result dict) : Prop :=
  exists data, r = Ok data
    /\ data !! "Cantidad Litros Facturada"
       = Some (PStr (PyFloat.format_3f (coerced billed)))
    /\ data !! "Litros Transportada"
       = Some (PStr (PyFloat.format_3f (coerced transported)))
    /\ (PyFloat.is_finite (coerced billed) = true ->
        three_decimals (PyFloat.format_3f (coerced billed)) = true)
    /\ (PyFloat.is_finite (coerced transported) = true ->
        three_decimals (PyFloat.format_3f (coerced transported)) = true)
    /\ (data !! "Comparacion" = Some (PStr "Iguales")
        \/ data !! "Comparacion" = Some (PStr "Diferentes")).

(** *** The batch, document by document *)

(** The exception [ET.parse] raises on a file, if any. *)
Definition parse_failure (f : ET.file) : option exn :=
  match ET.parse f with
  | Raise e => Some e
  | Ok _ => None
  end.

Section batch_reference.
Context `{DatetimeLib}.
Variable fs : string -> ET.file.
Variable pdf_files : gmap string string.

(** The two fields the loop attaches to a record. *)
Definition with_file_fields (xml_path : string) (data : dict) : dict :=
  let xml_filename := os_path.basename xml_path in
  <["PDF Asociado" := PStr (identify_pdf xml_filename pdf_files)]>
  (<["XML_File" := PStr xml_filename]> data).

(** One record per recognized, well-formed document, in the order of the
    paths. *)
Definition collected (all_xml_files : list string) : DataFrame :=
  omap (fun xml_path =>
          match process_file_based_on_format (fs xml_path) with
          | Ok (Some data) => Some (with_file_fields xml_path data)
          | _ => None
          end) all_xml_files.

(** One printed line per document that raised. *)
Definition printed_lines (all_xml_files : list string) : list (string * exn) :=
  omap (fun xml_path =>
          match process_file_based_on_format (fs xml_path) with
          | Raise e => Some (xml_path, e)
          | _ => None
          end) all_xml_files.

End batch_reference.

(** The emission date of a document that the batch keeps: a recognized,
    well-formed document whose [Fecha] is accepted by [fromisoformat]. *)
Definition document_date `{DatetimeLib} (f : ET.file) : option datetime :=
  match f with
  | ET.WellFormed root =>
      if recognized f then fromisoformat (ET.get root "Fecha" "") else None
  | ET.Broken _ => None
  end.

Definition batch_dates `{DatetimeLib} (fs : string -> ET.file)
    (all_xml_files : list string) : list datetime :=
  omap (fun xml_path => document_date (fs xml_path)) all_xml_files.

(** A cell converted to a float. *)
Definition float_cell (col : string) (row : dict) : dict :=
  <[col := PFloat (coerced (default PNone (row !! col)))]> row.

Definition float_columns (row : dict) : dict :=
  float_cell "Litros Transportada" (float_cell "Cantidad Litros Facturada" row).

(** *** Sample documents *)

Definition element (ns name : string) (attrs : list (string * string))
    (cs : list ET.Element) : ET.Element :=
  ET.mkElement (ET.qn ns name) (list_to_map attrs) cs.

(** A CFDI with one invoice line and a Carta Porte complement of namespace
    [ns] holding one merchandise element. *)
Definition carta_porte (ns fecha billed : string)
    (mercancia_attrs : list (string * string)) (nested : list ET.Element)
    : ET.Element :=
  element NS_CFDI "Comprobante" [("Fecha", fecha); ("Serie", "A"); ("Folio", "17")]
    [ element NS_CFDI "Conceptos" []
        [ element NS_CFDI "Concepto" [("Cantidad", billed)] [] ];
      element NS_CFDI "Complemento" []
        [ element ns "CartaPorte" []
            [ element ns "Mercancias" []
                [ element ns "Mercancia" mercancia_attrs nested ] ] ] ].

(** A CFDI without any Carta Porte complement. *)
Definition plain_invoice : ET.Element :=
  element NS_CFDI "Comprobante" [("Fecha", "2023-03-01T08:00:00")]
    [ element NS_CFDI "Conceptos" []
        [ element NS_CFDI "Concepto" [("Cantidad", "10")] [] ] ].

(** A column of the frame a batch returns, and the lines it printed. *)
Definition batch_column (k : string)
    (r : list (string * exn) * result DataFrame) : result (list (option pyval)) :=
  rows ← snd r; Ok (map (fun row : dict => row !! k) rows).

Definition batch_printed (r : list (string * exn) * result DataFrame)
    : list (string * exn) :=
  fst r.

(** Three recognized documents, dated May 2023, January 2023 and with a
    date that does not parse, then an invoice without CartaPorte; any other
    path holds a file that is not well-formed XML. *)
Definition sample_files (xml_path : string) : ET.file :=
  if String.eqb xml_path "a.xml" then
    ET.WellFormed (carta_porte NS_CARTAPORTE30 "2023-05-01" "100"
      [("BienesTransp", "15101514"); ("Cantidad", "100")] [])
  else if String.eqb xml_path "b.xml" then
    ET.WellFormed (carta_porte NS_CARTAPORTE20 "2023-01-01" "100"
      [("BienesTransp", "15101515"); ("Cantidad", "100")] [])
  else if String.eqb xml_path "c.xml" then
    ET.WellFormed (carta_porte NS_CARTAPORTE31 "sin fecha" "100"
      [("BienesTransp", "15101505")]
      [element NS_CARTAPORTE31 "CantidadTransporta" [("Cantidad", "100")] []])
  else if String.eqb xml_path "d.xml" then ET.WellFormed plain_invoice
  else ET.Malformed.

(** ** Reference definitions for the rest of the program *)

(** The keys [extract_common_data] sets: the columns of a record. *)
Definition record_keys : gset string :=
  list_to_set ["FechaEmision"; "Periodo"; "Serie"; "Folio"; "Clave SAT";
               "Cantidad Litros Facturada"; "Litros Transportada";
               "Combustible"; "Comparacion"].

(** The three fuel labels. *)
Definition fuel_labels : list string := ["magna"; "premium"; "diesel"].

(** No character of [s] is [c]. *)
Fixpoint no_char (c : ascii) (s : string) : bool :=
  match s with
  | EmptyString => true
  | String x r => negb (Ascii.eqb x c) && no_char c r
  end.

(** The columns of the frame a batch returns. *)
Definition batch_columns : gset string :=
  list_to_set ["Periodo"; "Serie"; "Folio"; "Clave SAT";
               "Cantidad Litros Facturada"; "Litros Transportada";
               "Combustible"; "Comparacion"; "XML_File"; "PDF Asociado"].

(** [ET.parse] fails on the file. *)
Definition is_broken (f : ET.file) : bool :=
  match f with
  | ET.Broken _ => true
  | ET.WellFormed _ => false
  end.


(** [s] ends with [suffix]. *)
Fixpoint ends_with (suffix s : string) : bool :=
  String.eqb s suffix
  || match s with
     | String _ r => ends_with suffix r
     | EmptyString => false
     end.

(** The PDF members that [generar_zip] writes for a list of names: the names
    that are strings other than ['No encontrado'] and keys of [pdf_files]. *)
Definition pdf_members {Excel} (pdf_files : gmap string string)
    (pdf_names : list pyval) : list (zip_member Excel) :=
  omap (fun v =>
          match v with
          | PStr a =>
              if String.eqb a "No encontrado" then None
              else option_map (fun filename => Write filename a) (pdf_files !! a)
          | _ => None
          end) pdf_names.

(** The sample batch: its paths, its PDF files and the frame it returns. *)
Definition sample_paths : list string :=
  ["a.xml"; "b.xml"; "c.xml"; "d.xml"; "e.xml"].

Definition sample_pdf_files : gmap string string :=
  <["a.pdf" := "./temp_files/a.pdf"]> ∅.

Definition sample_frame : DataFrame :=
  drop_column "FechaEmision"
    (nargsort "FechaEmision"
       (map float_columns (collected sample_files sample_pdf_files sample_paths))).

(** Two recognized documents, the first dated without an offset and the
    second with one. *)
Definition mixed_files (xml_path : string) : ET.file :=
  if String.eqb xml_path "a.xml" then
    ET.WellFormed (carta_porte NS_CARTAPORTE30 "2023-05-01T10:00:00" "100"
      [("BienesTransp", "15101514"); ("Cantidad", "100")] [])
  else if String.eqb xml_path "b.xml" then
    ET.WellFormed (carta_porte NS_CARTAPORTE30 "2023-01-01T10:00:00-06:00" "100"
      [("BienesTransp", "15101514"); ("Cantidad", "100")] [])
  else ET.Broken ET.Unreadable.

(** ** pdf_handler.py: the files of a batch

    The part of [process_uploaded_files] between the upload and the loop.
    What [os.walk(temp_dir)] yields (each directory with its file names) and
    the dictionary left by the loop over the uploaded files are given; the
    writes to disk and the extraction of the archives are not modelled. *)

(** [str.lower()], on code points below 256. *)
Definition py_lower_char (c : ascii) : ascii :=
  let n := nat_of_ascii c in
  if ((65 <=? n)%nat && (n <=? 90)%nat)
     || ((192 <=? n)%nat && (n <=? 222)%nat && negb (n =? 215)%nat)
  then ascii_of_nat (n + 32) else c.

Fixpoint py_lower (s : string) : string :=
  match s with
  | EmptyString => EmptyString
  | String c r => String (py_lower_char c) (py_lower r)
  end.

(** [s.endswith(suffix)] *)
Definition endswith (s suffix : string) : bool := ends_with suffix s.

(** [os.path.join(a, b)] (POSIX) *)
Definition path_join (a b : string) : string :=
  match b with
  | String "/" _ => b
  | _ => if String.eqb a "" || endswith a "/" then a ++ b else a ++ "/" ++ b
  end.

(** Order of [str]: by code points. *)
Definition str_le (a b : string) : Prop := String.leb a b = true.

#[export] Instance str_le_dec a b : Decision (str_le a b).
Proof. unfold str_le. apply _. Defined.

(** [sorted(l)] on strings *)
Definition sorted (l : list string) : list string := merge_sort str_le l.

(** The second loop: every file whose lowered name ends in [.pdf] is recorded
    under its name, a later directory overwriting an earlier one. *)
Definition collect_pdfs (walk : list (string * list string))
    (pdf_files : gmap string string) : gmap string string :=
  fold_left
    (fun pdf_files '(root_dir, files) =>
       fold_left
         (fun pdf_files file =>
            if endswith (py_lower file) ".pdf"
            then <[file := path_join root_dir file]> pdf_files
            else pdf_files)
         files pdf_files)
    walk pdf_files.

(** The third loop, and the sort. *)
Definition collect_xml (walk : list (string * list string)) : list string :=
  sorted
    (flat_map
       (fun '(root_dir, files) =>
          map (path_join root_dir)
            (List.filter (fun file => endswith (py_lower file) ".xml") files))
       walk).

(** [process_uploaded_files] from the walk on: it returns the frame (with the
    printed lines) and the dictionary of PDF files. *)
Definition process_walked_files `{DatetimeLib} `{SortLib} (fs : string -> ET.file)
    (walk : list (string * list string)) (pdf_files : gmap string string)
    : (list (string * exn) * result DataFrame) * gmap string string :=
  let pdf_files := collect_pdfs walk pdf_files in
  let all_xml_files := collect_xml walk in
  (process_uploaded_files fs pdf_files all_xml_files, pdf_files).

(** A walk: two PDF files, one with an upper-case extension, and two XML
    files in a subdirectory. *)
Definition sample_walk : list (string * list string) :=
  [("./temp_files", ["b.PDF"; "notes.txt"; "a.pdf"]);
   ("./temp_files/sub", ["b.xml"; "a.XML"])].

(** The files of one directory. *)
Definition collect_dir (root_dir : string) (files : list string)
    (pdf_files : gmap string string) : gmap string string :=
  fold_left
    (fun pdf_files file =>
       if endswith (py_lower file) ".pdf"
       then <[file := path_join root_dir file]> pdf_files
       else pdf_files)
    files pdf_files.

(** * Results *)

(** ** The [.3f] format *)

Module PyFloatFacts.
Import PyFloat.
Local Open Scope Z_scope.

Lemma is_digit_digit_char d : 0 <= d < 10 -> is_digit (digit_char d) = true.
Proof.
  intros Hd.
  assert (Hcases : d = 0 \/ d = 1 \/ d = 2 \/ d = 3 \/ d = 4 \/ d = 5 \/
                   d = 6 \/ d = 7 \/ d = 8 \/ d = 9) by lia.
  repeat (destruct Hcases as [-> | Hcases]; [reflexivity |]).
  subst d; reflexivity.
Qed.

Lemma all_digits_three_digits n : all_digits (three_digits n) = true.
Proof.
  unfold three_digits; cbn [all_digits].
  rewrite !is_digit_digit_char; [reflexivity | |  |];
    apply Z.mod_pos_bound; lia.
Qed.

Lemma length_three_digits n : String.length (three_digits n) = 3%nat.
Proof. reflexivity. Qed.

Lemma all_digits_uint (u : Decimal.uint) :
  all_digits (NilEmpty.string_of_uint u) = true.
Proof. induction u; cbn; auto. Qed.

Lemma all_digits_Z_to_string z : 0 <= z -> all_digits (Z_to_string z) = true.
Proof.
  intros Hz. unfold Z_to_string.
  destruct z as [| p | p]; [reflexivity | | lia].
  cbn [Z.to_int NilZero.string_of_int].
  unfold NilZero.string_of_uint.
  destruct (Pos.to_uint p) eqn:E; try reflexivity;
    rewrite <- E; apply all_digits_uint.
Qed.

Lemma Z_to_string_nonempty z : 0 <= z -> Z_to_string z <> "".
Proof.
  intros Hz. unfold Z_to_string.
  destruct z as [| p | p]; [discriminate | | lia].
  cbn [Z.to_int NilZero.string_of_int].
  unfold NilZero.string_of_uint.
  destruct (Pos.to_uint p); discriminate.
Qed.

Lemma split_point_digits ip fp :
  all_digits ip = true -> split_point (ip ++ String "." fp) = Some (ip, fp).
Proof.
  induction ip as [| c ip IH]; simpl; [reflexivity |].
  intros [Hc Hip]%andb_prop.
  destruct (Ascii.eqb_spec c "."%char) as [-> | _]; [discriminate |].
  now rewrite (IH Hip).
Qed.

Lemma unsigned_three_decimals_intro ip fp :
  ip <> "" -> all_digits ip = true -> all_digits fp = true ->
  String.length fp = 3%nat ->
  unsigned_three_decimals (ip ++ String "." fp) = true.
Proof.
  intros Hne Hip Hfp Hlen. unfold unsigned_three_decimals.
  rewrite split_point_digits by assumption.
  rewrite Hip, Hfp, Hlen.
  destruct (String.eqb_spec ip ""); [contradiction | reflexivity].
Qed.

Lemma three_decimals_unsigned s :
  unsigned_three_decimals s = true -> three_decimals s = true.
Proof.
  intros Hs. destruct s as [| c r]; [discriminate |].
  unfold three_decimals.
  destruct (Ascii.eqb_spec c "-"%char) as [-> | Hc].
  - unfold unsigned_three_decimals in Hs; simpl in Hs.
    destruct (split_point r) as [[ip fp] |]; discriminate.
  - destruct c as [[] [] [] [] [] [] [] []]; try assumption; contradiction.
Qed.

Lemma round_half_even_near num den :
  0 < den -> 2 * Z.abs (num - round_half_even num den * den) <= den.
Proof.
  intros Hden. unfold round_half_even.
  pose proof (Z.div_mod num den ltac:(lia)) as Hdm.
  pose proof (Z.mod_pos_bound num den Hden) as Hr.
  destruct (Z.compare_spec (2 * (num mod den)) den);
    [destruct (Z.even (num / den)) | |]; nia.
Qed.

Lemma round_half_even_nonneg num den :
  0 <= num -> 0 < den -> 0 <= round_half_even num den.
Proof.
  intros Hn Hd. unfold round_half_even.
  pose proof (Z.div_pos num den Hn Hd).
  destruct (2 * (num mod den) ?= den); [destruct (Z.even _) | |]; lia.
Qed.

Lemma near_is_nearest num den n :
  0 < den -> 2 * Z.abs (num - n * den) <= den -> nearest_integer num den n.
Proof.
  intros Hden Hn k.
  destruct (Z.eq_dec k n) as [-> | Hk]; [lia |].
  assert (den <= Z.abs (n * den - k * den)) by nia.
  lia.
Qed.

Lemma thousandths_nonneg m e : 0 <= thousandths m e.
Proof.
  unfold thousandths. destruct (Z.leb_spec 0 e).
  - assert (0 < 2 ^ e) by (apply Z.pow_pos_nonneg; lia). nia.
  - apply round_half_even_nonneg; [lia | apply Z.pow_pos_nonneg; lia].
Qed.

(** The digits printed are those of a nearest thousandth of the value
    [m * 2^e]: exact when the value is an integer, rounded otherwise. *)
Lemma thousandths_nearest m e :
  if 0 <=? e then thousandths m e = Zpos m * 2 ^ e * 1000
  else nearest_integer (Zpos m * 1000) (2 ^ (- e)) (thousandths m e).
Proof.
  unfold thousandths. destruct (Z.leb_spec 0 e); [reflexivity |].
  assert (0 < 2 ^ (- e)) by (apply Z.pow_pos_nonneg; lia).
  apply near_is_nearest; [assumption |].
  now apply round_half_even_near.
Qed.

Lemma three_decimals_format_3f x :
  is_finite x = true -> three_decimals (format_3f x) = true.
Proof.
  destruct x as [s | s | | s m e]; try discriminate; intros _.
  - destruct s; reflexivity.
  - unfold format_3f.
    pose proof (thousandths_nonneg m e) as Hn.
    set (n := thousandths m e) in *.
    assert (Hq : 0 <= n / 1000) by (apply Z.div_pos; lia).
    assert (Hbody : unsigned_three_decimals
              (Z_to_string (n / 1000) ++ "." ++ three_digits (n mod 1000)) = true).
    { apply unsigned_three_decimals_intro;
        auto using Z_to_string_nonempty, all_digits_Z_to_string,
                   all_digits_three_digits, length_three_digits. }
    destruct s; cbn [sign_prefix String.append].
    + exact Hbody.
    + now apply three_decimals_unsigned.
Qed.

(** *** [float()] reads back what [.3f] writes *)

Lemma plain_char_facts c :
  plain_char c = true -> is_space c = false /\ Ascii.eqb c underscore = false.
Proof.
  destruct c as [[] [] [] [] [] [] [] []]; cbn; intros Hc;
    try discriminate Hc; split; reflexivity.
Qed.

Lemma is_digit_plain c : is_digit c = true -> plain_char c = true.
Proof. intros Hc; unfold plain_char; now rewrite Hc. Qed.

Lemma all_digits_plain s : all_digits s = true -> all_plain s = true.
Proof.
  induction s as [| c r IH]; cbn; [reflexivity |].
  intros [Hc Hr]%andb_prop. now rewrite (is_digit_plain _ Hc), IH.
Qed.

Lemma all_plain_app s t :
  all_plain s = true -> all_plain t = true -> all_plain (s ++ t) = true.
Proof.
  induction s as [| c r IH]; simpl; [auto |].
  intros [Hc Hr]%andb_prop Ht. now rewrite Hc, IH.
Qed.

Lemma remove_underscores_plain s : forall prev,
  all_plain s = true ->
  match prev with Some p => Ascii.eqb p underscore = false | None => True end ->
  remove_underscores prev s = Some s.
Proof.
  induction s as [| c r IH]; intros prev Hs Hprev; simpl in *.
  - destruct prev as [p |]; [now rewrite Hprev | reflexivity].
  - apply andb_prop in Hs as [Hc Hr].
    destruct (plain_char_facts c Hc) as [_ Hu]. rewrite Hu.
    rewrite (IH (Some c) Hr Hu).
    destruct prev as [p |]; [rewrite Hprev |]; reflexivity.
Qed.

Lemma rstrip_tail_plain s : all_plain s = true -> rstrip_tail s = s.
Proof.
  induction s as [| c r IH]; simpl; [reflexivity |].
  intros [Hc Hr]%andb_prop. rewrite (IH Hr).
  destruct (plain_char_facts c Hc) as [Hsp _]. rewrite Hsp.
  now destruct r.
Qed.

Lemma strip_plain s : all_plain s = true -> strip s = s.
Proof.
  destruct s as [| c r]; [reflexivity |].
  simpl. intros [Hc Hr]%andb_prop.
  destruct (plain_char_facts c Hc) as [Hsp _].
  unfold strip; simpl. rewrite Hsp. now rewrite (rstrip_tail_plain r Hr).
Qed.

Lemma append_String c (s t : string) : String c s ++ t = String c (s ++ t).
Proof. reflexivity. Qed.

Lemma take_digits_app ds rest : forall acc n,
  all_digits ds = true -> starts_with_digit rest = false ->
  exists acc',
    take_digits acc n (ds ++ rest) = (acc', n + Z.of_nat (String.length ds), rest).
Proof.
  induction ds as [| c ds IH]; intros acc n Hds Hrest;
    [change ("" ++ rest) with rest | rewrite append_String];
    cbn [take_digits all_digits String.length] in *.
  - exists acc. rewrite Z.add_0_r.
    destruct rest as [| c r]; [reflexivity |].
    cbn [starts_with_digit] in Hrest. cbn [take_digits]. now rewrite Hrest.
  - apply andb_prop in Hds as [Hc Hds]. rewrite Hc.
    destruct (IH (10 * acc + digit_val c) (n + 1) Hds Hrest) as [acc' ->].
    exists acc'. do 2 f_equal. lia.
Qed.

Lemma take_sign_digit s :
  starts_with_digit s = true -> take_sign s = (false, s).
Proof.
  destruct s as [| c r]; [discriminate |].
  destruct c as [[] [] [] [] [] [] [] []]; cbn; intros Hc;
    try discriminate Hc; reflexivity.
Qed.

Lemma starts_with_digit_app s t :
  s <> "" -> all_digits s = true -> starts_with_digit (s ++ t) = true.
Proof.
  destruct s as [| c r]; [contradiction |].
  simpl. now intros _ [Hc _]%andb_prop.
Qed.

Lemma parse_decimal_fixed neg ip fp :
  ip <> "" -> all_digits ip = true -> all_digits fp = true ->
  exists x, parse_decimal neg (ip ++ String "." fp) = Some x.
Proof.
  intros Hne Hip Hfp. unfold parse_decimal.
  destruct (take_digits_app ip (String "." fp) 0 0 Hip eq_refl) as [v ->].
  destruct (take_digits_app fp "" v 0 Hfp eq_refl) as [m Hm].
  assert (Hnil : forall t : string, t ++ "" = t)
    by (induction t as [| c t IH];
        [reflexivity | now rewrite append_String, IH]).
  rewrite Hnil in Hm. rewrite Hm.
  assert ((0 + Z.of_nat (String.length ip) + (0 + Z.of_nat (String.length fp))
           =? 0) = false) as ->.
  { apply Z.eqb_neq. destruct ip; [contradiction | simpl String.length; lia]. }
  simpl. eauto.
Qed.

Lemma of_string_fixed s ip fp :
  ip <> "" -> all_digits ip = true -> all_digits fp = true ->
  exists y, of_string (sign_prefix s ++ ip ++ String "." fp) = Some y.
Proof.
  intros Hne Hip Hfp.
  assert (Hbody : all_plain (ip ++ String "." fp) = true).
  { apply all_plain_app; [now apply all_digits_plain |].
    cbn [all_plain]. now rewrite (all_digits_plain _ Hfp). }
  assert (Hall : all_plain (sign_prefix s ++ ip ++ String "." fp) = true).
  { destruct s; [| exact Hbody].
    change (all_plain (String "-" (ip ++ String "." fp)) = true).
    cbn [all_plain]. now rewrite Hbody. }
  unfold of_string.
  rewrite (remove_underscores_plain _ None Hall I), (strip_plain _ Hall).
  destruct (parse_decimal_fixed s ip fp Hne Hip Hfp) as [y Hy].
  exists y. destruct s.
  - change (sign_prefix true ++ ip ++ String "." fp)
      with (String "-" (ip ++ String "." fp)).
    cbn [take_sign]. now rewrite Hy.
  - change (sign_prefix false ++ ip ++ String "." fp)
      with (ip ++ String "." fp).
    rewrite take_sign_digit by now apply starts_with_digit_app.
    now rewrite Hy.
Qed.

Lemma of_string_format_3f x : exists y, of_string (format_3f x) = Some y.
Proof.
  destruct x as [s | s | | s m e].
  - destruct s; eexists; vm_compute; reflexivity.
  - destruct s; eexists; vm_compute; reflexivity.
  - eexists; vm_compute; reflexivity.
  - unfold format_3f.
    pose proof (thousandths_nonneg m e) as Hn.
    assert (Hq : 0 <= thousandths m e / 1000) by (apply Z.div_pos; lia).
    apply of_string_fixed;
      auto using Z_to_string_nonempty, all_digits_Z_to_string,
                 all_digits_three_digits.
Qed.

End PyFloatFacts.

(** ** utils.py *)

Lemma py_float_raises value e :
  py_float value = Raise e -> is_ValueError_or_TypeError e = true.
Proof.
  destruct value as [| s | x | d]; cbn;
    [| destruct (PyFloat.of_string s) | |]; intros [= <-]; reflexivity.
Qed.

Lemma parse_float_coerced value : parse_float value = Ok (coerced value).
Proof.
  unfold parse_float, coerced, try_except.
  destruct (py_float value) as [x | e] eqn:E; [reflexivity |].
  now rewrite (py_float_raises _ _ E).
Qed.

(** C6 -- [parse_float] is total.  Whatever it is given (a numeric string, the
    empty string, any other text, [None]) it returns a float and raises
    nothing: the float that [float()] reads when the coercion succeeds, and
    [0.0] whenever the coercion fails, whatever the failure. *)
Theorem parse_float_total (value : pyval) :
  (exists x, parse_float value = Ok x)
  /\ parse_float value =
       Ok (match py_float value with Ok x => x | Raise _ => PyFloat.zero end)
  /\ parse_float PNone = Ok PyFloat.zero
  /\ parse_float (PStr "") = Ok PyFloat.zero
  /\ parse_float (PStr "abc") = Ok PyFloat.zero
  /\ parse_float (PStr "123.45") = Ok (S754_finite false 8687021468732621 (-46)).
Proof.
  split; [rewrite parse_float_coerced; eauto |].
  split; [apply parse_float_coerced |].
  repeat split; vm_compute; reflexivity.
Qed.

Lemma format_and_compare_liters_eq a b :
  format_and_compare_liters a b =
    Ok (PyFloat.format_3f (coerced a), PyFloat.format_3f (coerced b),
        if within_tolerance (coerced a) (coerced b) then "Iguales" else "Diferentes").
Proof.
  unfold format_and_compare_liters. now rewrite !parse_float_coerced.
Qed.

(** ** Element trees *)

Module ETFacts.
Import ET.

Lemma Element_ind (P : Element -> Prop) :
  (forall t attrs cs, Forall P cs -> P (mkElement t attrs cs)) ->
  forall e, P e.
Proof.
  intros step. fix rec 1. intros [t attrs cs]. apply step.
  induction cs as [| c cs IH]; constructor; [apply rec | exact IH].
Qed.

(** [findall] is non-empty exactly when [find] finds something, and what
    [find] returns is a descendant with the tag searched. *)
Lemma findall_nonempty_find e t :
  is_empty (findall e t) = false <-> is_Some (find e t).
Proof.
  unfold find. destruct (findall e t); cbn; split; intros Hx;
    try discriminate; try (by eexists); try reflexivity.
  by destruct Hx.
Qed.


Lemma find_Some_tag e t m : find e t = Some m -> tag m = t /\ m ∈ descendants e.
Proof.
  unfold find, findall. intros Hm.
  assert (Hin : m ∈ filter (fun d => tag d = t) (descendants e)).
  { destruct (filter _ _) as [| x l]; [discriminate |].
    injection Hm as ->. left. }
  by apply list_elem_of_filter in Hin.
Qed.

(** *** Exchanging two namespaces *)

Lemma swap_uri_involutive a b u : swap_uri a b (swap_uri a b u) = u.
Proof. unfold swap_uri. repeat case_bool_decide; congruence. Qed.

Lemma swap_tag_involutive a b t : swap_tag a b (swap_tag a b t) = t.
Proof. destruct t as [u l]. unfold swap_tag; cbn. by rewrite swap_uri_involutive. Qed.

Lemma swap_tag_eq a b t t' : swap_tag a b t = swap_tag a b t' <-> t = t'.
Proof.
  split; [| by intros ->]. intros Heq.
  by rewrite <- (swap_tag_involutive a b t), Heq, swap_tag_involutive.
Qed.

Lemma tag_swap_ns a b e : tag (swap_ns a b e) = swap_tag a b (tag e).
Proof. by destruct e. Qed.

Lemma attrib_swap_ns a b e : attrib (swap_ns a b e) = attrib e.
Proof. by destruct e. Qed.

Lemma get_swap_ns a b e k dflt : get (swap_ns a b e) k dflt = get e k dflt.
Proof. unfold get. by rewrite attrib_swap_ns. Qed.

Lemma flat_map_iter_swap a b cs :
  Forall (fun c => iter (swap_ns a b c) = map (swap_ns a b) (iter c)) cs ->
  flat_map iter (map (swap_ns a b) cs) = map (swap_ns a b) (flat_map iter cs).
Proof.
  induction 1 as [| c cs Hc _ IH]; [reflexivity |].
  cbn [map flat_map]. by rewrite Hc, IH, map_app.
Qed.

Lemma iter_swap_ns a b e : iter (swap_ns a b e) = map (swap_ns a b) (iter e).
Proof.
  induction e as [t attrs cs IH] using Element_ind.
  cbn [swap_ns iter map]. f_equal. by apply flat_map_iter_swap.
Qed.

Lemma descendants_swap_ns a b e :
  descendants (swap_ns a b e) = map (swap_ns a b) (descendants e).
Proof.
  destruct e as [t attrs cs]. unfold descendants. cbn [swap_ns children].
  apply flat_map_iter_swap, Forall_forall. intros c _. apply iter_swap_ns.
Qed.

Lemma filter_tag_swap a b t l :
  filter (fun d => tag d = swap_tag a b t) (map (swap_ns a b) l)
  = map (swap_ns a b) (filter (fun d => tag d = t) l).
Proof.
  induction l as [| x l IH]; [reflexivity |].
  cbn [map]. rewrite !filter_cons, IH, tag_swap_ns.
  repeat case_decide; try reflexivity.
  - exfalso. by apply swap_tag_eq in H.
  - exfalso. apply H. by f_equal.
Qed.

Lemma findall_swap_ns a b e t :
  findall (swap_ns a b e) (swap_tag a b t) = map (swap_ns a b) (findall e t).
Proof. unfold findall. by rewrite descendants_swap_ns, filter_tag_swap. Qed.

Lemma find_swap_ns a b e t :
  find (swap_ns a b e) (swap_tag a b t) = option_map (swap_ns a b) (find e t).
Proof. unfold find. rewrite findall_swap_ns. by destruct (findall e t). Qed.

End ETFacts.

(** C3 (code defect) -- [float()] accepts ["nan"], so [parse_float] does not
    fall back to [0.0] for it, and the [.3f] rendering of the value is
    ["nan"], which has no decimals, where the docstring of the function
    promises three. *)
Lemma format_and_compare_liters_nan :
  format_and_compare_liters (PStr "nan") (PStr "10")
  = Ok ("nan", "10.000", "Diferentes")
  /\ three_decimals "nan" = false.
Proof. split; vm_compute; reflexivity. Qed.

(** X21 -- [format_and_compare_liters] never raises.  It coerces both
    arguments with [parse_float] and returns the [.3f] rendering of each
    coerced value, which has exactly three decimals whenever that value is
    finite, the digits being those of a nearest thousandth (ties to even);
    the comparison is ["Iguales"] exactly when the absolute difference of the
    coerced values is below [1e-9], and ["Diferentes"] otherwise.  It is a
    function of its two arguments alone.  ("10", "10") gives
    ("10.000", "10.000", "Iguales"); ("10", "10.0000000009") compares equal;
    ("10", "10.01") compares different. *)
Theorem format_and_compare_liters_spec (facturada_str transportada_str : pyval) :
  let a := coerced facturada_str in
  let b := coerced transportada_str in
  parse_float facturada_str = Ok a
  /\ parse_float transportada_str = Ok b
  /\ (exists comparacion,
        format_and_compare_liters facturada_str transportada_str
        = Ok (PyFloat.format_3f a, PyFloat.format_3f b, comparacion)
        /\ (comparacion = "Iguales"
            <-> PyFloat.ltb (PyFloat.abs (PyFloat.sub a b)) PyFloat.lit_1e_9 = true)
        /\ (comparacion = "Diferentes"
            <-> PyFloat.ltb (PyFloat.abs (PyFloat.sub a b)) PyFloat.lit_1e_9 = false))
  /\ (PyFloat.is_finite a = true -> three_decimals (PyFloat.format_3f a) = true)
  /\ (PyFloat.is_finite b = true -> three_decimals (PyFloat.format_3f b) = true)
  /\ (forall s m e,
        let n := PyFloat.thousandths m e in
        PyFloat.format_3f (S754_finite s m e)
        = PyFloat.sign_prefix s ++ PyFloat.Z_to_string (n / 1000) ++ "."
            ++ PyFloat.three_digits (n mod 1000)
        /\ if (0 <=? e)%Z then n = (Zpos m * 2 ^ e * 1000)%Z
           else nearest_integer (Zpos m * 1000) (2 ^ (- e)) n)
  /\ format_and_compare_liters (PStr "10") (PStr "10")
     = Ok ("10.000", "10.000", "Iguales")
  /\ format_and_compare_liters (PStr "10") (PStr "10.0000000009")
     = Ok ("10.000", "10.000", "Iguales")
  /\ format_and_compare_liters (PStr "10") (PStr "10.01")
     = Ok ("10.000", "10.010", "Diferentes").
Proof.
  intros a b. subst a b.
  split; [apply parse_float_coerced |].
  split; [apply parse_float_coerced |].
  split.
  { eexists. split; [apply format_and_compare_liters_eq |].
    unfold within_tolerance.
    destruct (PyFloat.ltb _ _); split; split; congruence. }
  split; [apply PyFloatFacts.three_decimals_format_3f |].
  split; [apply PyFloatFacts.three_decimals_format_3f |].
  split.
  { intros s m e n. split; [reflexivity |].
    apply PyFloatFacts.thousandths_nearest. }
  repeat split; vm_compute; reflexivity.
Qed.

(** ** xml_processor.py *)

Section xml_processor_facts.
Context `{DatetimeLib}.

Lemma extract_common_data_eq root : extract_common_data root = Ok (header root).
Proof.
  unfold extract_common_data, header, emission_date, period,
    datetime_fromisoformat.
  by destruct (fromisoformat (ET.get root "Fecha" "")).
Qed.

Lemma store_comparison_eq data a b :
  store_comparison data a b = Ok (normalized data a b).
Proof. unfold store_comparison. by rewrite format_and_compare_liters_eq. Qed.

Lemma normalized_ext data a a' b b' :
  coerced a = coerced a' -> coerced b = coerced b' ->
  normalized data a b = normalized data a' b'.
Proof. unfold normalized. by intros -> ->. Qed.

Lemma coerced_substitute_unset v : coerced (substitute_unset v) = coerced v.
Proof. by destruct v. Qed.

(** [x or '0'] and [x] are coerced to the same float when [x] is [None] or a
    string: the empty string and ['0'] both give [0.0]. *)
Lemma coerced_py_or_None : coerced (py_or PNone (PStr "0")) = coerced PNone.
Proof. reflexivity. Qed.

Lemma coerced_py_or_str s : coerced (py_or (PStr s) (PStr "0")) = coerced (PStr s).
Proof.
  unfold py_or; cbn [truthy]. by destruct (String.eqb_spec s "") as [-> |].
Qed.

Lemma lookup_billed ns policy root :
  merchandise_fields ns policy root (read_concepto root (header root))
    !! "Cantidad Litros Facturada" = Some (billed_raw root).
Proof.
  unfold merchandise_fields, read_concepto, billed_raw, header.
  destruct (ET.find root (ET.qn ns "Mercancia"));
    destruct (ET.find root (ET.qn NS_CFDI "Concepto")); by simplify_map_eq.
Qed.

Lemma lookup_transported ns policy root :
  merchandise_fields ns policy root (read_concepto root (header root))
    !! "Litros Transportada" = Some (transported_raw ns policy root).
Proof.
  unfold merchandise_fields, read_concepto, transported_raw, header.
  destruct (ET.find root (ET.qn ns "Mercancia"));
    destruct (ET.find root (ET.qn NS_CFDI "Concepto")); by simplify_map_eq.
Qed.

Lemma generic_extractor_eq ns policy root :
  generic_extractor ns policy (ET.WellFormed root) = Ok (record ns policy root).
Proof.
  unfold generic_extractor. cbn [ET.parse mbind result_bind].
  rewrite extract_common_data_eq. cbn [mbind result_bind].
  fold (merchandise_fields ns policy root (read_concepto root (header root))).
  rewrite store_comparison_eq. unfold dict_get.
  rewrite lookup_billed, lookup_transported. cbn [default].
  f_equal. apply normalized_ext; apply coerced_substitute_unset.
Qed.

Lemma process_xml_format1_eq file_path :
  process_xml_format1 file_path
  = generic_extractor NS_CARTAPORTE20 DirectAttribute file_path.
Proof.
  destruct file_path as [| root]; [reflexivity |].
  rewrite generic_extractor_eq.
  unfold process_xml_format1. cbn [ET.parse mbind result_bind].
  rewrite extract_common_data_eq. cbn [mbind result_bind]. cbv zeta.
  change (match ET.find root (ET.qn NS_CFDI "Concepto") with
          | Some concepto => _ | None => _ end)
    with (read_concepto root (header root)).
  change (match ET.find root (ET.qn NS_CARTAPORTE20 "Mercancia") with
          | Some mercancia => _ | None => _ end)
    with (merchandise_fields NS_CARTAPORTE20 DirectAttribute root
            (read_concepto root (header root))).
  unfold dict_getitem. rewrite lookup_billed, lookup_transported.
  cbn [mbind result_bind]. rewrite format_and_compare_liters_eq.
  cbn [mbind result_bind].
  f_equal. unfold record. apply normalized_ext.
  - unfold billed_raw. destruct (ET.find root (ET.qn NS_CFDI "Concepto"));
      [apply coerced_py_or_str | apply coerced_py_or_None].
  - unfold transported_raw.
    destruct (ET.find root (ET.qn NS_CARTAPORTE20 "Mercancia"));
      [apply coerced_py_or_str | apply coerced_py_or_None].
Qed.

(** The body shared by [process_xml_format2] and [process_xml_format31]. *)
Lemma nested_fields_eq ns root data :
  match ET.find root (ET.qn ns "Mercancia") with
  | Some mercancia =>
      <["Combustible" := map_clave_to_combustible (ET.get mercancia "BienesTransp" "")]>
        match ET.find mercancia (ET.qn ns "CantidadTransporta") with
        | Some cantidad_transporta =>
            <["Litros Transportada" := PStr (ET.get cantidad_transporta "Cantidad" "")]>
              (<["Clave SAT" := PStr (ET.get mercancia "BienesTransp" "")]> data)
        | None =>
            <["Litros Transportada" := PStr (ET.get mercancia "Cantidad" "")]>
              (<["Clave SAT" := PStr (ET.get mercancia "BienesTransp" "")]> data)
        end
  | None => data
  end = merchandise_fields ns NestedThenFallback root data.
Proof.
  unfold merchandise_fields, transported_quantity.
  destruct (ET.find root (ET.qn ns "Mercancia")) as [m |]; [| reflexivity].
  cbv zeta. by destruct (ET.find m (ET.qn ns "CantidadTransporta")).
Qed.

Lemma nested_extractor_eq ns root :
  (let data := merchandise_fields ns NestedThenFallback root
                 (read_concepto root (header root)) in
   '(fac, trans, comp) ← format_and_compare_liters
                           (dict_get data "Cantidad Litros Facturada" (PStr "0"))
                           (dict_get data "Litros Transportada" (PStr "0"));
   Ok (<["Comparacion" := PStr comp]>
      (<["Litros Transportada" := PStr trans]>
      (<["Cantidad Litros Facturada" := PStr fac]> data))))
  = Ok (record ns NestedThenFallback root).
Proof.
  cbv zeta. rewrite format_and_compare_liters_eq. unfold dict_get.
  by rewrite lookup_billed, lookup_transported.
Qed.

Lemma process_xml_format2_eq file_path :
  process_xml_format2 file_path
  = generic_extractor NS_CARTAPORTE30 NestedThenFallback file_path.
Proof.
  destruct file_path as [| root]; [reflexivity |].
  rewrite generic_extractor_eq.
  unfold process_xml_format2. cbn [ET.parse mbind result_bind].
  rewrite extract_common_data_eq. cbn [mbind result_bind]. cbv zeta.
  change (match ET.find root (ET.qn NS_CFDI "Concepto") with
          | Some concepto => _ | None => _ end)
    with (read_concepto root (header root)).
  rewrite nested_fields_eq. apply nested_extractor_eq.
Qed.

Lemma process_xml_format31_eq file_path :
  process_xml_format31 file_path
  = generic_extractor NS_CARTAPORTE31 NestedThenFallback file_path.
Proof.
  destruct file_path as [| root]; [reflexivity |].
  rewrite generic_extractor_eq.
  unfold process_xml_format31. cbn [ET.parse mbind result_bind].
  rewrite extract_common_data_eq. cbn [mbind result_bind]. cbv zeta.
  change (match ET.find root (ET.qn NS_CFDI "Concepto") with
          | Some concepto => _ | None => _ end)
    with (read_concepto root (header root)).
  rewrite nested_fields_eq. apply nested_extractor_eq.
Qed.

(** *** Classification *)



Lemma parse_failure_Some file_path e :
  parse_failure file_path = Some e
  <-> exists why, file_path = ET.Broken why /\ e = ET.raised why.
Proof.
  destruct file_path as [why | root]; cbn.
  - split; [intros [= <-]; by exists why | by intros (? & [= <-] & ->)].
  - split; [discriminate | by intros (? & ? & _)].
Qed.

Lemma identify_format_raises file_path e :
  identify_format file_path = Raise e <-> parse_failure file_path = Some e.
Proof.
  destruct file_path as [why | root]; cbn.
  - split; congruence.
  - repeat (destruct (is_empty _)); cbn; split; discriminate.
Qed.

Lemma generic_extractor_raises ns policy file_path e :
  generic_extractor ns policy file_path = Raise e
  <-> parse_failure file_path = Some e.
Proof.
  destruct file_path as [why | root].
  - cbn. split; congruence.
  - rewrite generic_extractor_eq. split; discriminate.
Qed.

(** What the dispatcher does on a well-formed document, by the merchandise
    elements present. *)
Lemma process_file_wellformed root :
  process_file_based_on_format (ET.WellFormed root) =
    if negb (is_empty (ET.findall root (ET.qn NS_CARTAPORTE20 "Mercancia")))
    then Ok (Some (record NS_CARTAPORTE20 DirectAttribute root))
    else if negb (is_empty (ET.findall root (ET.qn NS_CARTAPORTE30 "Mercancia")))
    then Ok (Some (record NS_CARTAPORTE30 NestedThenFallback root))
    else if negb (is_empty (ET.findall root (ET.qn NS_CARTAPORTE31 "Mercancia")))
    then Ok (Some (record NS_CARTAPORTE31 NestedThenFallback root))
    else Ok None.
Proof.
  unfold process_file_based_on_format, identify_format.
  rewrite process_xml_format1_eq, process_xml_format2_eq, process_xml_format31_eq.
  rewrite !generic_extractor_eq. cbn [ET.parse mbind result_bind].
  repeat (destruct (is_empty _); cbn [negb mbind result_bind]; try reflexivity).
Qed.

Lemma record_nonempty ns policy root : record ns policy root <> ∅.
Proof. apply insert_non_empty. Qed.

Lemma record_sat_key ns policy root mercancia :
  ET.find root (ET.qn ns "Mercancia") = Some mercancia ->
  record ns policy root !! "Clave SAT"
    = Some (PStr (ET.get mercancia "BienesTransp" ""))
  /\ record ns policy root !! "Combustible"
    = Some (map_clave_to_combustible (ET.get mercancia "BienesTransp" "")).
Proof.
  intros Hm. unfold record, normalized, merchandise_fields. rewrite Hm.
  by simplify_map_eq.
Qed.

Lemma record_quantities ns policy root :
  record ns policy root !! "Cantidad Litros Facturada"
    = Some (PStr (PyFloat.format_3f (coerced (billed_raw root))))
  /\ record ns policy root !! "Litros Transportada"
    = Some (PStr (PyFloat.format_3f (coerced (transported_raw ns policy root))))
  /\ record ns policy root !! "Comparacion"
    = Some (PStr (if within_tolerance (coerced (billed_raw root))
                       (coerced (transported_raw ns policy root))
                  then "Iguales" else "Diferentes")).
Proof. unfold record, normalized. by simplify_map_eq. Qed.


(** C10 -- When the dispatcher returns a record, its ['Clave SAT'] is a
    string (maybe empty), never [None], and ['Combustible'] is what
    [map_clave_to_combustible] gives for that string: the classification found
    a merchandise element of the variant, so the extractor of that variant
    finds one in the same document. *)
Theorem dispatched_record_has_sat_key (file_path : ET.file) (data : dict) :
  process_file_based_on_format file_path = Ok (Some data) ->
  exists clave_prod_serv : string,
    data !! "Clave SAT" = Some (PStr clave_prod_serv)
    /\ data !! "Combustible" = Some (map_clave_to_combustible clave_prod_serv).
Proof.
  destruct file_path as [| root]; [discriminate |].
  rewrite process_file_wellformed.
  pose proof (ETFacts.findall_nonempty_find root) as Hfind.
  destruct (is_empty (ET.findall root (ET.qn NS_CARTAPORTE20 "Mercancia"))) eqn:E1;
    cbn [negb].
  2: { intros [= <-]. destruct (proj1 (Hfind _) E1) as [m Hm].
       eexists. by apply record_sat_key. }
  destruct (is_empty (ET.findall root (ET.qn NS_CARTAPORTE30 "Mercancia"))) eqn:E2;
    cbn [negb].
  2: { intros [= <-]. destruct (proj1 (Hfind _) E2) as [m Hm].
       eexists. by apply record_sat_key. }
  destruct (is_empty (ET.findall root (ET.qn NS_CARTAPORTE31 "Mercancia"))) eqn:E3;
    cbn [negb]; [discriminate |].
  intros [= <-]. destruct (proj1 (Hfind _) E3) as [m Hm].
  eexists. by apply record_sat_key.
Qed.

(** The transported quantity of a record, from the merchandise element. *)
Lemma record_transported ns policy root mercancia :
  ET.find root (ET.qn ns "Mercancia") = Some mercancia ->
  record ns policy root !! "Litros Transportada"
  = Some (PStr (PyFloat.format_3f
                  (coerced (PStr (transported_quantity ns policy mercancia))))).
Proof.
  intros Hm. destruct (record_quantities ns policy root) as (_ & -> & _).
  unfold transported_raw. by rewrite Hm.
Qed.

Lemma transported_v1 root mercancia :
  ET.find root (ET.qn NS_CARTAPORTE20 "Mercancia") = Some mercancia ->
  result_field "Litros Transportada" (process_xml_format1 (ET.WellFormed root))
  = Ok (Some (PStr (PyFloat.format_3f
                      (coerced (PStr (ET.get mercancia "Cantidad" "")))))).
Proof.
  intros Hm. rewrite process_xml_format1_eq, generic_extractor_eq. cbn.
  by rewrite (record_transported _ DirectAttribute _ _ Hm).
Qed.

Lemma transported_v2 root mercancia :
  ET.find root (ET.qn NS_CARTAPORTE30 "Mercancia") = Some mercancia ->
  result_field "Litros Transportada" (process_xml_format2 (ET.WellFormed root))
  = Ok (Some (PStr (PyFloat.format_3f (coerced (PStr
      match ET.find mercancia (ET.qn NS_CARTAPORTE30 "CantidadTransporta") with
      | Some nested => ET.get nested "Cantidad" ""
      | None => ET.get mercancia "Cantidad" ""
      end))))).
Proof.
  intros Hm. rewrite process_xml_format2_eq, generic_extractor_eq. cbn.
  by rewrite (record_transported _ NestedThenFallback _ _ Hm).
Qed.

Lemma transported_v3 root mercancia :
  ET.find root (ET.qn NS_CARTAPORTE31 "Mercancia") = Some mercancia ->
  result_field "Litros Transportada" (process_xml_format31 (ET.WellFormed root))
  = Ok (Some (PStr (PyFloat.format_3f (coerced (PStr
      match ET.find mercancia (ET.qn NS_CARTAPORTE31 "CantidadTransporta") with
      | Some nested => ET.get nested "Cantidad" ""
      | None => ET.get mercancia "Cantidad" ""
      end))))).
Proof.
  intros Hm. rewrite process_xml_format31_eq, generic_extractor_eq. cbn.
  by rewrite (record_transported _ NestedThenFallback _ _ Hm).
Qed.

(** On a concrete document: compute the element found, then the field. *)
Ltac run_on_found lem :=
  match goal with
  | |- result_field _ (_ (ET.WellFormed ?root)) = _ =>
      let t := lazymatch lem with
               | transported_v1 => constr:(ET.qn NS_CARTAPORTE20 "Mercancia")
               | transported_v2 => constr:(ET.qn NS_CARTAPORTE30 "Mercancia")
               | transported_v3 => constr:(ET.qn NS_CARTAPORTE31 "Mercancia")
               end in
      let found := eval vm_compute in (ET.find root t) in
      lazymatch found with
      | Some ?m =>
          let Hm := fresh "Hm" in
          assert (Hm : ET.find root t = Some m) by (vm_compute; reflexivity);
          rewrite (lem root m Hm); vm_compute; reflexivity
      end
  end.

(** C2 -- Where the transported quantity comes from.  With [mercancia] the
    merchandise element the extractor finds: [process_xml_format1] formats the
    [Cantidad] attribute of [mercancia] itself; [process_xml_format2] and
    [process_xml_format31] format the [Cantidad] attribute of the
    [CantidadTransporta] element nested in [mercancia] when there is one, and
    the [Cantidad] attribute of [mercancia] otherwise.  So an own
    [Cantidad="50"] without nested element gives ["50.000"], and a nested
    element with [Cantidad="75"] gives ["75.000"]. *)
Theorem transported_quantity_location (root mercancia : ET.Element) :
  (ET.find root (ET.qn NS_CARTAPORTE20 "Mercancia") = Some mercancia ->
   result_field "Litros Transportada" (process_xml_format1 (ET.WellFormed root))
   = Ok (Some (PStr (PyFloat.format_3f
                       (coerced (PStr (ET.get mercancia "Cantidad" "")))))))
  /\ (ET.find root (ET.qn NS_CARTAPORTE30 "Mercancia") = Some mercancia ->
      result_field "Litros Transportada" (process_xml_format2 (ET.WellFormed root))
      = Ok (Some (PStr (PyFloat.format_3f (coerced (PStr
          match ET.find mercancia (ET.qn NS_CARTAPORTE30 "CantidadTransporta") with
          | Some nested => ET.get nested "Cantidad" ""
          | None => ET.get mercancia "Cantidad" ""
          end))))))
  /\ (ET.find root (ET.qn NS_CARTAPORTE31 "Mercancia") = Some mercancia ->
      result_field "Litros Transportada" (process_xml_format31 (ET.WellFormed root))
      = Ok (Some (PStr (PyFloat.format_3f (coerced (PStr
          match ET.find mercancia (ET.qn NS_CARTAPORTE31 "CantidadTransporta") with
          | Some nested => ET.get nested "Cantidad" ""
          | None => ET.get mercancia "Cantidad" ""
          end))))))
  /\ (let own_50 ns :=
        ET.WellFormed (carta_porte ns "2023-05-01T10:00:00" "50"
          [("BienesTransp", "15101514"); ("Cantidad", "50")] []) in
      let nested_75 ns :=
        ET.WellFormed (carta_porte ns "2023-05-01T10:00:00" "50"
          [("BienesTransp", "15101514"); ("Cantidad", "50")]
          [element ns "CantidadTransporta" [("Cantidad", "75")] []]) in
      result_field "Litros Transportada" (process_xml_format2 (own_50 NS_CARTAPORTE30))
        = Ok (Some (PStr "50.000"))
      /\ result_field "Litros Transportada" (process_xml_format31 (own_50 NS_CARTAPORTE31))
        = Ok (Some (PStr "50.000"))
      /\ result_field "Litros Transportada" (process_xml_format2 (nested_75 NS_CARTAPORTE30))
        = Ok (Some (PStr "75.000"))
      /\ result_field "Litros Transportada" (process_xml_format31 (nested_75 NS_CARTAPORTE31))
        = Ok (Some (PStr "75.000"))
      /\ result_field "Litros Transportada" (process_xml_format1 (nested_75 NS_CARTAPORTE20))
        = Ok (Some (PStr "50.000"))).
Proof.
  split; [apply transported_v1 |].
  split; [apply transported_v2 |].
  split; [apply transported_v3 |].
  cbv zeta.
  repeat split.
  - run_on_found transported_v2.
  - run_on_found transported_v3.
  - run_on_found transported_v2.
  - run_on_found transported_v3.
  - run_on_found transported_v1.
Qed.

Lemma record_normalized ns policy root :
  normalization_invariant (billed_raw root) (transported_raw ns policy root)
    (Ok (record ns policy root)).
Proof.
  exists (record ns policy root).
  destruct (record_quantities ns policy root) as (Hb & Ht & Hc).
  repeat split; try assumption;
    try apply PyFloatFacts.three_decimals_format_3f.
  rewrite Hc. destruct (within_tolerance _ _); auto.
Qed.

(** X22 -- For every well-formed document, whatever raw values were
    found or missing, each extractor returns a record whose billed and
    transported quantities are strings, the [.3f] rendering of the coerced raw
    values written by the shared normalization step, with exactly three
    decimals whenever the coerced value is finite, and whose comparison is
    one of the two labels. *)
Theorem extractors_normalize (root : ET.Element) :
  normalization_invariant (billed_raw root)
    (transported_raw NS_CARTAPORTE20 DirectAttribute root)
    (process_xml_format1 (ET.WellFormed root))
  /\ normalization_invariant (billed_raw root)
    (transported_raw NS_CARTAPORTE30 NestedThenFallback root)
    (process_xml_format2 (ET.WellFormed root))
  /\ normalization_invariant (billed_raw root)
    (transported_raw NS_CARTAPORTE31 NestedThenFallback root)
    (process_xml_format31 (ET.WellFormed root)).
Proof.
  rewrite process_xml_format1_eq, process_xml_format2_eq, process_xml_format31_eq.
  rewrite !generic_extractor_eq.
  repeat split; apply record_normalized.
Qed.

(** *** The extractors up to the namespace *)

Lemma find_swap_qn a b e u l :
  ET.find (swap_ns a b e) (ET.qn (swap_uri a b u) l)
  = option_map (swap_ns a b) (ET.find e (ET.qn u l)).
Proof. apply (ETFacts.find_swap_ns a b e (ET.qn u l)). Qed.

Lemma swap_uri_other a b u : a <> u -> b <> u -> swap_uri a b u = u.
Proof. intros Ha Hb. unfold swap_uri. by repeat case_bool_decide. Qed.

Lemma transported_quantity_swap a b ns policy m :
  transported_quantity (swap_uri a b ns) policy (swap_ns a b m)
  = transported_quantity ns policy m.
Proof.
  unfold transported_quantity. destruct policy.
  - apply ETFacts.get_swap_ns.
  - rewrite find_swap_qn.
    destruct (ET.find m (ET.qn ns "CantidadTransporta")); cbn [option_map];
      apply ETFacts.get_swap_ns.
Qed.

Lemma record_swap a b ns policy root :
  a <> NS_CFDI -> b <> NS_CFDI ->
  record (swap_uri a b ns) policy (swap_ns a b root) = record ns policy root.
Proof.
  intros Ha Hb.
  assert (Hc : ET.find (swap_ns a b root) (ET.qn NS_CFDI "Concepto")
               = option_map (swap_ns a b) (ET.find root (ET.qn NS_CFDI "Concepto"))).
  { rewrite <- (swap_uri_other a b NS_CFDI Ha Hb) at 1. apply find_swap_qn. }
  unfold record, merchandise_fields, billed_raw, transported_raw, read_concepto,
    header, emission_date, period.
  rewrite Hc, find_swap_qn, !ETFacts.get_swap_ns.
  destruct (ET.find root (ET.qn NS_CFDI "Concepto")) as [c |];
    destruct (ET.find root (ET.qn ns "Mercancia")) as [m |];
    cbn [option_map]; cbv zeta;
    rewrite ?ETFacts.get_swap_ns, ?transported_quantity_swap; reflexivity.
Qed.

Lemma generic_extractor_swap a b ns policy file_path :
  a <> NS_CFDI -> b <> NS_CFDI ->
  generic_extractor (swap_uri a b ns) policy (swap_ns_file a b file_path)
  = generic_extractor ns policy file_path.
Proof.
  intros Ha Hb. destruct file_path as [| root]; [reflexivity |].
  cbn [swap_ns_file]. rewrite !generic_extractor_eq. f_equal.
  by apply record_swap.
Qed.

Lemma record_policy_independent ns root k :
  k ∈ policy_independent_fields ->
  record ns DirectAttribute root !! k = record ns NestedThenFallback root !! k.
Proof.
  unfold policy_independent_fields. intros Hk.
  repeat (apply elem_of_cons in Hk as [-> | Hk]);
    try (by apply elem_of_nil in Hk);
    unfold record, normalized, merchandise_fields;
    destruct (ET.find root (ET.qn ns "Mercancia")); by simplify_map_eq.
Qed.

Lemma generic_policy_independent ns file_path :
  Forall (fun k =>
            result_field k (generic_extractor ns DirectAttribute file_path)
            = result_field k (generic_extractor ns NestedThenFallback file_path))
    policy_independent_fields.
Proof.
  apply Forall_forall. intros k Hk.
  destruct file_path as [| root]; [reflexivity |].
  rewrite !generic_extractor_eq. cbn. f_equal.
  by apply record_policy_independent.
Qed.

(** C7 -- The three extractors are one function of the namespace and of the
    quantity-location policy: each equals [generic_extractor] at its own
    namespace and policy.  Hence, on documents that differ only by the
    exchange of the two namespaces, [process_xml_format2] and
    [process_xml_format31] return the same record, and [process_xml_format1]
    agrees with both on every field that does not come from the location
    policy, whether an unset value is replaced with [or] or read with
    [dict.get]. *)
Theorem extractors_are_one_function :
  (forall file_path,
     process_xml_format1 file_path
     = generic_extractor NS_CARTAPORTE20 DirectAttribute file_path)
  /\ (forall file_path,
       process_xml_format2 file_path
       = generic_extractor NS_CARTAPORTE30 NestedThenFallback file_path)
  /\ (forall file_path,
       process_xml_format31 file_path
       = generic_extractor NS_CARTAPORTE31 NestedThenFallback file_path)
  /\ (forall file_path,
       process_xml_format2 file_path
       = process_xml_format31
           (swap_ns_file NS_CARTAPORTE30 NS_CARTAPORTE31 file_path))
  /\ (forall file_path,
       Forall (fun k =>
                 result_field k (process_xml_format1 file_path)
                 = result_field k
                     (process_xml_format2
                        (swap_ns_file NS_CARTAPORTE20 NS_CARTAPORTE30 file_path)))
         policy_independent_fields)
  /\ (forall file_path,
       Forall (fun k =>
                 result_field k (process_xml_format1 file_path)
                 = result_field k
                     (process_xml_format31
                        (swap_ns_file NS_CARTAPORTE20 NS_CARTAPORTE31 file_path)))
         policy_independent_fields).
Proof.
  split; [exact process_xml_format1_eq |].
  split; [exact process_xml_format2_eq |].
  split; [exact process_xml_format31_eq |].
  split; [| split]; intros file_path.
  - rewrite process_xml_format2_eq, process_xml_format31_eq.
    symmetry.
    apply (generic_extractor_swap NS_CARTAPORTE30 NS_CARTAPORTE31 NS_CARTAPORTE30);
      discriminate.
  - rewrite process_xml_format1_eq, process_xml_format2_eq.
    pose proof (generic_extractor_swap NS_CARTAPORTE20 NS_CARTAPORTE30
                  NS_CARTAPORTE20 NestedThenFallback file_path) as Hswap.
    change (swap_uri NS_CARTAPORTE20 NS_CARTAPORTE30 NS_CARTAPORTE20)
      with NS_CARTAPORTE30 in Hswap.
    rewrite Hswap by discriminate.
    apply generic_policy_independent.
  - rewrite process_xml_format1_eq, process_xml_format31_eq.
    pose proof (generic_extractor_swap NS_CARTAPORTE20 NS_CARTAPORTE31
                  NS_CARTAPORTE20 NestedThenFallback file_path) as Hswap.
    change (swap_uri NS_CARTAPORTE20 NS_CARTAPORTE31 NS_CARTAPORTE20)
      with NS_CARTAPORTE31 in Hswap.
    rewrite Hswap by discriminate.
    apply generic_policy_independent.
Qed.

(** C8 -- The header.  [extract_common_data] never raises; it reads [Fecha],
    [Serie] and [Folio] on the root element; ['FechaEmision'] is the parsed
    date, and [None] when [fromisoformat] rejects the text; ['Periodo'] is the
    month number of the date written as a string, and the empty string when
    there is no date; ['Serie'] and ['Folio'] are the attribute values, the
    empty string when the attribute is missing. *)
Theorem extract_common_data_header (root : ET.Element) :
  exists data, extract_common_data root = Ok data
    /\ data !! "FechaEmision"
       = Some (match fromisoformat (default "" (ET.attrib root !! "Fecha")) with
               | Some d => PDatetime d
               | None => PNone
               end)
    /\ data !! "Periodo"
       = Some (PStr (match fromisoformat (default "" (ET.attrib root !! "Fecha")) with
                     | Some d => py_str_int (month d)
                     | None => ""
                     end))
    /\ data !! "Serie" = Some (PStr (default "" (ET.attrib root !! "Serie")))
    /\ data !! "Folio" = Some (PStr (default "" (ET.attrib root !! "Folio"))).
Proof.
  exists (header root). split; [apply extract_common_data_eq |].
  unfold header, emission_date, period, ET.get. by simplify_map_eq.
Qed.

End xml_processor_facts.

(** ** pandas: the order of the rows *)

Lemma datetime_leb_total a b : datetime_leb a b = false -> datetime_leb b a = true.
Proof. unfold datetime_leb. rewrite Z.leb_gt, Z.leb_le. lia. Qed.

Lemma datetime_leb_trans a b c :
  datetime_leb a b = true -> datetime_leb b c = true -> datetime_leb a c = true.
Proof. unfold datetime_leb. rewrite !Z.leb_le. lia. Qed.

#[export] Instance row_order_total by_ : Total (row_order by_).
Proof.
  intros r1 r2. unfold row_order.
  destruct (column_datetime by_ r1) as [x |], (column_datetime by_ r2) as [y |];
    cbn; auto.
  destruct (datetime_leb x y) eqn:E; [auto | right; by apply datetime_leb_total].
Qed.

#[export] Instance row_order_trans by_ : Transitive (row_order by_).
Proof.
  intros r1 r2 r3. unfold row_order.
  destruct (column_datetime by_ r1) as [x |], (column_datetime by_ r2) as [y |],
    (column_datetime by_ r3) as [z |]; cbn; try done.
  apply datetime_leb_trans.
Qed.

Lemma filter_partition {A} (f : A -> bool) (l : list A) :
  Permutation (List.filter f l ++ List.filter (fun x => negb (f x)) l) l.
Proof.
  induction l as [| x l IH]; [reflexivity |].
  cbn [List.filter]. destruct (f x); cbn [negb app].
  - by constructor.
  - rewrite <- Permutation_middle. by constructor.
Qed.

Lemma StronglySorted_impl_elem {A} (R R' : relation A) (l : list A) :
  (forall x y, x ∈ l -> y ∈ l -> R x y -> R' x y) ->
  StronglySorted R l -> StronglySorted R' l.
Proof.
  intros Himpl Hs. induction Hs as [| x l Hs IH Hx]; constructor.
  - apply IH. intros a b Ha Hb. apply Himpl; by right.
  - rewrite Forall_forall in Hx |- *. intros y Hy.
    apply Himpl; [left | by right | by apply Hx].
Qed.

Lemma StronglySorted_undated by_ (l : DataFrame) :
  Forall (fun row => notna by_ row = false) l -> StronglySorted (row_order by_) l.
Proof.
  induction 1 as [| r l Hr Hl IH]; constructor; [exact IH |].
  eapply Forall_impl; [exact Hl |]. intros r' Hr'.
  unfold row_order, notna in *.
  destruct (column_datetime by_ r'); [discriminate |].
  by destruct (column_datetime by_ r).
Qed.

Section sorting.
Context `{SortLib}.

Lemma argsort_nil key : argsort key [] = [].
Proof. apply Permutation_nil_r. apply argsort_Permutation. Qed.

Lemma nargsort_nil by_ : nargsort by_ [] = [].
Proof. unfold nargsort. cbn [List.filter]. by rewrite argsort_nil. Qed.

Lemma nargsort_perm by_ df : Permutation (nargsort by_ df) df.
Proof. unfold nargsort. rewrite argsort_Permutation. apply filter_partition. Qed.

Lemma nargsort_sorted by_ df : StronglySorted (row_order by_) (nargsort by_ df).
Proof.
  unfold nargsort. apply StronglySorted_app_2.
  - intros r1 r2 _ Hr2. apply list_elem_of_In, filter_In in Hr2 as [_ Hna].
    unfold row_order, notna in *.
    destruct (column_datetime by_ r2); [discriminate |].
    by destruct (column_datetime by_ r1).
  - apply (StronglySorted_impl_elem (key_le (column_timestamp by_)));
      [| apply argsort_StronglySorted].
    intros r1 r2 H1 H2. rewrite argsort_Permutation in H1, H2.
    apply list_elem_of_In, filter_In in H1 as [_ H1].
    apply list_elem_of_In, filter_In in H2 as [_ H2].
    unfold key_le, row_order, column_timestamp, notna in *.
    destruct (column_datetime by_ r1), (column_datetime by_ r2);
      try discriminate.
    cbn [key_leb]. unfold datetime_leb. by rewrite Z.leb_le.
  - apply StronglySorted_undated, Forall_forall.
    intros r Hr. apply list_elem_of_In, filter_In in Hr as [_ Hr].
    by destruct (notna by_ r).
Qed.

Lemma sort_values_Ok by_ df rows :
  sort_values by_ df = Ok rows
  <-> mixed_awareness (omap (column_datetime by_) df) = false
      /\ rows = nargsort by_ df.
Proof.
  unfold sort_values. destruct (mixed_awareness _); split;
    try discriminate; try (by intros [? _]).
  - by intros [= <-].
  - by intros [_ ->].
Qed.

Lemma sort_values_Raise by_ df e :
  sort_values by_ df = Raise e
  <-> mixed_awareness (omap (column_datetime by_) df) = true /\ e = TypeError.
Proof.
  unfold sort_values. destruct (mixed_awareness _); split;
    try discriminate; try (by intros [? _]).
  - by intros [= <-].
  - by intros [_ ->].
Qed.

End sorting.

Lemma astype_float_eq col df :
  Forall (fun row => exists x, row !! col = Some (PStr (PyFloat.format_3f x))) df ->
  astype_float col df = Ok (map (float_cell col) df).
Proof.
  induction 1 as [| row df [x Hx] _ IH]; [reflexivity |].
  cbn [astype_float map].
  change (float_cell col row)
    with (<[col := PFloat (coerced (default PNone (row !! col)))]> row).
  unfold dict_getitem, coerced. rewrite Hx, IH.
  cbn [mbind result_bind py_float default from_option id].
  destruct (PyFloatFacts.of_string_format_3f x) as [y ->]. reflexivity.
Qed.

Lemma drop_column_lookup col df :
  Forall (fun row : dict => row !! col = None) (drop_column col df).
Proof.
  unfold drop_column. apply Forall_forall. intros row Hrow.
  apply list_elem_of_fmap in Hrow as (r & -> & _).
  apply lookup_delete_eq.
Qed.

(** ** pdf_handler.py *)

Section pdf_handler_facts.
Context `{DatetimeLib} `{SortLib}.
Variable fs : string -> ET.file.
Variable pdf_files : gmap string string.

(** What the dispatcher can answer. *)
Lemma process_file_cases file_path :
  (exists why, file_path = ET.Broken why
     /\ process_file_based_on_format file_path = Raise (ET.raised why))
  \/ (exists root, file_path = ET.WellFormed root
       /\ (process_file_based_on_format file_path = Ok None
           \/ exists ns policy,
               process_file_based_on_format file_path
               = Ok (Some (record ns policy root)))).
Proof.
  destruct file_path as [why | root]; [left; by exists why | right].
  exists root. split; [reflexivity |]. rewrite process_file_wellformed.
  repeat (destruct (is_empty _); cbn [negb]); eauto.
Qed.

Lemma process_file_raises file_path e :
  process_file_based_on_format file_path = Raise e
  <-> parse_failure file_path = Some e.
Proof.
  destruct (process_file_cases file_path)
    as [(why & -> & ->) | (root & -> & [-> | (ns & policy & ->)])];
    cbn; split; congruence.
Qed.

Lemma process_one_eq all_data printed xml_path :
  process_one fs pdf_files (all_data, printed) xml_path
  = ((all_data ++ collected fs pdf_files [xml_path])%list,
     (printed ++ printed_lines fs [xml_path])%list).
Proof.
  unfold process_one, collected, printed_lines, with_file_fields.
  cbn [omap list_omap].
  destruct (process_file_cases (fs xml_path))
    as [(why & _ & ->) | (root & _ & [-> | (ns & policy & ->)])];
    cbn; rewrite ?app_nil_r; try reflexivity.
  destruct (bool_decide_reflect (record ns policy root = ∅)) as [Hempty |];
    [by apply record_nonempty in Hempty | reflexivity].
Qed.

Lemma fold_process_one all_xml_files : forall all_data printed,
  fold_left (process_one fs pdf_files) all_xml_files (all_data, printed)
  = ((all_data ++ collected fs pdf_files all_xml_files)%list,
     (printed ++ printed_lines fs all_xml_files)%list).
Proof.
  induction all_xml_files as [| p l IH]; intros all_data printed.
  - cbn. by rewrite !app_nil_r.
  - cbn [fold_left]. rewrite process_one_eq, IH.
    change (p :: l) with ([p] ++ l)%list.
    unfold collected, printed_lines. rewrite !omap_app, !app_assoc. reflexivity.
Qed.

Lemma process_all_eq all_xml_files :
  process_all fs pdf_files all_xml_files
  = (collected fs pdf_files all_xml_files, printed_lines fs all_xml_files).
Proof. unfold process_all. by rewrite fold_process_one. Qed.

(** Every collected row still holds the two formatted quantities. *)
Lemma collected_quantities all_xml_files :
  Forall (fun row =>
            (exists x, row !! "Cantidad Litros Facturada"
                       = Some (PStr (PyFloat.format_3f x)))
            /\ (exists y, row !! "Litros Transportada"
                          = Some (PStr (PyFloat.format_3f y))))
    (collected fs pdf_files all_xml_files).
Proof.
  apply Forall_forall. intros row Hrow.
  apply list_elem_of_omap in Hrow as (p & _ & Hp).
  destruct (process_file_cases (fs p))
    as [(why & _ & Hr) | (root & _ & [Hr | (ns & policy & Hr)])];
    rewrite Hr in Hp; try discriminate.
  injection Hp as <-.
  destruct (record_quantities ns policy root) as (Hb & Ht & _).
  unfold with_file_fields.
  split; eexists; by simplify_map_eq.
Qed.

Lemma process_uploaded_files_eq all_xml_files :
  process_uploaded_files fs pdf_files all_xml_files
  = (printed_lines fs all_xml_files,
     rows ← sort_values "FechaEmision"
              (map float_columns (collected fs pdf_files all_xml_files));
     Ok (drop_column "FechaEmision" rows)).
Proof.
  unfold process_uploaded_files. rewrite process_all_eq.
  pose proof (collected_quantities all_xml_files) as Hq.
  destruct (collected fs pdf_files all_xml_files) as [| row df] eqn:E.
  { cbn [is_empty negb map]. unfold sort_values.
    cbn [omap list_omap mixed_awareness existsb andb].
    by rewrite nargsort_nil. }
  cbn [is_empty negb].
  rewrite (astype_float_eq "Cantidad Litros Facturada").
  2: { eapply Forall_impl; [exact Hq |]. by intros r [Hb _]. }
  cbn [mbind result_bind].
  rewrite (astype_float_eq "Litros Transportada").
  2: { apply Forall_fmap. eapply Forall_impl; [exact Hq |].
       intros r [_ [y Hy]]. exists y. unfold float_cell. by simplify_map_eq. }
  cbn [mbind result_bind]. by rewrite map_map.
Qed.

Lemma process_file_recognized file_path :
  match process_file_based_on_format file_path with
  | Ok (Some _) => true
  | _ => false
  end = recognized file_path.
Proof.
  destruct file_path as [why | root]; [reflexivity |].
  rewrite process_file_wellformed. unfold recognized, identify_format.
  cbn [ET.parse mbind result_bind].
  repeat (destruct (is_empty _); cbn [negb]); reflexivity.
Qed.

Lemma length_collected all_xml_files :
  length (collected fs pdf_files all_xml_files)
  = length (List.filter (fun xml_path => recognized (fs xml_path)) all_xml_files).
Proof.
  unfold collected.
  induction all_xml_files as [| p l IH]; [reflexivity |].
  cbn [omap list_omap List.filter].
  rewrite <- (process_file_recognized (fs p)).
  destruct (process_file_based_on_format (fs p)) as [[data |] | e];
    cbn [length]; by rewrite ?IH.
Qed.

Lemma process_all_app xs ys :
  process_all fs pdf_files (xs ++ ys)
  = ((fst (process_all fs pdf_files xs) ++ fst (process_all fs pdf_files ys))%list,
     (snd (process_all fs pdf_files xs) ++ snd (process_all fs pdf_files ys))%list).
Proof.
  rewrite !process_all_eq. cbn [fst snd].
  unfold collected, printed_lines. by rewrite !omap_app.
Qed.

Lemma process_all_broken xml_path e :
  parse_failure (fs xml_path) = Some e ->
  process_all fs pdf_files [xml_path] = ([], [(xml_path, e)]).
Proof.
  intros Hbad%process_file_raises. rewrite process_all_eq.
  unfold collected, printed_lines. cbn [omap list_omap]. by rewrite Hbad.
Qed.

(** *** The dates of the frame *)

Lemma record_emission_date ns policy root :
  column_datetime "FechaEmision" (record ns policy root)
  = fromisoformat (ET.get root "Fecha" "").
Proof.
  unfold column_datetime, record, normalized, merchandise_fields, read_concepto,
    header, emission_date.
  destruct (ET.find root (ET.qn ns "Mercancia")),
    (ET.find root (ET.qn NS_CFDI "Concepto")); simplify_map_eq;
    by destruct (fromisoformat _).
Qed.

Lemma collected_dates all_xml_files :
  omap (column_datetime "FechaEmision") (collected fs pdf_files all_xml_files)
  = batch_dates fs all_xml_files.
Proof.
  unfold collected, batch_dates.
  induction all_xml_files as [| p l IH]; [reflexivity |].
  cbn [omap list_omap]. unfold document_date at 1.
  rewrite <- (process_file_recognized (fs p)).
  destruct (process_file_cases (fs p))
    as [(why & -> & ->) | (root & -> & [-> | (ns & policy & ->)])];
    try exact IH.
  cbn [omap list_omap]. rewrite IH.
  replace (column_datetime "FechaEmision"
             (with_file_fields pdf_files p (record ns policy root)))
    with (fromisoformat (ET.get root "Fecha" "")); [reflexivity |].
  rewrite <- (record_emission_date ns policy root).
  unfold column_datetime, with_file_fields. by simplify_map_eq.
Qed.

Lemma float_columns_dates (rows : DataFrame) :
  omap (column_datetime "FechaEmision") (map float_columns rows)
  = omap (column_datetime "FechaEmision") rows.
Proof.
  induction rows as [| row rows IH]; [reflexivity |].
  cbn [map omap list_omap]. rewrite IH.
  replace (column_datetime "FechaEmision" (float_columns row))
    with (column_datetime "FechaEmision" row); [reflexivity |].
  unfold column_datetime, float_columns, float_cell. by simplify_map_eq.
Qed.

(** The batch raises after the loop exactly when the dates of the documents
    it keeps are mixed, and what it raises is a [TypeError]. *)
Lemma process_uploaded_files_raises all_xml_files e :
  snd (process_uploaded_files fs pdf_files all_xml_files) = Raise e
  <-> mixed_awareness (batch_dates fs all_xml_files) = true /\ e = TypeError.
Proof.
  rewrite process_uploaded_files_eq. cbn [snd].
  rewrite <- collected_dates, <- float_columns_dates, <- sort_values_Raise.
  destruct (sort_values _ _); cbn [mbind result_bind]; split; congruence.
Qed.

Lemma process_uploaded_files_ok all_xml_files :
  mixed_awareness (batch_dates fs all_xml_files) = false ->
  process_uploaded_files fs pdf_files all_xml_files
  = (printed_lines fs all_xml_files,
     Ok (drop_column "FechaEmision"
           (nargsort "FechaEmision"
              (map float_columns (collected fs pdf_files all_xml_files))))).
Proof.
  intros Hmixed. rewrite process_uploaded_files_eq. f_equal.
  unfold sort_values.
  by rewrite float_columns_dates, collected_dates, Hmixed.
Qed.

Lemma process_uploaded_files_inv all_xml_files printed df :
  process_uploaded_files fs pdf_files all_xml_files = (printed, Ok df) ->
  printed = printed_lines fs all_xml_files
  /\ mixed_awareness (batch_dates fs all_xml_files) = false
  /\ df = drop_column "FechaEmision"
            (nargsort "FechaEmision"
               (map float_columns (collected fs pdf_files all_xml_files))).
Proof.
  intros Hrun.
  destruct (mixed_awareness (batch_dates fs all_xml_files)) eqn:Hmixed.
  - assert (Hr : snd (process_uploaded_files fs pdf_files all_xml_files)
                 = Raise TypeError) by (by apply process_uploaded_files_raises).
    rewrite Hrun in Hr. discriminate.
  - rewrite (process_uploaded_files_ok _ Hmixed) in Hrun.
    by injection Hrun as <- <-.
Qed.

End pdf_handler_facts.

Section error_handling.
Context `{DatetimeLib} `{SortLib}.

(** A raw quantity that is missing or that [float()] rejects is rendered as
    ["0.000"]. *)
Lemma format_coerced_failure value e :
  py_float value = Raise e -> PyFloat.format_3f (coerced value) = "0.000".
Proof. unfold coerced. by intros ->. Qed.

(** C4 (amended) -- Errors.  At the boundary of one document the only thing
    raised is the failure of [ET.parse] on the file: [ParseError] when the
    text is not well-formed XML, [ValueError] or [LookupError] when its
    declared encoding is not supported, [OSError] when it cannot be read.
    The classifier, each extractor and the dispatcher raise exactly then, and
    raise what [ET.parse] raised.  The loop of the batch catches it, whatever
    its class, prints the path with the reason, appends nothing for that
    document and goes on with the documents after it: the lines printed are
    those of the documents before, this one, and those of the documents
    after, and the batch ends as it does without the document.  A quantity
    that is missing or that [float()] rejects is coerced to [0.0] without
    raising, and the record shows ["0.000"]. *)
Theorem parse_failure_is_the_only_error :
  (forall file_path e,
     parse_failure file_path = Some e
     <-> exists why, file_path = ET.Broken why /\ e = ET.raised why)
  /\ (forall file_path e,
       parse_failure file_path = Some e ->
       e = ParseError \/ e = ValueError \/ e = LookupError \/ e = OSError)
  /\ (forall file_path e,
       identify_format file_path = Raise e <-> parse_failure file_path = Some e)
  /\ (forall file_path e,
       process_xml_format1 file_path = Raise e <-> parse_failure file_path = Some e)
  /\ (forall file_path e,
       process_xml_format2 file_path = Raise e <-> parse_failure file_path = Some e)
  /\ (forall file_path e,
       process_xml_format31 file_path = Raise e <-> parse_failure file_path = Some e)
  /\ (forall file_path e,
       process_file_based_on_format file_path = Raise e
       <-> parse_failure file_path = Some e)
  /\ (forall fs pdf_files before bad after e,
       parse_failure (fs bad) = Some e ->
       process_all fs pdf_files (before ++ bad :: after)
       = ((fst (process_all fs pdf_files before)
           ++ fst (process_all fs pdf_files after))%list,
          (snd (process_all fs pdf_files before)
           ++ (bad, e) :: snd (process_all fs pdf_files after))%list)
       /\ process_uploaded_files fs pdf_files (before ++ bad :: after)
          = ((fst (process_uploaded_files fs pdf_files before)
              ++ (bad, e) :: fst (process_uploaded_files fs pdf_files after))%list,
             snd (process_uploaded_files fs pdf_files (before ++ after))))
  /\ (forall value e, py_float value = Raise e -> parse_float value = Ok PyFloat.zero)
  /\ parse_float PNone = Ok PyFloat.zero
  /\ parse_float (PStr "") = Ok PyFloat.zero
  /\ (forall root e,
       py_float (billed_raw root) = Raise e ->
       Forall (fun r => result_field "Cantidad Litros Facturada" r
                        = Ok (Some (PStr "0.000")))
         [process_xml_format1 (ET.WellFormed root);
          process_xml_format2 (ET.WellFormed root);
          process_xml_format31 (ET.WellFormed root)])
  /\ (forall root e,
       py_float (transported_raw NS_CARTAPORTE20 DirectAttribute root) = Raise e ->
       result_field "Litros Transportada" (process_xml_format1 (ET.WellFormed root))
       = Ok (Some (PStr "0.000")))
  /\ (forall root e,
       py_float (transported_raw NS_CARTAPORTE30 NestedThenFallback root) = Raise e ->
       result_field "Litros Transportada" (process_xml_format2 (ET.WellFormed root))
       = Ok (Some (PStr "0.000")))
  /\ (forall root e,
       py_float (transported_raw NS_CARTAPORTE31 NestedThenFallback root) = Raise e ->
       result_field "Litros Transportada" (process_xml_format31 (ET.WellFormed root))
       = Ok (Some (PStr "0.000"))).
Proof.
  split; [apply parse_failure_Some |].
  split.
  { intros f e (why & _ & ->)%parse_failure_Some. destruct why; cbn; auto. }
  split; [apply identify_format_raises |].
  split; [intros f e; rewrite process_xml_format1_eq;
          apply generic_extractor_raises |].
  split; [intros f e; rewrite process_xml_format2_eq;
          apply generic_extractor_raises |].
  split; [intros f e; rewrite process_xml_format31_eq;
          apply generic_extractor_raises |].
  split; [apply process_file_raises |].
  split.
  { intros fs pdf_files before bad after e Hbad.
    assert (Hloop : process_all fs pdf_files (before ++ bad :: after)
              = ((fst (process_all fs pdf_files before)
                  ++ fst (process_all fs pdf_files after))%list,
                 (snd (process_all fs pdf_files before)
                  ++ (bad, e) :: snd (process_all fs pdf_files after))%list)).
    { change (bad :: after) with ([bad] ++ after)%list.
      rewrite !process_all_app, (process_all_broken _ _ _ _ Hbad).
      reflexivity. }
    split; [exact Hloop |].
    rewrite !process_all_eq in Hloop. cbn [fst snd] in Hloop.
    injection Hloop as Hrows Hprinted.
    rewrite !process_uploaded_files_eq. cbn [fst snd].
    rewrite Hrows, Hprinted. do 3 f_equal.
    unfold collected. by rewrite omap_app. }
  split.
  { intros value e He. rewrite parse_float_coerced. unfold coerced.
    by rewrite He. }
  split; [reflexivity |].
  split; [vm_compute; reflexivity |].
  split; [| split; [| split]]; intros root e He.
  - rewrite process_xml_format1_eq, process_xml_format2_eq,
      process_xml_format31_eq, !generic_extractor_eq.
    repeat constructor; cbn [result_field];
      match goal with
      | |- Ok (record ?ns ?policy root !! _) = _ =>
          destruct (record_quantities ns policy root) as (-> & _)
      end;
      by rewrite (format_coerced_failure _ _ He).
  - rewrite process_xml_format1_eq, generic_extractor_eq. cbn [result_field].
    destruct (record_quantities NS_CARTAPORTE20 DirectAttribute root)
      as (_ & -> & _).
    by rewrite (format_coerced_failure _ _ He).
  - rewrite process_xml_format2_eq, generic_extractor_eq. cbn [result_field].
    destruct (record_quantities NS_CARTAPORTE30 NestedThenFallback root)
      as (_ & -> & _).
    by rewrite (format_coerced_failure _ _ He).
  - rewrite process_xml_format31_eq, generic_extractor_eq. cbn [result_field].
    destruct (record_quantities NS_CARTAPORTE31 NestedThenFallback root)
      as (_ & -> & _).
    by rewrite (format_coerced_failure _ _ He).
Qed.

End error_handling.

(** ** The batch *)

(** C9 (code defect) -- Two recognized documents, one dated
    ["2023-05-01T10:00:00"] and one dated ["2023-01-01T10:00:00-06:00"]: the
    batch raises [TypeError] from the sort, after the loop, and returns no
    frame, although each of the two documents alone gives a frame with its
    row. *)
Lemma batch_mixed_offsets_raises :
  process_uploaded_files mixed_files ∅ ["a.xml"; "b.xml"] = ([], Raise TypeError)
  /\ batch_column "XML_File" (process_uploaded_files mixed_files ∅ ["a.xml"])
     = Ok [Some (PStr "a.xml")]
  /\ batch_column "XML_File" (process_uploaded_files mixed_files ∅ ["b.xml"])
     = Ok [Some (PStr "b.xml")].
Proof. repeat split; vm_compute; reflexivity. Qed.

(** X20 -- The order of the rows.  The batch raises [TypeError] when the
    dates of the documents it keeps hold both a date with an offset and one
    without.  Otherwise it returns: the rows of the result are the records of
    the recognized, well-formed documents (one each, documents that were not
    recognized or that failed to parse left out), put in ascending order of
    ['FechaEmision'] with the rows without a date after all the dated ones,
    and then stripped of that column; this for any sorting routine, whatever
    it does with equal dates.  On documents dated 2023-05-01 and 2023-01-01
    and one whose date does not parse, the rows come out as January, May,
    undated. *)
Theorem batch_sorted_by_emission_date :
  (forall (lib : DatetimeLib) (sorter : SortLib) fs pdf_files all_xml_files,
     (mixed_awareness (batch_dates fs all_xml_files) = true ->
      process_uploaded_files fs pdf_files all_xml_files
      = (printed_lines fs all_xml_files, Raise TypeError))
     /\ (mixed_awareness (batch_dates fs all_xml_files) = false ->
         exists sorted_rows,
           process_uploaded_files fs pdf_files all_xml_files
           = (printed_lines fs all_xml_files,
              Ok (drop_column "FechaEmision" sorted_rows))
           /\ Permutation sorted_rows
                (map float_columns (collected fs pdf_files all_xml_files))
           /\ length sorted_rows
              = length (List.filter (fun xml_path => recognized (fs xml_path))
                          all_xml_files)
           /\ StronglySorted (row_order "FechaEmision") sorted_rows
           /\ Forall (fun row : dict => row !! "FechaEmision" = None)
                (drop_column "FechaEmision" sorted_rows)))
  /\ (let batch := process_uploaded_files sample_files ∅
                     ["a.xml"; "b.xml"; "c.xml"; "d.xml"; "e.xml"] in
      batch_column "XML_File" batch
      = Ok [Some (PStr "b.xml"); Some (PStr "a.xml"); Some (PStr "c.xml")]
      /\ batch_column "Periodo" batch
         = Ok [Some (PStr "1"); Some (PStr "5"); Some (PStr "")]
      /\ batch_column "FechaEmision" batch = Ok [None; None; None]
      /\ batch_printed batch = [("e.xml", ParseError)]).
Proof.
  split.
  - intros lib sorter fs pdf_files all_xml_files. split; intros Hmixed.
    + pose proof (proj2 (process_uploaded_files_raises fs pdf_files
                           all_xml_files TypeError) (conj Hmixed eq_refl)) as Hr.
      rewrite process_uploaded_files_eq in Hr |- *. cbn [snd] in Hr.
      by rewrite Hr.
    + exists (nargsort "FechaEmision"
                (map float_columns (collected fs pdf_files all_xml_files))).
      split; [by apply process_uploaded_files_ok |].
      split; [apply nargsort_perm |].
      split.
      { rewrite (Permutation_length (nargsort_perm _ _)), length_map.
        apply length_collected. }
      split; [apply nargsort_sorted | apply drop_column_lookup].
  - cbv zeta. repeat split; vm_compute; reflexivity.
Qed.

(** ** Runs on concrete documents

    With the date parser [iso_basic] and the sorting routine
    [merge_sorter]. *)

(** Evaluates the tests of the dispatcher on a concrete document. *)
Ltac run_dispatcher :=
  rewrite process_file_wellformed;
  repeat match goal with
         | |- context [is_empty ?l] =>
             let b := eval vm_compute in (is_empty l) in
             replace (is_empty l) with b by (vm_compute; reflexivity)
         end;
  reflexivity.

(** C5 (code defect) -- A well-formed CartaPorte20 document whose invoice
    line has [Cantidad="nan"] is processed without error, and the billed
    quantity of its record is ["nan"], which is not a number written with
    three decimals. *)
Lemma record_quantity_nan :
  result_field "Cantidad Litros Facturada"
    (process_xml_format1
       (ET.WellFormed (carta_porte NS_CARTAPORTE20 "2023-05-01T10:00:00" "nan"
          [("BienesTransp", "15101514"); ("Cantidad", "100")] [])))
  = Ok (Some (PStr "nan"))
  /\ three_decimals "nan" = false.
Proof. split; vm_compute; reflexivity. Qed.


Lemma dispatched_record_has_sat_key_witness :
  let root := carta_porte NS_CARTAPORTE30 "2023-05-01" "100"
                [("BienesTransp", "15101514"); ("Cantidad", "100")] [] in
  let data := record NS_CARTAPORTE30 NestedThenFallback root in
  process_file_based_on_format (ET.WellFormed root) = Ok (Some data)
  /\ exists clave_prod_serv : string,
       data !! "Clave SAT" = Some (PStr clave_prod_serv)
       /\ data !! "Combustible" = Some (map_clave_to_combustible clave_prod_serv).
Proof.
  intros root data.
  assert (Hrun : process_file_based_on_format (ET.WellFormed root) = Ok (Some data))
    by (subst data; run_dispatcher).
  split; [exact Hrun |].
  exact (dispatched_record_has_sat_key (ET.WellFormed root) data Hrun).
Defined.

Lemma transported_quantity_location_witness :
  let mercancia := element NS_CARTAPORTE30 "Mercancia"
                     [("BienesTransp", "15101514"); ("Cantidad", "50")]
                     [element NS_CARTAPORTE30 "CantidadTransporta"
                        [("Cantidad", "75")] []] in
  let root := carta_porte NS_CARTAPORTE30 "2023-05-01T10:00:00" "50"
                [("BienesTransp", "15101514"); ("Cantidad", "50")]
                [element NS_CARTAPORTE30 "CantidadTransporta"
                   [("Cantidad", "75")] []] in
  ET.find root (ET.qn NS_CARTAPORTE30 "Mercancia") = Some mercancia
  /\ result_field "Litros Transportada" (process_xml_format2 (ET.WellFormed root))
     = Ok (Some (PStr "75.000")).
Proof.
  intros mercancia root.
  assert (Hm : ET.find root (ET.qn NS_CARTAPORTE30 "Mercancia") = Some mercancia)
    by (vm_compute; reflexivity).
  split; [exact Hm |].
  destruct (transported_quantity_location root mercancia) as (_ & Hv2 & _).
  rewrite (Hv2 Hm). vm_compute. reflexivity.
Defined.

Lemma format_and_compare_liters_spec_witness :
  PyFloat.is_finite (coerced (PStr "10.01")) = true
  /\ three_decimals (PyFloat.format_3f (coerced (PStr "10.01"))) = true.
Proof.
  pose proof (format_and_compare_liters_spec (PStr "10.01") (PStr "10")) as Hs.
  cbv zeta in Hs. destruct Hs as (_ & _ & _ & Ha & _).
  assert (Hfin : PyFloat.is_finite (coerced (PStr "10.01")) = true)
    by (vm_compute; reflexivity).
  split; [exact Hfin | exact (Ha Hfin)].
Defined.

Lemma extractors_normalize_witness :
  let root := carta_porte NS_CARTAPORTE20 "2023-01-01" "100"
                [("BienesTransp", "15101515"); ("Cantidad", "100")] [] in
  PyFloat.is_finite (coerced (billed_raw root)) = true
  /\ three_decimals (PyFloat.format_3f (coerced (billed_raw root))) = true.
Proof.
  intros root.
  destruct (extractors_normalize root) as [(data & _ & _ & _ & Hb & _) _].
  assert (Hfin : PyFloat.is_finite (coerced (billed_raw root)) = true)
    by (vm_compute; reflexivity).
  split; [exact Hfin | exact (Hb Hfin)].
Defined.

(** C4 (as stated, refuted) -- On a file whose XML declaration names a
    multi-byte encoding (one that starts with
    [<?xml version="1.0" encoding="shift_jis"?>], say) the classifier, every
    extractor and the dispatcher raise [ValueError], which is not a
    [ParseError]. *)
Lemma unsupported_encoding_raises_ValueError :
  let file_path := ET.Broken ET.MultiByteEncoding in
  identify_format file_path = Raise ValueError
  /\ process_xml_format1 file_path = Raise ValueError
  /\ process_xml_format2 file_path = Raise ValueError
  /\ process_xml_format31 file_path = Raise ValueError
  /\ process_file_based_on_format file_path = Raise ValueError
  /\ ValueError <> ParseError.
Proof. cbv zeta. repeat split; try reflexivity. discriminate. Qed.

Lemma parse_failure_is_the_only_error_witness :
  parse_failure (sample_files "e.xml") = Some ParseError
  /\ process_uploaded_files sample_files ∅ (["a.xml"] ++ "e.xml" :: ["b.xml"])
     = ((fst (process_uploaded_files sample_files ∅ ["a.xml"])
         ++ ("e.xml", ParseError)
            :: fst (process_uploaded_files sample_files ∅ ["b.xml"]))%list,
        snd (process_uploaded_files sample_files ∅ (["a.xml"] ++ ["b.xml"]))).
Proof.
  assert (Hbad : parse_failure (sample_files "e.xml") = Some ParseError)
    by reflexivity.
  split; [exact Hbad |].
  destruct parse_failure_is_the_only_error
    as (_ & _ & _ & _ & _ & _ & _ & Hloop & _).
  exact (proj2 (Hloop sample_files ∅ ["a.xml"] "e.xml" ["b.xml"] ParseError Hbad)).
Defined.

Lemma batch_sorted_by_emission_date_witness :
  mixed_awareness (batch_dates sample_files sample_paths) = false
  /\ exists sorted_rows,
       process_uploaded_files sample_files sample_pdf_files sample_paths
       = (printed_lines sample_files sample_paths,
          Ok (drop_column "FechaEmision" sorted_rows))
       /\ StronglySorted (row_order "FechaEmision") sorted_rows.
Proof.
  assert (Hmixed : mixed_awareness (batch_dates sample_files sample_paths) = false)
    by (vm_compute; reflexivity).
  split; [exact Hmixed |].
  destruct (proj2 (proj1 batch_sorted_by_emission_date iso_basic merge_sorter
                     sample_files sample_pdf_files sample_paths) Hmixed)
    as (sorted_rows & Hrun & _ & _ & Hsorted & _).
  exists sorted_rows. split; [exact Hrun | exact Hsorted].
Defined.

(** The header of a CFDI dated in May. *)
Example extract_common_data_may :
  result_field "Periodo"
    (extract_common_data
       (element NS_CFDI "Comprobante"
          [("Fecha", "2023-05-01T10:00:00"); ("Folio", "17")] []))
  = Ok (Some (PStr "5")).
Proof. vm_compute. reflexivity. Qed.

(** An own quantity that overflows is rendered ["inf"]. *)
Example format_and_compare_liters_overflow :
  format_and_compare_liters (PStr "1e999") (PStr "1e999")
  = Ok ("inf", "inf", "Diferentes").
Proof. vm_compute. reflexivity. Qed.

(** * More of the program *)

(** ** utils.py: the fuel table and the comparison *)

(** X1 -- [map_clave_to_combustible] is an exact-match lookup: it answers
    ["magna"], ["premium"] or ["diesel"] exactly for the codes 15101514,
    15101515 and 15101505, [None] for every other string, and two codes with
    the same label are the same code. *)
Theorem fuel_label_exact_match (clave_prod_serv : string) :
  (map_clave_to_combustible clave_prod_serv = PStr "magna"
   <-> clave_prod_serv = "15101514")
  /\ (map_clave_to_combustible clave_prod_serv = PStr "premium"
      <-> clave_prod_serv = "15101515")
  /\ (map_clave_to_combustible clave_prod_serv = PStr "diesel"
      <-> clave_prod_serv = "15101505")
  /\ (map_clave_to_combustible clave_prod_serv = PNone
      <-> clave_prod_serv <> "15101514" /\ clave_prod_serv <> "15101515"
          /\ clave_prod_serv <> "15101505")
  /\ (forall other,
        map_clave_to_combustible clave_prod_serv = map_clave_to_combustible other ->
        map_clave_to_combustible clave_prod_serv <> PNone ->
        clave_prod_serv = other).
Proof.
  assert (Hcases : forall c,
            (c = "15101514" /\ map_clave_to_combustible c = PStr "magna")
            \/ (c = "15101515" /\ map_clave_to_combustible c = PStr "premium")
            \/ (c = "15101505" /\ map_clave_to_combustible c = PStr "diesel")
            \/ (c <> "15101514" /\ c <> "15101515" /\ c <> "15101505"
                /\ map_clave_to_combustible c = PNone)).
  { intros c. unfold map_clave_to_combustible, mapping.
    destruct (decide (c = "15101514")) as [-> | H1]; [left; by split |].
    destruct (decide (c = "15101515")) as [-> | H2]; [right; left; by split |].
    destruct (decide (c = "15101505")) as [-> | H3];
      [right; right; left; by split |].
    right; right; right.
    rewrite !lookup_insert_ne, lookup_empty by congruence. done. }
  pose proof (Hcases clave_prod_serv) as Hc.
  split; [| split; [| split; [| split]]].
  - split; [| by intros ->].
    intros Hm. destruct Hc as [[-> _] | [[_ Hx] | [[_ Hx] | (_ & _ & _ & Hx)]]];
      congruence.
  - split; [| by intros ->].
    intros Hm. destruct Hc as [[_ Hx] | [[-> _] | [[_ Hx] | (_ & _ & _ & Hx)]]];
      congruence.
  - split; [| by intros ->].
    intros Hm. destruct Hc as [[_ Hx] | [[_ Hx] | [[-> _] | (_ & _ & _ & Hx)]]];
      congruence.
  - split.
    + intros Hm. repeat split; intros ->; discriminate Hm.
    + intros (H1 & H2 & H3).
      destruct Hc as [[Hx _] | [[Hx _] | [[Hx _] | (_ & _ & _ & Hx)]]];
        congruence.
  - intros other Heq Hne.
    destruct Hc as [[-> Hx] | [[-> Hx] | [[-> Hx] | (_ & _ & _ & Hx)]]];
      destruct (Hcases other)
        as [[-> Hy] | [[-> Hy] | [[-> Hy] | (_ & _ & _ & Hy)]]];
      congruence.
Qed.

(** *** The comparison does not depend on the order of its arguments *)

Lemma SFabs_binary_round_aux sx sx' mx ex lx :
  SFabs (binary_round_aux PyFloat.prec PyFloat.emax sx mx ex lx)
  = SFabs (binary_round_aux PyFloat.prec PyFloat.emax sx' mx ex lx).
Proof.
  unfold binary_round_aux.
  destruct (shr_fexp _ _ mx ex lx) as [mrs e'].
  destruct (shr_fexp _ _ _ e' loc_Exact) as [mrs' e''].
  destruct (shr_m mrs') as [| m | m]; [reflexivity | | reflexivity].
  by destruct (Z.leb _ _).
Qed.

Lemma SFabs_binary_normalize_opp m e :
  SFabs (binary_normalize PyFloat.prec PyFloat.emax (- m) e false)
  = SFabs (binary_normalize PyFloat.prec PyFloat.emax m e false).
Proof.
  destruct m as [| p | p]; [reflexivity | |];
    change (- Z.pos p)%Z with (Z.neg p); change (- Z.neg p)%Z with (Z.pos p);
    unfold binary_normalize, binary_round;
    destruct (shl_align _ _ _) as [mz ez]; apply SFabs_binary_round_aux.
Qed.

Lemma abs_sub_comm x y :
  PyFloat.abs (PyFloat.sub x y) = PyFloat.abs (PyFloat.sub y x).
Proof.
  unfold PyFloat.abs, PyFloat.sub.
  destruct x as [sx | sx | | sx mx ex], y as [sy | sy | | sy my ey];
    try reflexivity; try (by destruct sx, sy).
  cbn [SFsub]. rewrite (Z.min_comm ey ex), <- SFabs_binary_normalize_opp.
  f_equal. f_equal. lia.
Qed.

Lemma within_tolerance_comm x y : within_tolerance x y = within_tolerance y x.
Proof. unfold within_tolerance. by rewrite abs_sub_comm. Qed.

(** X4 -- Exchanging the billed and the transported quantity exchanges the
    two formatted strings and leaves the comparison as it is. *)
Theorem format_and_compare_liters_swap (facturada_str transportada_str : pyval) :
  format_and_compare_liters transportada_str facturada_str
  = ('(fac, trans, comp) ← format_and_compare_liters facturada_str transportada_str;
     Ok (trans, fac, comp)).
Proof.
  rewrite !format_and_compare_liters_eq. cbn [mbind result_bind].
  by rewrite within_tolerance_comm.
Qed.

Lemma within_tolerance_refl x : within_tolerance x x = PyFloat.is_finite x.
Proof.
  unfold within_tolerance, PyFloat.sub, PyFloat.abs.
  destruct x as [[] | [] | | s m e]; try reflexivity.
  cbn [SFsub]. rewrite Z.min_id, Z.sub_diag. reflexivity.
Qed.

(** X5 -- A quantity compared with itself is ["Iguales"] when its coerced
    value is finite, and ["Diferentes"] when it is [nan] or an infinity. *)
Theorem format_and_compare_liters_same (value : pyval) :
  format_and_compare_liters value value
  = Ok (PyFloat.format_3f (coerced value), PyFloat.format_3f (coerced value),
        if PyFloat.is_finite (coerced value) then "Iguales" else "Diferentes")
  /\ format_and_compare_liters (PStr "inf") (PStr "inf")
     = Ok ("inf", "inf", "Diferentes").
Proof.
  split; [| vm_compute; reflexivity].
  by rewrite format_and_compare_liters_eq, within_tolerance_refl.
Qed.

(** ** xml_processor.py: the shape of a record *)

Section record_shape.
Context `{DatetimeLib}.

Lemma dom_insert_record_key (k : string) (v : pyval) (data : dict) :
  bool_decide (k ∈ record_keys) = true -> dom data = record_keys ->
  dom (<[k := v]> data) = record_keys.
Proof.
  intros Hk%bool_decide_eq_true_1 Hdom. rewrite dom_insert_L, Hdom.
  by apply subseteq_union_1_L, singleton_subseteq_l.
Qed.

Lemma dom_header root : dom (header root) = record_keys.
Proof.
  unfold header. rewrite !dom_insert_L, dom_empty_L.
  vm_compute. reflexivity.
Qed.

Lemma dom_record ns policy root : dom (record ns policy root) = record_keys.
Proof.
  unfold record, normalized, merchandise_fields, read_concepto.
  generalize (dom_header root). generalize (header root). intros data Hdata.
  destruct (ET.find root (ET.qn ns "Mercancia"));
    destruct (ET.find root (ET.qn NS_CFDI "Concepto")); cbv zeta;
    repeat (apply dom_insert_record_key; [vm_compute; reflexivity |]);
    exact Hdata.
Qed.

(** X2 -- Every record an extractor returns has exactly the nine keys that
    [extract_common_data] sets: the extractors overwrite fields and never add
    or remove one, so the records of a batch all have the same columns. *)
Theorem extractors_keep_keys (root : ET.Element) :
  (exists data, extract_common_data root = Ok data /\ dom data = record_keys)
  /\ Forall (fun r => exists data, r = Ok data /\ dom data = record_keys)
       [process_xml_format1 (ET.WellFormed root);
        process_xml_format2 (ET.WellFormed root);
        process_xml_format31 (ET.WellFormed root)]
  /\ (forall data,
        process_file_based_on_format (ET.WellFormed root) = Ok (Some data) ->
        dom data = record_keys).
Proof.
  split; [exists (header root); split;
            [apply extract_common_data_eq | apply dom_header] |].
  split.
  - rewrite process_xml_format1_eq, process_xml_format2_eq,
      process_xml_format31_eq, !generic_extractor_eq.
    repeat constructor; eexists; split; try reflexivity; apply dom_record.
  - intros data. rewrite process_file_wellformed.
    repeat (destruct (is_empty _); cbn [negb]); intros [= <-];
      apply dom_record.
Qed.

Lemma record_without_merchandise ns policy root :
  ET.find root (ET.qn ns "Mercancia") = None ->
  record ns policy root !! "Clave SAT" = Some PNone
  /\ record ns policy root !! "Combustible" = Some PNone
  /\ record ns policy root !! "Litros Transportada" = Some (PStr "0.000")
  /\ record ns policy root !! "Cantidad Litros Facturada"
     = Some (PStr (PyFloat.format_3f (coerced (billed_raw root)))).
Proof.
  intros Hm.
  destruct (record_quantities ns policy root) as (Hb & Ht & _).
  rewrite Hb, Ht. unfold transported_raw. rewrite Hm.
  unfold record, normalized, merchandise_fields, read_concepto, header.
  rewrite Hm. destruct (ET.find root (ET.qn NS_CFDI "Concepto"));
    by simplify_map_eq.
Qed.

(** X3 -- An extractor run on a document without a merchandise element of
    its own namespace still returns a record: ['Clave SAT'] and
    ['Combustible'] stay [None], the transported quantity is ["0.000"] and
    the billed quantity is read as usual. *)
Theorem extractor_without_merchandise (root : ET.Element) :
  let unset (r : result dict) :=
    result_field "Clave SAT" r = Ok (Some PNone)
    /\ result_field "Combustible" r = Ok (Some PNone)
    /\ result_field "Litros Transportada" r = Ok (Some (PStr "0.000"))
    /\ result_field "Cantidad Litros Facturada" r
       = Ok (Some (PStr (PyFloat.format_3f (coerced (billed_raw root))))) in
  (ET.find root (ET.qn NS_CARTAPORTE20 "Mercancia") = None ->
   unset (process_xml_format1 (ET.WellFormed root)))
  /\ (ET.find root (ET.qn NS_CARTAPORTE30 "Mercancia") = None ->
      unset (process_xml_format2 (ET.WellFormed root)))
  /\ (ET.find root (ET.qn NS_CARTAPORTE31 "Mercancia") = None ->
      unset (process_xml_format31 (ET.WellFormed root))).
Proof.
  cbv zeta.
  rewrite process_xml_format1_eq, process_xml_format2_eq,
    process_xml_format31_eq, !generic_extractor_eq. cbn [result_field].
  split; [| split]; intros Hm;
    match goal with
    | |- Ok (record ?ns ?policy root !! _) = _ /\ _ =>
        destruct (record_without_merchandise ns policy root Hm)
          as (-> & -> & -> & ->); repeat split; reflexivity
    end.
Qed.

End record_shape.

(** ** os.path and [identify_pdf] *)

Module os_path_facts.
Import os_path.

Lemma after_last_None c s : after_last c s = None <-> no_char c s = true.
Proof.
  induction s as [| x r IH]; cbn [after_last no_char]; [done |].
  destruct (after_last c r) as [t |].
  - split; [discriminate |]. intros [_ Hr]%andb_prop.
    apply IH in Hr. discriminate.
  - destruct (Ascii.eqb x c); cbn; [split; discriminate |].
    split; [intros _; by apply IH | done].
Qed.

Lemma after_last_Some c s t :
  after_last c s = Some t ->
  no_char c t = true /\ exists pre, s = pre ++ String c t.
Proof.
  revert t. induction s as [| x r IH]; intros t; cbn [after_last];
    [discriminate |].
  destruct (after_last c r) as [t' |] eqn:E.
  - intros [= <-]. destruct (IH t' eq_refl) as [Hn [pre ->]].
    split; [exact Hn |]. by exists (String x pre).
  - destruct (Ascii.eqb_spec x c) as [-> | _]; [| discriminate].
    intros [= <-]. split; [by apply after_last_None |]. by exists "".
Qed.

Lemma after_last_app c s t :
  no_char c t = true -> after_last c (s ++ String c t) = Some t.
Proof.
  intros Ht. induction s as [| x r IH].
  - change ("" ++ String c t) with (String c t). cbn [after_last].
    rewrite (proj2 (after_last_None c t) Ht). by rewrite Ascii.eqb_refl.
  - rewrite PyFloatFacts.append_String. cbn [after_last]. by rewrite IH.
Qed.

Lemma no_char_app c s t :
  no_char c (s ++ t) = no_char c s && no_char c t.
Proof.
  induction s as [| x r IH]; [reflexivity |].
  rewrite PyFloatFacts.append_String. cbn [no_char]. by rewrite IH, andb_assoc.
Qed.

Lemma length_app (s t : string) :
  String.length (s ++ t) = (String.length s + String.length t)%nat.
Proof.
  induction s as [| x r IH]; [reflexivity |].
  rewrite PyFloatFacts.append_String. cbn [String.length]. by rewrite IH.
Qed.

Lemma substring_app (s t : string) : substring 0 (String.length s) (s ++ t) = s.
Proof.
  induction s as [| x r IH].
  - change ("" ++ t) with t. by destruct t.
  - rewrite PyFloatFacts.append_String. cbn [String.length substring].
    by rewrite IH.
Qed.

Lemma basename_plain p : no_char "/" p = true -> basename p = p.
Proof.
  intros Hp. unfold basename. by rewrite (proj2 (after_last_None _ _) Hp).
Qed.

(** [os.path.basename]: the name returned holds no ["/"]; a path
    without ["/"] is its own name; and the name of [dir/name] is [name] when
    [name] holds no ["/"]. *)
Theorem basename_last_component (dir name : string) :
  (forall p, no_char "/" (basename p) = true)
  /\ (no_char "/" name = true ->
      basename name = name /\ basename (dir ++ "/" ++ name) = name).
Proof.
  split.
  - intros p. unfold basename.
    destruct (after_last "/" p) as [t |] eqn:E; cbn [default from_option].
    + by destruct (after_last_Some _ _ _ E).
    + by apply after_last_None.
  - intros Hname. split; [by apply basename_plain |].
    unfold basename. change ("/" ++ name) with (String "/" name).
    by rewrite after_last_app.
Qed.

Lemma splitext_root_ext stem ext :
  no_char "/" stem = true -> all_dots stem = false ->
  no_char "/" ext = true -> no_char "." ext = true ->
  splitext_root (stem ++ "." ++ ext) = stem.
Proof.
  intros Hs Hdots He1 He2. unfold splitext_root.
  change ("." ++ ext) with (String "." ext).
  rewrite basename_plain.
  2: { rewrite no_char_app. cbn [no_char]. by rewrite Hs, He1. }
  rewrite after_last_app by assumption.
  rewrite length_app. cbn [String.length].
  replace (String.length stem + S (String.length ext) - String.length ext - 1)%nat
    with (String.length stem) by lia.
  by rewrite substring_app, Hdots.
Qed.

Lemma splitext_root_no_dot name :
  no_char "/" name = true -> no_char "." name = true ->
  splitext_root name = name.
Proof.
  intros H1 H2. unfold splitext_root. rewrite basename_plain by assumption.
  by rewrite (proj2 (after_last_None _ _) H2).
Qed.

Lemma pdf_name_not_sentinel (base : string) : base ++ ".pdf" <> "No encontrado".
Proof.
  intros Heq.
  do 13 (destruct base as [| ? base];
         [by vm_compute in Heq
         | rewrite PyFloatFacts.append_String in Heq;
           injection Heq as _ Heq]).
  destruct base as [| ? base]; [by vm_compute in Heq |].
  by rewrite PyFloatFacts.append_String in Heq.
Qed.

End os_path_facts.

(** X6 -- [identify_pdf] answers with the name [stem + ".pdf"] exactly when
    that name is a key of [pdf_files], and with ['No encontrado'] exactly when
    it is not; the two answers cannot be confused, because a name that ends in
    [".pdf"] is never the text ['No encontrado']. *)
Theorem identify_pdf_found_or_sentinel (xml_filename : string)
    (pdf_files : gmap string string) :
  let pdf_name := os_path.splitext_root xml_filename ++ ".pdf" in
  (pdf_files !! pdf_name = None
   /\ identify_pdf xml_filename pdf_files = "No encontrado")
  \/ (is_Some (pdf_files !! pdf_name)
      /\ identify_pdf xml_filename pdf_files = pdf_name
      /\ identify_pdf xml_filename pdf_files <> "No encontrado").
Proof.
  intros pdf_name. unfold identify_pdf. fold pdf_name.
  destruct (pdf_files !! pdf_name) as [path |] eqn:E.
  - right. rewrite bool_decide_eq_true_2 by eauto.
    repeat split; [eauto | apply os_path_facts.pdf_name_not_sentinel].
  - left. rewrite bool_decide_eq_false_2; [done |]. by intros [? ?].
Qed.

(** X7 -- For a file name [stem.ext] (a stem without ["/"] that is not made
    of dots only, an extension without ["."] and ["/"], in any letter case),
    the associated PDF is [stem.pdf] when [pdf_files] has that key, and
    ['No encontrado'] otherwise. *)
Theorem identify_pdf_same_stem (stem ext : string) (pdf_files : gmap string string) :
  no_char "/" stem = true -> os_path.all_dots stem = false ->
  no_char "/" ext = true -> no_char "." ext = true ->
  identify_pdf (stem ++ "." ++ ext) pdf_files
  = if bool_decide (is_Some (pdf_files !! (stem ++ ".pdf")))
    then stem ++ ".pdf" else "No encontrado".
Proof.
  intros Hs Hdots He1 He2. unfold identify_pdf.
  by rewrite os_path_facts.splitext_root_ext.
Qed.

Lemma identify_pdf_same_stem_witness :
  no_char "/" "invoice1" = true /\ os_path.all_dots "invoice1" = false
  /\ no_char "/" "XML" = true /\ no_char "." "XML" = true
  /\ identify_pdf ("invoice1" ++ "." ++ "XML")
       (<["invoice1.pdf" := "./temp_files/invoice1.pdf"]> ∅)
     = "invoice1.pdf".
Proof.
  do 4 (split; [reflexivity |]).
  exact (identify_pdf_same_stem "invoice1" "XML"
           (<["invoice1.pdf" := "./temp_files/invoice1.pdf"]> ∅)
           eq_refl eq_refl eq_refl eq_refl).
Defined.

Lemma basename_last_component_witness :
  no_char "/" "a.xml" = true
  /\ os_path.basename ("./temp_files/sub" ++ "/" ++ "a.xml") = "a.xml".
Proof.
  split; [reflexivity |].
  exact (proj2 (proj2 (os_path_facts.basename_last_component
                         "./temp_files/sub" "a.xml") eq_refl)).
Defined.

(** ** pdf_handler.py: what a batch returns *)

Section batch_shape.
Context `{DatetimeLib} `{SortLib}.
Variable fs : string -> ET.file.
Variable pdf_files : gmap string string.

Lemma collected_inv all_xml_files row :
  row ∈ collected fs pdf_files all_xml_files ->
  exists xml_path ns policy root,
    xml_path ∈ all_xml_files /\ fs xml_path = ET.WellFormed root
    /\ recognized (fs xml_path) = true
    /\ row = with_file_fields pdf_files xml_path (record ns policy root).
Proof.
  intros Hrow. apply list_elem_of_omap in Hrow as (p & Hp & Hrow).
  pose proof (process_file_recognized (fs p)) as Hrec.
  destruct (process_file_cases (fs p))
    as [(why & _ & Hr) | (root & Hroot & [Hr | (ns & policy & Hr)])];
    rewrite Hr in Hrow; try discriminate.
  injection Hrow as <-. rewrite Hr in Hrec.
  exists p, ns, policy, root. by repeat split.
Qed.

Lemma batch_row_inv all_xml_files row :
  row ∈ drop_column "FechaEmision"
          (nargsort "FechaEmision"
             (map float_columns (collected fs pdf_files all_xml_files))) ->
  exists xml_path ns policy root,
    xml_path ∈ all_xml_files /\ fs xml_path = ET.WellFormed root
    /\ recognized (fs xml_path) = true
    /\ row = delete "FechaEmision"
               (float_columns
                  (with_file_fields pdf_files xml_path (record ns policy root))).
Proof.
  unfold drop_column. intros Hrow.
  apply list_elem_of_fmap in Hrow as (r & -> & Hr).
  rewrite (nargsort_perm "FechaEmision" _) in Hr.
  apply list_elem_of_fmap in Hr as (c & -> & Hc).
  destruct (collected_inv _ _ Hc) as (p & ns & policy & root & ? & ? & ? & ->).
  exists p, ns, policy, root. by repeat split.
Qed.

Lemma dom_batch_row xml_path ns policy root :
  dom (delete "FechaEmision"
         (float_columns
            (with_file_fields pdf_files xml_path (record ns policy root))))
  = batch_columns.
Proof.
  unfold float_columns, float_cell, with_file_fields. cbv zeta.
  rewrite dom_delete_L, !dom_insert_L, dom_record.
  vm_compute. reflexivity.
Qed.

(** X8 -- Every row of the frame a batch returns comes from one recognized
    document of the list: it carries the base name of that document's path
    and the PDF associated with that name, its two quantities are floats, and
    its columns are the nine of a record without ['FechaEmision'] plus
    ['XML_File'] and ['PDF Asociado']. *)
Theorem batch_rows_shape (all_xml_files : list string) (df : DataFrame)
    (printed : list (string * exn)) :
  process_uploaded_files fs pdf_files all_xml_files = (printed, Ok df) ->
  Forall (fun row : dict =>
            exists xml_path,
              xml_path ∈ all_xml_files
              /\ recognized (fs xml_path) = true
              /\ row !! "XML_File" = Some (PStr (os_path.basename xml_path))
              /\ row !! "PDF Asociado"
                 = Some (PStr (identify_pdf (os_path.basename xml_path) pdf_files))
              /\ (exists x y,
                    row !! "Cantidad Litros Facturada" = Some (PFloat x)
                    /\ row !! "Litros Transportada" = Some (PFloat y))
              /\ dom row = batch_columns)
    df.
Proof.
  intros (_ & _ & ->)%process_uploaded_files_inv.
  apply Forall_forall. intros row Hrow.
  destruct (batch_row_inv _ _ Hrow)
    as (p & ns & policy & root & Hp & _ & Hrec & ->).
  exists p. split; [exact Hp |]. split; [exact Hrec |].
  split; [| split; [| split]].
  - unfold float_columns, float_cell, with_file_fields. by simplify_map_eq.
  - unfold float_columns, float_cell, with_file_fields. by simplify_map_eq.
  - unfold float_columns, float_cell, with_file_fields.
    do 2 eexists. split; by simplify_map_eq.
  - apply dom_batch_row.
Qed.

Lemma printed_lines_eq all_xml_files :
  printed_lines fs all_xml_files
  = omap (fun xml_path =>
            option_map (pair xml_path) (parse_failure (fs xml_path)))
      all_xml_files.
Proof.
  unfold printed_lines.
  induction all_xml_files as [| p l IH]; [reflexivity |].
  cbn [omap list_omap].
  destruct (process_file_cases (fs p))
    as [(why & -> & ->) | (root & -> & [-> | (ns & policy & ->)])];
    cbn [parse_failure ET.parse option_map]; by rewrite ?IH.
Qed.

Lemma length_printed_lines all_xml_files :
  length (printed_lines fs all_xml_files)
  = length (List.filter (fun xml_path => is_broken (fs xml_path)) all_xml_files).
Proof.
  rewrite printed_lines_eq.
  induction all_xml_files as [| p l IH]; [reflexivity |].
  cbn [omap list_omap List.filter].
  destruct (fs p) as [why | root];
    cbn [parse_failure ET.parse option_map is_broken length]; by rewrite IH.
Qed.

Lemma count_paths all_xml_files :
  (length (List.filter (fun p => recognized (fs p)) all_xml_files)
   + length (List.filter (fun p => is_broken (fs p)) all_xml_files)
   + length (List.filter (fun p => negb (is_broken (fs p))
                                   && negb (recognized (fs p))) all_xml_files))%nat
  = length all_xml_files.
Proof.
  induction all_xml_files as [| p l IH]; [reflexivity |].
  cbn [List.filter].
  destruct (fs p) as [why | root] eqn:E; cbn [is_broken negb andb].
  - change (recognized (ET.Broken why)) with false. cbn [length]. lia.
  - destruct (recognized (ET.WellFormed root)); cbn [negb length]; lia.
Qed.

(** X9 -- What a batch prints and how the documents are accounted for.  The
    loop prints one line per file on which [ET.parse] fails, in the order of
    the list, each with the exception that [ET.parse] raised, and this
    whether or not the batch raises after the loop.  When the batch returns a
    frame, every path of the list is exactly one of: a row of the frame, a
    printed line, or a well-formed document of no known variant, which is
    dropped without a trace. *)
Theorem batch_accounts_for_every_path (all_xml_files : list string) :
  fst (process_uploaded_files fs pdf_files all_xml_files)
  = omap (fun xml_path =>
            option_map (pair xml_path) (parse_failure (fs xml_path)))
      all_xml_files
  /\ (forall df,
        snd (process_uploaded_files fs pdf_files all_xml_files) = Ok df ->
        (length df
         + length (fst (process_uploaded_files fs pdf_files all_xml_files))
         + length (List.filter
                     (fun xml_path => negb (is_broken (fs xml_path))
                                      && negb (recognized (fs xml_path)))
                     all_xml_files))%nat
        = length all_xml_files).
Proof.
  split.
  - rewrite process_uploaded_files_eq. apply printed_lines_eq.
  - intros df Hdf.
    destruct (process_uploaded_files fs pdf_files all_xml_files)
      as [printed r] eqn:Hrun.
    cbn [fst snd] in Hdf |- *. subst r.
    apply process_uploaded_files_inv in Hrun as (-> & _ & ->).
    unfold drop_column.
    rewrite length_map, (Permutation_length (nargsort_perm _ _)), length_map,
      length_collected, length_printed_lines.
    apply count_paths.
Qed.

Lemma recognized_none all_xml_files :
  collected fs pdf_files all_xml_files = []
  <-> Forall (fun xml_path => recognized (fs xml_path) = false) all_xml_files.
Proof.
  rewrite <- length_zero_iff_nil, length_collected, length_zero_iff_nil.
  induction all_xml_files as [| p l IH]; [by split |].
  cbn [List.filter]. destruct (recognized (fs p)) eqn:E.
  - split; [discriminate |]. intros Hall.
    apply Forall_cons in Hall as [Hp _]. congruence.
  - rewrite IH, Forall_cons. split; [by split | by intros [_ ?]].
Qed.

(** X10 -- The frame of a batch is empty exactly when no document of the
    list is recognized.  Then nothing is converted, sorted or dropped, and
    the batch does return; in particular an empty list gives an empty frame
    and prints nothing. *)
Theorem batch_empty_frame (all_xml_files : list string) :
  (forall df,
     snd (process_uploaded_files fs pdf_files all_xml_files) = Ok df ->
     (df = [] <-> Forall (fun xml_path => recognized (fs xml_path) = false)
                    all_xml_files))
  /\ (Forall (fun xml_path => recognized (fs xml_path) = false) all_xml_files ->
      snd (process_uploaded_files fs pdf_files all_xml_files) = Ok [])
  /\ process_uploaded_files fs pdf_files [] = ([], Ok []).
Proof.
  split; [| split].
  - intros df Hdf.
    destruct (process_uploaded_files fs pdf_files all_xml_files)
      as [printed r] eqn:Hrun.
    cbn [snd] in Hdf. subst r.
    apply process_uploaded_files_inv in Hrun as (_ & _ & ->).
    rewrite <- recognized_none, <- !length_zero_iff_nil. unfold drop_column.
    by rewrite length_map, (Permutation_length (nargsort_perm _ _)), length_map.
  - intros Hnone%recognized_none.
    unfold process_uploaded_files. rewrite process_all_eq, Hnone. reflexivity.
  - reflexivity.
Qed.

End batch_shape.

(** ** pandas: [unique] and column access *)

Lemma same_value_refl v : same_value v v = true.
Proof.
  destruct v as [| s | x | d]; cbn [same_value].
  - reflexivity.
  - apply String.eqb_refl.
  - destruct x as [[] | [] | | [] m e]; try reflexivity;
      unfold SFeqb, SFcompare;
      by rewrite Z.compare_refl, Pos.compare_cont_refl.
  - unfold datetime_eqb. by rewrite Bool.eqb_reflx, Z.eqb_refl.
Qed.

Lemma same_value_str s v : same_value (PStr s) v = true <-> v = PStr s.
Proof.
  destruct v as [| t | x | d]; cbn [same_value]; try (split; discriminate).
  rewrite String.eqb_eq. split; congruence.
Qed.

Lemma unique_from_elem seen l v :
  v ∈ unique_from seen l -> v ∈ l /\ existsb (same_value v) seen = false.
Proof.
  revert seen. induction l as [| w rest IH]; intros seen; cbn [unique_from].
  - by intros ?%elem_of_nil.
  - destruct (existsb (same_value w) seen) eqn:E.
    + intros Hv. destruct (IH _ Hv). split; [by right | done].
    + intros [-> | Hv]%elem_of_cons; [split; [left | done] |].
      destruct (IH _ Hv) as [Hin Hseen]. split; [by right |].
      cbn [existsb] in Hseen. by apply orb_false_elim in Hseen as [_ ?].
Qed.

Lemma unique_from_NoDup seen l : NoDup (unique_from seen l).
Proof.
  revert seen. induction l as [| w rest IH]; intros seen; cbn [unique_from].
  - constructor.
  - destruct (existsb (same_value w) seen); [apply IH |].
    constructor; [| apply IH].
    intros Hin. apply unique_from_elem in Hin as [_ Hseen].
    cbn [existsb] in Hseen. by rewrite same_value_refl in Hseen.
Qed.

Lemma unique_from_str seen l s :
  PStr s ∈ l -> existsb (same_value (PStr s)) seen = false ->
  PStr s ∈ unique_from seen l.
Proof.
  revert seen. induction l as [| w rest IH]; intros seen Hin Hseen;
    cbn [unique_from].
  - by apply elem_of_nil in Hin.
  - apply elem_of_cons in Hin as [<- | Hin].
    + rewrite Hseen. left.
    + destruct (existsb (same_value w) seen); [by apply IH |].
      destruct (same_value (PStr s) w) eqn:E.
      * apply same_value_str in E as ->. left.
      * right. apply IH; [done |]. cbn [existsb]. by rewrite E.
Qed.

Lemma elem_of_unique_str l s : PStr s ∈ unique l <-> PStr s ∈ l.
Proof.
  unfold unique. split; [by intros [? _]%unique_from_elem |].
  intros Hin. by apply unique_from_str.
Qed.

Lemma getitem_column_cases df col :
  (Forall (fun row : dict => row !! col = None) df
   /\ getitem_column df col = Raise KeyError)
  \/ (getitem_column df col
      = Ok (map (fun row : dict => default (PFloat S754_nan) (row !! col)) df)
      /\ exists row, row ∈ df /\ is_Some (row !! col)).
Proof.
  unfold getitem_column.
  destruct (existsb _ df) eqn:E.
  - right. split; [reflexivity |].
    apply existsb_exists in E as (row & Hrow & Hk).
    exists row. split; [by apply list_elem_of_In |].
    by apply bool_decide_eq_true_1 in Hk.
  - left. split; [| reflexivity]. apply Forall_forall. intros row Hrow.
    destruct (row !! col) eqn:Ek; [| reflexivity].
    assert (existsb (fun row : dict => bool_decide (is_Some (row !! col))) df
            = true); [| congruence].
    apply existsb_exists. exists row. split; [by apply list_elem_of_In |].
    apply bool_decide_eq_true_2. by rewrite Ek.
Qed.

Lemma elem_of_column_str (df : DataFrame) col s :
  PStr s ∈ map (fun row : dict => default (PFloat S754_nan) (row !! col)) df
  <-> exists row, row ∈ df /\ row !! col = Some (PStr s).
Proof.
  rewrite list_elem_of_fmap. split.
  - intros (row & Heq & Hrow). exists row. split; [done |].
    destruct (row !! col); cbn in Heq; congruence.
  - intros (row & Hrow & Hk). exists row. by rewrite Hk.
Qed.

Lemma NoDup_omap {A B} (f : A -> option B) (l : list A) :
  (forall x y z, f x = Some z -> f y = Some z -> x = y) ->
  NoDup l -> NoDup (omap f l).
Proof.
  intros Hinj. induction 1 as [| x l Hx _ IH]; cbn [omap list_omap];
    [constructor |].
  destruct (f x) as [z |] eqn:E; [| exact IH].
  constructor; [| exact IH].
  intros (y & Hy & Hfy)%list_elem_of_omap.
  by rewrite (Hinj _ _ _ E Hfy) in Hx.
Qed.

(** ** pdf_handler.py: generar_zip *)

Section generar_zip_facts.
Context {Excel : Type}.
Variable to_excel : DataFrame -> Excel.

Lemma write_pdfs_eq pdf_files pdf_names : forall zf : list (zip_member Excel),
  write_pdfs pdf_files pdf_names zf
  = Ok (zf ++ pdf_members pdf_files pdf_names)%list.
Proof.
  induction pdf_names as [| v rest IH]; intros zf;
    cbn [write_pdfs pdf_members omap list_omap].
  - by rewrite app_nil_r.
  - destruct v as [| a | x | d]; cbn [py_ne_str str_dict_contains andb];
      try apply IH.
    destruct (String.eqb a "No encontrado"); cbn [negb andb]; [apply IH |].
    destruct (pdf_files !! a) as [filename |] eqn:E; cbn [option_map].
    + rewrite bool_decide_eq_true_2 by eauto.
      cbn [str_dict_getitem]. rewrite E. cbn [mbind result_bind].
      rewrite IH. by rewrite <- app_assoc.
    + rewrite bool_decide_eq_false_2; [apply IH |]. by intros [? ?].
Qed.

Lemma elem_of_pdf_members pdf_files pdf_names (m : zip_member Excel) :
  m ∈ pdf_members pdf_files pdf_names
  <-> exists a filename,
        m = Write filename a /\ PStr a ∈ pdf_names
        /\ a <> "No encontrado" /\ pdf_files !! a = Some filename.
Proof.
  unfold pdf_members. rewrite list_elem_of_omap. split.
  - intros (v & Hv & Hm). destruct v as [| a | x | d]; try discriminate.
    destruct (String.eqb_spec a "No encontrado"); [discriminate |].
    destruct (pdf_files !! a) as [filename |] eqn:E; [| discriminate].
    injection Hm as <-. by exists a, filename.
  - intros (a & filename & -> & Hin & Hne & Hk). exists (PStr a).
    split; [done |]. rewrite Hk.
    by destruct (String.eqb_spec a "No encontrado").
Qed.

Lemma NoDup_pdf_members pdf_files pdf_names :
  NoDup pdf_names ->
  NoDup (map arcname (pdf_members (Excel:=Excel) pdf_files pdf_names)).
Proof.
  intros Hnd.
  assert (Heq : map arcname (pdf_members (Excel:=Excel) pdf_files pdf_names)
                = omap (fun v =>
                          match v with
                          | PStr a =>
                              if String.eqb a "No encontrado" then None
                              else option_map (fun _ => a) (pdf_files !! a)
                          | _ => None
                          end) pdf_names).
  { unfold pdf_members. clear Hnd.
    induction pdf_names as [| v rest IH]; [reflexivity |].
    cbn [omap list_omap]. destruct v as [| a | x | d]; try exact IH.
    destruct (String.eqb a "No encontrado"); [exact IH |].
    destruct (pdf_files !! a); cbn [option_map map arcname]; by rewrite ?IH. }
  rewrite Heq. apply NoDup_omap; [| exact Hnd].
  intros [| a | x | d] [| b | y | e] z; try discriminate.
  destruct (String.eqb a "No encontrado"); [discriminate |].
  destruct (String.eqb b "No encontrado"); [discriminate |].
  destruct (pdf_files !! a), (pdf_files !! b); cbn; congruence.
Qed.

(** The members written on a frame that has the column. *)
Lemma generar_zip_eq df pdf_files :
  (exists row, row ∈ df /\ is_Some (row !! "PDF Asociado")) ->
  generar_zip to_excel df pdf_files
  = Ok (Writestr "datos_procesados.xlsx" (to_excel df)
        :: pdf_members pdf_files
             (unique (map (fun row : dict =>
                             default (PFloat S754_nan) (row !! "PDF Asociado")) df))).
Proof.
  intros (row & Hrow & Hk). unfold generar_zip.
  destruct (getitem_column_cases df "PDF Asociado") as [[Hnone _] | [-> _]].
  - rewrite Forall_forall in Hnone. rewrite (Hnone row Hrow) in Hk.
    by destruct Hk.
  - cbn [mbind result_bind]. by rewrite write_pdfs_eq.
Qed.

(** X12 -- [generar_zip] raises [KeyError] on a frame without the
    ['PDF Asociado'] column (so on the empty frame).  Otherwise the archive
    starts with the spreadsheet [datos_procesados.xlsx] and then holds PDF
    files only, no two under the same name: exactly the files of [pdf_files]
    whose name stands in the ['PDF Asociado'] column, each once, and never
    one named ['No encontrado']. *)
Theorem generar_zip_members (df : DataFrame) (pdf_files : gmap string string) :
  (Forall (fun row : dict => row !! "PDF Asociado" = None) df
   /\ generar_zip to_excel df pdf_files = Raise KeyError)
  \/ (exists pdfs : list (zip_member Excel),
        generar_zip to_excel df pdf_files
        = Ok (Writestr "datos_procesados.xlsx" (to_excel df) :: pdfs)
        /\ NoDup (map arcname pdfs)
        /\ (forall m, m ∈ pdfs <->
               exists a filename,
                 m = Write filename a
                 /\ a <> "No encontrado"
                 /\ pdf_files !! a = Some filename
                 /\ exists row, row ∈ df /\ row !! "PDF Asociado" = Some (PStr a))).
Proof.
  destruct (getitem_column_cases df "PDF Asociado") as [[Hnone Hcol] | [_ Hrow]].
  - left. split; [exact Hnone |]. unfold generar_zip. by rewrite Hcol.
  - right. eexists. split; [by apply generar_zip_eq |].
    split; [apply NoDup_pdf_members, unique_from_NoDup |].
    intros m. rewrite elem_of_pdf_members.
    split; intros (a & filename & -> & H1 & H2 & H3); exists a, filename.
    + apply elem_of_unique_str, elem_of_column_str in H1. by repeat split.
    + repeat split; try done. by apply elem_of_unique_str, elem_of_column_str.
Qed.

End generar_zip_facts.

(** ** From the batch to the archive and to the viewer *)

Lemma ends_with_app suffix base : ends_with suffix (base ++ suffix) = true.
Proof.
  induction base as [| c base IH].
  - change ("" ++ suffix) with suffix.
    destruct suffix; cbn [ends_with]; by rewrite String.eqb_refl.
  - rewrite PyFloatFacts.append_String. cbn [ends_with]. rewrite IH.
    apply orb_true_r.
Qed.

Lemma identify_pdf_cases xml_filename (pdf_files : gmap string string) :
  identify_pdf xml_filename pdf_files = "No encontrado"
  \/ (identify_pdf xml_filename pdf_files <> "No encontrado"
      /\ is_Some (pdf_files !! identify_pdf xml_filename pdf_files)
      /\ ends_with ".pdf" (identify_pdf xml_filename pdf_files) = true).
Proof.
  unfold identify_pdf. case_bool_decide as Hk; [right | by left].
  split; [apply os_path_facts.pdf_name_not_sentinel |].
  split; [exact Hk | apply ends_with_app].
Qed.

Section batch_consumers.
Context `{DatetimeLib} `{SortLib}.
Context {Excel : Type}.
Variable to_excel : DataFrame -> Excel.
Variable fs : string -> ET.file.
Variable pdf_files : gmap string string.

Lemma record_combustible ns policy root :
  record ns policy root !! "Combustible" = Some PNone
  \/ exists label, label ∈ fuel_labels
       /\ record ns policy root !! "Combustible" = Some (PStr label).
Proof.
  unfold record, normalized, merchandise_fields, read_concepto, header.
  destruct (ET.find root (ET.qn ns "Mercancia")) as [m |];
    destruct (ET.find root (ET.qn NS_CFDI "Concepto"));
    try (left; by simplify_map_eq).
  - cbv zeta. unfold map_clave_to_combustible, mapping, fuel_labels.
    set (clave := ET.get m "BienesTransp" "").
    destruct (decide (clave = "15101514")) as [-> | H1];
      [right; exists "magna"; split; [set_solver | by simplify_map_eq] |].
    destruct (decide (clave = "15101515")) as [-> | H2];
      [right; exists "premium"; split; [set_solver | by simplify_map_eq] |].
    destruct (decide (clave = "15101505")) as [-> | H3];
      [right; exists "diesel"; split; [set_solver | by simplify_map_eq] |].
    left. simplify_map_eq. reflexivity.
  - cbv zeta. unfold map_clave_to_combustible, mapping, fuel_labels.
    set (clave := ET.get m "BienesTransp" "").
    destruct (decide (clave = "15101514")) as [-> | H1];
      [right; exists "magna"; split; [set_solver | by simplify_map_eq] |].
    destruct (decide (clave = "15101515")) as [-> | H2];
      [right; exists "premium"; split; [set_solver | by simplify_map_eq] |].
    destruct (decide (clave = "15101505")) as [-> | H3];
      [right; exists "diesel"; split; [set_solver | by simplify_map_eq] |].
    left. simplify_map_eq. reflexivity.
Qed.

(** The two columns the consumers read, on a row of a batch. *)
Lemma batch_row_lookup all_xml_files df printed row :
  process_uploaded_files fs pdf_files all_xml_files = (printed, Ok df) ->
  row ∈ df ->
  (exists xml_filename,
     row !! "PDF Asociado" = Some (PStr (identify_pdf xml_filename pdf_files)))
  /\ (row !! "Combustible" = Some PNone
      \/ exists label, label ∈ fuel_labels
           /\ row !! "Combustible" = Some (PStr label)).
Proof.
  intros (_ & _ & ->)%process_uploaded_files_inv Hrow.
  destruct (batch_row_inv _ _ _ _ Hrow) as (p & ns & policy & root & _ & _ & _ & ->).
  unfold float_columns, float_cell, with_file_fields. split.
  - eexists. by simplify_map_eq.
  - destruct (record_combustible ns policy root) as [Hc | (label & Hl & Hc)];
      [left | right; exists label; split; [done |]]; by simplify_map_eq.
Qed.

Lemma batch_frame_has_columns all_xml_files df printed :
  process_uploaded_files fs pdf_files all_xml_files = (printed, Ok df) ->
  df <> [] ->
  exists row, row ∈ df /\ is_Some (row !! "PDF Asociado")
              /\ is_Some (row !! "Combustible").
Proof.
  intros Hrun Hne. destruct df as [| row df']; [done |].
  exists row. split; [left |].
  destruct (batch_row_lookup _ _ _ row Hrun ltac:(left))
    as [[x ->] [-> | (label & _ & ->)]]; eauto.
Qed.

(** X13 -- The archive of a batch.  On the non-empty frame a batch returns,
    [generar_zip] never raises; no two members of the archive have the same
    name (no PDF is called [datos_procesados.xlsx]); and every row either
    shows ['No encontrado'] or has its PDF in the archive, read from the path
    [pdf_files] gives for it. *)
Theorem batch_archive (all_xml_files : list string) (df : DataFrame)
    (printed : list (string * exn)) :
  process_uploaded_files fs pdf_files all_xml_files = (printed, Ok df) ->
  df <> [] ->
  exists members,
    generar_zip to_excel df pdf_files = Ok members
    /\ NoDup (map arcname members)
    /\ Forall (fun row : dict =>
                 row !! "PDF Asociado" = Some (PStr "No encontrado")
                 \/ exists a filename,
                      row !! "PDF Asociado" = Some (PStr a)
                      /\ pdf_files !! a = Some filename
                      /\ Write filename a ∈ members)
         df.
Proof.
  intros Hrun Hne.
  destruct (batch_frame_has_columns _ _ _ Hrun Hne) as (row0 & Hrow0 & Hk0 & _).
  eexists. split; [apply generar_zip_eq; eauto |].
  split.
  - cbn [map arcname]. constructor.
    + intros (m & Harc & Hm)%list_elem_of_fmap.
      apply elem_of_pdf_members in Hm as (a & filename & -> & Hin & _ & _).
      cbn [arcname] in Harc. subst a.
      apply elem_of_unique_str, elem_of_column_str in Hin as (row & Hrow & Hk).
      destruct (batch_row_lookup _ _ _ row Hrun Hrow) as [[x Hx] _].
      rewrite Hx in Hk. injection Hk as Hk.
      destruct (identify_pdf_cases x pdf_files) as [Hs | (_ & _ & Hpdf)].
      * rewrite Hs in Hk. discriminate.
      * rewrite Hk in Hpdf. discriminate.
    + apply NoDup_pdf_members, unique_from_NoDup.
  - apply Forall_forall. intros row Hrow.
    destruct (batch_row_lookup _ _ _ row Hrun Hrow) as [[x Hx] _].
    destruct (identify_pdf_cases x pdf_files) as [Hs | (Hns & [filename Hk] & _)].
    + left. by rewrite Hx, Hs.
    + right. exists (identify_pdf x pdf_files), filename.
      split; [exact Hx |]. split; [exact Hk |]. right.
      apply elem_of_pdf_members. exists (identify_pdf x pdf_files), filename.
      repeat split; try done.
      apply elem_of_unique_str, elem_of_column_str. eauto.
Qed.

(** X14 -- The PDF viewer of [main].  On the non-empty frame of a batch the
    list offered for viewing has no repetition and no ['No encontrado'], and
    the lookup [pdf_files[selected_pdf]] succeeds for each of its entries: it
    cannot raise [KeyError]. *)
Theorem viewer_finds_selected_pdf (all_xml_files : list string) (df : DataFrame)
    (printed : list (string * exn)) :
  process_uploaded_files fs pdf_files all_xml_files = (printed, Ok df) ->
  df <> [] ->
  exists options,
    archivos_con_pdf df = Ok options
    /\ NoDup options
    /\ Forall (fun selected_pdf =>
                 selected_pdf <> PStr "No encontrado"
                 /\ exists path, pdf_path pdf_files selected_pdf = Ok path)
         options.
Proof.
  intros Hrun Hne.
  destruct (batch_frame_has_columns _ _ _ Hrun Hne) as (row0 & Hrow0 & Hk0 & _).
  unfold archivos_con_pdf.
  destruct (getitem_column_cases df "PDF Asociado") as [[Hnone _] | [-> _]].
  { rewrite Forall_forall in Hnone. rewrite (Hnone row0 Hrow0) in Hk0.
    by destruct Hk0. }
  cbn [mbind result_bind]. eexists. split; [reflexivity |].
  split; [apply unique_from_NoDup |].
  apply Forall_forall. intros v [Hv _]%unique_from_elem.
  apply list_elem_of_In, filter_In in Hv as [Hv Hns].
  apply list_elem_of_In, list_elem_of_fmap in Hv as (row & -> & Hrow).
  destruct (batch_row_lookup _ _ _ row Hrun Hrow) as [[x Hx] _].
  rewrite Hx in Hns |- *. cbn [default from_option id py_ne_str] in Hns |- *.
  destruct (identify_pdf_cases x pdf_files) as [Hs | (Hn & [path Hk] & _)].
  - rewrite Hs in Hns. discriminate.
  - split; [congruence |]. exists path. unfold pdf_path, str_dict_getitem.
    by rewrite Hk.
Qed.

(** X15 -- The fuel filter of [main].  On the non-empty frame of a batch the
    options of the filter are fuel labels, each at most once: there are at
    most three, [None] is never one of them, and the list is empty when no
    document carries a known code. *)
Theorem fuel_filter_options (all_xml_files : list string) (df : DataFrame)
    (printed : list (string * exn)) :
  process_uploaded_files fs pdf_files all_xml_files = (printed, Ok df) ->
  df <> [] ->
  exists options,
    combustibles_unicos df = Ok options
    /\ NoDup options
    /\ Forall (fun v => exists label, label ∈ fuel_labels /\ v = PStr label) options
    /\ length options <= 3
    /\ (forall label,
          PStr label ∈ options
          <-> exists row, row ∈ df /\ row !! "Combustible" = Some (PStr label)).
Proof.
  intros Hrun Hne.
  destruct (batch_frame_has_columns _ _ _ Hrun Hne) as (row0 & Hrow0 & _ & Hk0).
  unfold combustibles_unicos.
  destruct (getitem_column_cases df "Combustible") as [[Hnone _] | [-> _]].
  { rewrite Forall_forall in Hnone. rewrite (Hnone row0 Hrow0) in Hk0.
    by destruct Hk0. }
  cbn [mbind result_bind]. eexists. split; [reflexivity |].
  assert (Hlabels : Forall (fun v => exists label, label ∈ fuel_labels /\ v = PStr label)
                      (unique (dropna (map (fun row : dict =>
                         default (PFloat S754_nan) (row !! "Combustible")) df)))).
  { apply Forall_forall. intros v [Hv _]%unique_from_elem.
    apply list_elem_of_In, filter_In in Hv as [Hv Hna].
    apply list_elem_of_In, list_elem_of_fmap in Hv as (row & -> & Hrow).
    destruct (batch_row_lookup _ _ _ row Hrun Hrow)
      as [_ [Hc | (label & Hl & Hc)]]; rewrite Hc in Hna |- *.
    - discriminate.
    - by exists label. }
  split; [apply unique_from_NoDup |]. split; [exact Hlabels |]. split.
  - change 3 with (length (map PStr fuel_labels)).
    apply NoDup_incl_length; [apply NoDup_ListNoDup, unique_from_NoDup |].
    intros v Hv%list_elem_of_In. rewrite Forall_forall in Hlabels.
    destruct (Hlabels v Hv) as (label & Hl & ->).
    apply in_map. by apply list_elem_of_In.
  - intros label. rewrite elem_of_unique_str. unfold dropna.
    rewrite list_elem_of_In, filter_In, <- list_elem_of_In, elem_of_column_str.
    cbn [isna negb]. split; [by intros [? _] | by intros ?].
Qed.

(** X11 -- The order in which the documents are listed does not matter.
    On the same paths in another order the loop prints the same lines, up to
    their order, and the batch ends the same way: it raises in both cases or
    in neither, and when it returns, the two frames have the same rows, up to
    their order. *)
Theorem batch_order_irrelevant (xs ys : list string) :
  Permutation xs ys ->
  Permutation (fst (process_uploaded_files fs pdf_files xs))
    (fst (process_uploaded_files fs pdf_files ys))
  /\ match snd (process_uploaded_files fs pdf_files xs),
           snd (process_uploaded_files fs pdf_files ys) with
     | Ok df_x, Ok df_y => Permutation df_x df_y
     | Raise e_x, Raise e_y => e_x = e_y
     | _, _ => False
     end.
Proof.
  intros Hperm.
  assert (Hrows : Permutation (collected fs pdf_files xs) (collected fs pdf_files ys))
    by (unfold collected; by rewrite Hperm).
  assert (Hmixed : mixed_awareness (batch_dates fs xs)
                   = mixed_awareness (batch_dates fs ys)).
  { unfold mixed_awareness, batch_dates. f_equal.
    - apply eq_true_iff_eq. rewrite !existsb_exists.
      split; intros (d & Hd & ?); exists d; split; try done;
        [rewrite <- Hperm | rewrite Hperm]; exact Hd.
    - apply eq_true_iff_eq. rewrite !existsb_exists.
      split; intros (d & Hd & ?); exists d; split; try done;
        [rewrite <- Hperm | rewrite Hperm]; exact Hd. }
  split.
  - rewrite !process_uploaded_files_eq. cbn [fst].
    unfold printed_lines. by rewrite Hperm.
  - destruct (mixed_awareness (batch_dates fs ys)) eqn:Hys.
    + rewrite (proj2 (process_uploaded_files_raises fs pdf_files xs TypeError)
                 (conj Hmixed eq_refl)).
      by rewrite (proj2 (process_uploaded_files_raises fs pdf_files ys TypeError)
                    (conj Hys eq_refl)).
    + rewrite (process_uploaded_files_ok fs pdf_files xs Hmixed),
        (process_uploaded_files_ok fs pdf_files ys Hys).
      cbn [snd]. unfold drop_column. apply Permutation_map.
      rewrite !nargsort_perm. by apply Permutation_map.
Qed.

End batch_consumers.

(** ** Runs of the rest of the program *)

Lemma sample_frame_run :
  process_uploaded_files sample_files sample_pdf_files sample_paths
  = (printed_lines sample_files sample_paths, Ok sample_frame).
Proof. apply process_uploaded_files_ok. vm_compute. reflexivity. Defined.

Lemma sample_frame_nonempty : sample_frame <> [].
Proof.
  assert (Hlen : length sample_frame = 3) by (vm_compute; reflexivity).
  intros Hnil. rewrite Hnil in Hlen. discriminate Hlen.
Defined.

Lemma fuel_label_exact_match_witness :
  map_clave_to_combustible "15101514" = map_clave_to_combustible "15101514"
  /\ map_clave_to_combustible "15101514" <> PNone
  /\ "15101514" = "15101514".
Proof.
  assert (H1 : map_clave_to_combustible "15101514"
               = map_clave_to_combustible "15101514") by reflexivity.
  assert (H2 : map_clave_to_combustible "15101514" <> PNone) by discriminate.
  split; [exact H1 |]. split; [exact H2 |].
  destruct (fuel_label_exact_match "15101514") as (_ & _ & _ & _ & Hinj).
  exact (Hinj "15101514" H1 H2).
Defined.

Lemma extractors_keep_keys_witness :
  let root := carta_porte NS_CARTAPORTE30 "2023-05-01" "100"
                [("BienesTransp", "15101514"); ("Cantidad", "100")] [] in
  let data := record NS_CARTAPORTE30 NestedThenFallback root in
  process_file_based_on_format (ET.WellFormed root) = Ok (Some data)
  /\ dom data = record_keys.
Proof.
  intros root data.
  assert (Hrun : process_file_based_on_format (ET.WellFormed root) = Ok (Some data))
    by (subst data; run_dispatcher).
  split; [exact Hrun |].
  destruct (extractors_keep_keys root) as (_ & _ & Hkeys).
  exact (Hkeys data Hrun).
Defined.

Lemma extractor_without_merchandise_witness :
  ET.find plain_invoice (ET.qn NS_CARTAPORTE20 "Mercancia") = None
  /\ result_field "Clave SAT" (process_xml_format1 (ET.WellFormed plain_invoice))
     = Ok (Some PNone)
  /\ result_field "Litros Transportada"
       (process_xml_format1 (ET.WellFormed plain_invoice))
     = Ok (Some (PStr "0.000")).
Proof.
  assert (Hm : ET.find plain_invoice (ET.qn NS_CARTAPORTE20 "Mercancia") = None)
    by (vm_compute; reflexivity).
  split; [exact Hm |].
  pose proof (extractor_without_merchandise plain_invoice) as Hx.
  cbv zeta in Hx. destruct Hx as (Hv1 & _ & _).
  destruct (Hv1 Hm) as (Hclave & _ & Htrans & _).
  split; [exact Hclave | exact Htrans].
Defined.

Lemma batch_rows_shape_witness :
  process_uploaded_files sample_files sample_pdf_files sample_paths
  = (printed_lines sample_files sample_paths, Ok sample_frame)
  /\ Forall (fun row : dict =>
               exists xml_path,
                 xml_path ∈ sample_paths
                 /\ recognized (sample_files xml_path) = true
                 /\ row !! "XML_File" = Some (PStr (os_path.basename xml_path))
                 /\ row !! "PDF Asociado"
                    = Some (PStr (identify_pdf (os_path.basename xml_path)
                                    sample_pdf_files))
                 /\ (exists x y,
                       row !! "Cantidad Litros Facturada" = Some (PFloat x)
                       /\ row !! "Litros Transportada" = Some (PFloat y))
                 /\ dom row = batch_columns)
       sample_frame.
Proof.
  split; [exact sample_frame_run |].
  exact (batch_rows_shape sample_files sample_pdf_files sample_paths
           sample_frame _ sample_frame_run).
Defined.

Lemma batch_archive_witness :
  process_uploaded_files sample_files sample_pdf_files sample_paths
  = (printed_lines sample_files sample_paths, Ok sample_frame)
  /\ sample_frame <> []
  /\ exists members,
       generar_zip (fun df : DataFrame => length df) sample_frame sample_pdf_files
       = Ok members
       /\ NoDup (map arcname members)
       /\ Forall (fun row : dict =>
                    row !! "PDF Asociado" = Some (PStr "No encontrado")
                    \/ exists a filename,
                         row !! "PDF Asociado" = Some (PStr a)
                         /\ sample_pdf_files !! a = Some filename
                         /\ Write filename a ∈ members)
            sample_frame.
Proof.
  split; [exact sample_frame_run |]. split; [exact sample_frame_nonempty |].
  exact (batch_archive (fun df : DataFrame => length df) sample_files
           sample_pdf_files sample_paths sample_frame _
           sample_frame_run sample_frame_nonempty).
Defined.

Lemma viewer_finds_selected_pdf_witness :
  process_uploaded_files sample_files sample_pdf_files sample_paths
  = (printed_lines sample_files sample_paths, Ok sample_frame)
  /\ sample_frame <> []
  /\ exists options,
       archivos_con_pdf sample_frame = Ok options
       /\ NoDup options
       /\ Forall (fun selected_pdf =>
                    selected_pdf <> PStr "No encontrado"
                    /\ exists path, pdf_path sample_pdf_files selected_pdf = Ok path)
            options.
Proof.
  split; [exact sample_frame_run |]. split; [exact sample_frame_nonempty |].
  exact (viewer_finds_selected_pdf sample_files sample_pdf_files sample_paths
           sample_frame _ sample_frame_run sample_frame_nonempty).
Defined.

Lemma fuel_filter_options_witness :
  process_uploaded_files sample_files sample_pdf_files sample_paths
  = (printed_lines sample_files sample_paths, Ok sample_frame)
  /\ sample_frame <> []
  /\ exists options,
       combustibles_unicos sample_frame = Ok options /\ length options <= 3.
Proof.
  split; [exact sample_frame_run |]. split; [exact sample_frame_nonempty |].
  destruct (fuel_filter_options sample_files sample_pdf_files sample_paths
              sample_frame _ sample_frame_run sample_frame_nonempty)
    as (options & Hrun & _ & _ & Hlen & _).
  exists options. split; [exact Hrun | exact Hlen].
Defined.

Lemma batch_order_irrelevant_witness :
  Permutation ["a.xml"; "e.xml"; "b.xml"] ["b.xml"; "a.xml"; "e.xml"]
  /\ Permutation
       (fst (process_uploaded_files sample_files sample_pdf_files
               ["a.xml"; "e.xml"; "b.xml"]))
       (fst (process_uploaded_files sample_files sample_pdf_files
               ["b.xml"; "a.xml"; "e.xml"]))
  /\ match snd (process_uploaded_files sample_files sample_pdf_files
                  ["a.xml"; "e.xml"; "b.xml"]),
           snd (process_uploaded_files sample_files sample_pdf_files
                  ["b.xml"; "a.xml"; "e.xml"]) with
     | Ok df_x, Ok df_y => Permutation df_x df_y
     | Raise e_x, Raise e_y => e_x = e_y
     | _, _ => False
     end.
Proof.
  assert (Hperm : Permutation ["a.xml"; "e.xml"; "b.xml"] ["b.xml"; "a.xml"; "e.xml"]).
  { apply (Permutation_cons_app ["b.xml"] ["e.xml"]).
    apply (Permutation_cons_app ["b.xml"] []). reflexivity. }
  split; [exact Hperm |].
  exact (batch_order_irrelevant sample_files sample_pdf_files _ _ Hperm).
Defined.

Lemma batch_accounts_for_every_path_witness :
  snd (process_uploaded_files sample_files sample_pdf_files sample_paths)
  = Ok sample_frame
  /\ (length sample_frame
      + length (fst (process_uploaded_files sample_files sample_pdf_files
                       sample_paths))
      + length (List.filter
                  (fun xml_path => negb (is_broken (sample_files xml_path))
                                   && negb (recognized (sample_files xml_path)))
                  sample_paths))%nat
     = length sample_paths.
Proof.
  assert (Hrun : snd (process_uploaded_files sample_files sample_pdf_files
                        sample_paths) = Ok sample_frame)
    by (rewrite sample_frame_run; reflexivity).
  split; [exact Hrun |].
  exact (proj2 (batch_accounts_for_every_path sample_files sample_pdf_files
                  sample_paths) sample_frame Hrun).
Defined.

Lemma batch_empty_frame_witness :
  Forall (fun xml_path => recognized (sample_files xml_path) = false)
    ["d.xml"; "e.xml"]
  /\ snd (process_uploaded_files sample_files sample_pdf_files ["d.xml"; "e.xml"])
     = Ok [].
Proof.
  assert (Hnone : Forall (fun xml_path => recognized (sample_files xml_path) = false)
                    ["d.xml"; "e.xml"])
    by (repeat constructor; vm_compute; reflexivity).
  split; [exact Hnone |].
  exact (proj1 (proj2 (batch_empty_frame sample_files sample_pdf_files
                         ["d.xml"; "e.xml"])) Hnone).
Defined.

(** The archive and the two selection lists of the sample batch. *)
Example sample_archive :
  generar_zip (fun df : DataFrame => length df) sample_frame sample_pdf_files
  = Ok [Writestr "datos_procesados.xlsx" 3; Write "./temp_files/a.pdf" "a.pdf"]
  /\ archivos_con_pdf sample_frame = Ok [PStr "a.pdf"]
  /\ combustibles_unicos sample_frame
     = Ok [PStr "premium"; PStr "magna"; PStr "diesel"]
  /\ generar_zip (fun df : DataFrame => length df) [] sample_pdf_files
     = Raise KeyError.
Proof. repeat split; vm_compute; reflexivity. Qed.

(** ** pdf_handler.py: the files of a batch *)

#[export] Instance str_le_total : Total str_le.
Proof. intros a b. apply String.leb_total. Qed.

Lemma elem_of_collect_xml walk p :
  p ∈ collect_xml walk
  <-> exists root_dir files file,
        (root_dir, files) ∈ walk /\ file ∈ files
        /\ endswith (py_lower file) ".xml" = true
        /\ p = path_join root_dir file.
Proof.
  unfold collect_xml, sorted. rewrite merge_sort_Permutation.
  rewrite list_elem_of_In, in_flat_map. split.
  - intros ([root_dir files] & Hw & Hp).
    apply in_map_iff in Hp as (file & <- & Hf). apply filter_In in Hf as [Hf Hx].
    exists root_dir, files, file. by rewrite !list_elem_of_In.
  - intros (root_dir & files & file & Hw & Hf & Hx & ->).
    exists (root_dir, files). split; [by apply list_elem_of_In |].
    apply in_map, filter_In. by rewrite <- list_elem_of_In.
Qed.

(** X16 -- The paths handed to the loop: they are in ascending order, and
    they are exactly the files found by the walk whose name ends in [.xml]
    in any letter case, each as the path of its directory joined with its
    name. *)
Theorem collected_xml_files (walk : list (string * list string)) :
  Sorted str_le (collect_xml walk)
  /\ (forall p,
        p ∈ collect_xml walk
        <-> exists root_dir files file,
              (root_dir, files) ∈ walk /\ file ∈ files
              /\ endswith (py_lower file) ".xml" = true
              /\ p = path_join root_dir file)
  /\ length (collect_xml walk)
     = length (flat_map
                 (fun '(_, files) =>
                    List.filter (fun file => endswith (py_lower file) ".xml") files)
                 walk).
Proof.
  split; [apply Sorted_merge_sort, _ |].
  split; [apply elem_of_collect_xml |].
  unfold collect_xml, sorted.
  rewrite (Permutation_length (merge_sort_Permutation _ _)).
  induction walk as [| [root_dir files] walk IH]; [reflexivity |].
  cbn [flat_map]. by rewrite !length_app, length_map, IH.
Qed.

Lemma collect_pdfs_cons root_dir files walk pdf_files :
  collect_pdfs ((root_dir, files) :: walk) pdf_files
  = collect_pdfs walk (collect_dir root_dir files pdf_files).
Proof. reflexivity. Qed.

Lemma collect_dir_lookup root_dir files : forall pdf_files name,
  collect_dir root_dir files pdf_files !! name
  = if bool_decide (name ∈ files) && endswith (py_lower name) ".pdf"
    then Some (path_join root_dir name)
    else pdf_files !! name.
Proof.
  unfold collect_dir.
  induction files as [| file files IH]; intros pdf_files name; cbn [fold_left].
  - rewrite bool_decide_eq_false_2; [done |]. apply not_elem_of_nil.
  - rewrite IH. destruct (decide (name = file)) as [-> | Hne].
    + rewrite (bool_decide_eq_true_2 (file ∈ file :: files)) by left.
      cbn [andb]. destruct (endswith (py_lower file) ".pdf") eqn:E.
      * by rewrite lookup_insert_eq, andb_true_r, Tauto.if_same.
      * by rewrite andb_false_r.
    + assert (Heq : bool_decide (name ∈ file :: files)
                    = bool_decide (name ∈ files)).
      { apply bool_decide_ext. rewrite elem_of_cons.
        split; [intros [? | ?]; [congruence | done] | by right]. }
      rewrite Heq. destruct (bool_decide (name ∈ files) && _); [done |].
      destruct (endswith (py_lower file) ".pdf"); [| done].
      by rewrite lookup_insert_ne.
Qed.

Lemma collect_pdfs_sound walk : forall pdf_files name path,
  collect_pdfs walk pdf_files !! name = Some path ->
  pdf_files !! name = Some path
  \/ exists root_dir files,
       (root_dir, files) ∈ walk /\ name ∈ files
       /\ endswith (py_lower name) ".pdf" = true
       /\ path = path_join root_dir name.
Proof.
  induction walk as [| [root_dir files] walk IH]; intros pdf_files name path.
  - intros Hk. by left.
  - rewrite collect_pdfs_cons. intros Hk.
    destruct (IH _ _ _ Hk) as [Hd | (d & fs' & Hw & ? & ? & ?)].
    + rewrite collect_dir_lookup in Hd.
      destruct (bool_decide (name ∈ files)) eqn:Ein; cbn [andb] in Hd;
        [| by left].
      destruct (endswith (py_lower name) ".pdf") eqn:Epdf; [| by left].
      injection Hd as <-. right. exists root_dir, files.
      apply bool_decide_eq_true_1 in Ein. repeat split; [left | done..].
    + right. exists d, fs'. repeat split; [by right | done..].
Qed.

Lemma collect_pdfs_complete walk : forall pdf_files name,
  is_Some (pdf_files !! name)
  \/ (exists root_dir files,
        (root_dir, files) ∈ walk /\ name ∈ files
        /\ endswith (py_lower name) ".pdf" = true) ->
  is_Some (collect_pdfs walk pdf_files !! name).
Proof.
  induction walk as [| [root_dir files] walk IH]; intros pdf_files name.
  - intros [Hk | (d & fs' & Hw & _)]; [done | by apply elem_of_nil in Hw].
  - rewrite collect_pdfs_cons. intros Hcase. apply IH.
    destruct Hcase as [Hk | (d & fs' & Hw & Hin & Hpdf)].
    + left. rewrite collect_dir_lookup. by destruct (_ && _).
    + apply elem_of_cons in Hw as [[= -> ->] | Hw].
      * left. rewrite collect_dir_lookup, Hpdf, bool_decide_eq_true_2 by done.
        by eexists.
      * right. by exists d, fs'.
Qed.

Lemma collect_pdfs_untouched walk : forall pdf_files name,
  Forall (fun '(_, files) => name ∉ files) walk ->
  collect_pdfs walk pdf_files !! name = pdf_files !! name.
Proof.
  induction walk as [| [root_dir files] walk IH]; intros pdf_files name Hall;
    [reflexivity |].
  apply Forall_cons in Hall as [Hn Hall].
  rewrite collect_pdfs_cons, IH, collect_dir_lookup by done.
  by rewrite bool_decide_eq_false_2.
Qed.

Lemma collect_pdfs_app walk1 walk2 pdf_files :
  collect_pdfs (walk1 ++ walk2)%list pdf_files
  = collect_pdfs walk2 (collect_pdfs walk1 pdf_files).
Proof. unfold collect_pdfs. apply fold_left_app. Qed.

(** X17 -- The dictionary of PDF files after the walk.  A name is a key
    exactly when it was a key before or some walked directory holds a file of
    that name ending in [.pdf] in any letter case; the value of a key comes
    from before or is the path of such a directory joined with the name; and
    when several directories hold the name, the last one walked wins. *)
Theorem collected_pdf_files (walk : list (string * list string))
    (pdf_files : gmap string string) (name : string) :
  (is_Some (collect_pdfs walk pdf_files !! name)
   <-> is_Some (pdf_files !! name)
       \/ exists root_dir files,
            (root_dir, files) ∈ walk /\ name ∈ files
            /\ endswith (py_lower name) ".pdf" = true)
  /\ (forall path,
        collect_pdfs walk pdf_files !! name = Some path ->
        pdf_files !! name = Some path
        \/ exists root_dir files,
             (root_dir, files) ∈ walk /\ name ∈ files
             /\ endswith (py_lower name) ".pdf" = true
             /\ path = path_join root_dir name)
  /\ (forall before root_dir files after,
        walk = (before ++ (root_dir, files) :: after)%list ->
        name ∈ files -> endswith (py_lower name) ".pdf" = true ->
        Forall (fun '(_, later) => name ∉ later) after ->
        collect_pdfs walk pdf_files !! name = Some (path_join root_dir name)).
Proof.
  split; [split |].
  - intros [path Hk].
    destruct (collect_pdfs_sound _ _ _ _ Hk) as [Hd | (d & fs' & ? & ? & ? & _)];
      [left; by eexists | right; by exists d, fs'].
  - apply collect_pdfs_complete.
  - split; [apply collect_pdfs_sound |].
    intros before root_dir files after -> Hin Hpdf Hafter.
    rewrite collect_pdfs_app, collect_pdfs_cons, collect_pdfs_untouched by done.
    by rewrite collect_dir_lookup, Hpdf, bool_decide_eq_true_2.
Qed.

Lemma py_lower_app s t : py_lower (s ++ t) = py_lower s ++ py_lower t.
Proof.
  induction s as [| c s IH]; [reflexivity |].
  rewrite PyFloatFacts.append_String. cbn [py_lower].
  by rewrite IH, PyFloatFacts.append_String.
Qed.

Lemma endswith_pdf_name stem : endswith (py_lower (stem ++ ".pdf")) ".pdf" = true.
Proof. unfold endswith. rewrite py_lower_app. apply ends_with_app. Qed.

(** X18 -- The association of a document with its PDF, from the walk: for a
    file name [stem.ext] (a stem without ["/"] that is not made of dots only,
    an extension without ["."] and ["/"]) the answer is [stem.pdf] exactly
    when [stem.pdf], spelled so, was a key before the walk or is a file of a
    walked directory, and ['No encontrado'] otherwise; a PDF whose name
    differs in letter case (as [stem.PDF]) is collected but not
    associated. *)
Theorem pdf_association_by_exact_name (walk : list (string * list string))
    (pdf_files : gmap string string) (stem ext : string) :
  no_char "/" stem = true -> os_path.all_dots stem = false ->
  no_char "/" ext = true -> no_char "." ext = true ->
  let answer := identify_pdf (stem ++ "." ++ ext) (collect_pdfs walk pdf_files) in
  let present :=
    is_Some (pdf_files !! (stem ++ ".pdf"))
    \/ exists root_dir files,
         (root_dir, files) ∈ walk /\ (stem ++ ".pdf") ∈ files in
  (answer = stem ++ ".pdf" <-> present)
  /\ (answer = "No encontrado" <-> ~ present).
Proof.
  intros Hs Hdots He1 He2 answer present. subst answer. unfold identify_pdf.
  rewrite os_path_facts.splitext_root_ext by assumption.
  assert (Hkey : is_Some (collect_pdfs walk pdf_files !! (stem ++ ".pdf"))
                 <-> present).
  { subst present. split.
    - intros [path Hk].
      destruct (collect_pdfs_sound _ _ _ _ Hk) as [Hd | (d & fs' & ? & ? & _)];
        [left; by eexists | right; by exists d, fs'].
    - intros [Hk | (d & fs' & Hw & Hin)]; apply collect_pdfs_complete;
        [by left | right].
      exists d, fs'. repeat split; try done. apply endswith_pdf_name. }
  case_bool_decide as Hk.
  - split; split; try done.
    + intros _. by apply Hkey.
    + intros Heq. by apply os_path_facts.pdf_name_not_sentinel in Heq.
    + intros Hn. destruct Hn. by apply Hkey.
  - split; split; try done.
    + intros Heq. symmetry in Heq.
      by apply os_path_facts.pdf_name_not_sentinel in Heq.
    + intros Hp. destruct Hk. by apply Hkey.
    + intros _ Hp. apply Hk. by apply Hkey.
Qed.

Lemma collected_pdf_files_witness :
  sample_walk = ([] ++ ("./temp_files", ["b.PDF"; "notes.txt"; "a.pdf"])
                    :: [("./temp_files/sub", ["b.xml"; "a.XML"])])%list
  /\ "a.pdf" ∈ ["b.PDF"; "notes.txt"; "a.pdf"]
  /\ endswith (py_lower "a.pdf") ".pdf" = true
  /\ Forall (fun '(_, later) => "a.pdf" ∉ later)
       [("./temp_files/sub", ["b.xml"; "a.XML"])]
  /\ collect_pdfs sample_walk ∅ !! "a.pdf" = Some (path_join "./temp_files" "a.pdf").
Proof.
  assert (H1 : sample_walk
               = ([] ++ ("./temp_files", ["b.PDF"; "notes.txt"; "a.pdf"])
                     :: [("./temp_files/sub", ["b.xml"; "a.XML"])])%list)
    by reflexivity.
  assert (H2 : "a.pdf" ∈ ["b.PDF"; "notes.txt"; "a.pdf"])
    by (apply list_elem_of_In; cbn; auto).
  assert (H3 : endswith (py_lower "a.pdf") ".pdf" = true) by reflexivity.
  assert (H4 : Forall (fun '(_, later) => "a.pdf" ∉ later)
                 [("./temp_files/sub", ["b.xml"; "a.XML"])]).
  { repeat constructor. intros Hin. apply list_elem_of_In in Hin.
    cbn in Hin. destruct Hin as [Hx | [Hx | []]]; discriminate Hx. }
  do 4 (split; [assumption |]).
  destruct (collected_pdf_files sample_walk ∅ "a.pdf") as (_ & _ & Hlast).
  exact (Hlast _ _ _ _ H1 H2 H3 H4).
Defined.

Lemma pdf_association_by_exact_name_witness :
  no_char "/" "a" = true /\ os_path.all_dots "a" = false
  /\ no_char "/" "XML" = true /\ no_char "." "XML" = true
  /\ (identify_pdf ("a" ++ "." ++ "XML") (collect_pdfs sample_walk ∅) = "a" ++ ".pdf"
      <-> is_Some ((∅ : gmap string string) !! ("a" ++ ".pdf"))
          \/ exists root_dir files,
               (root_dir, files) ∈ sample_walk /\ ("a" ++ ".pdf") ∈ files).
Proof.
  do 4 (split; [reflexivity |]).
  pose proof (pdf_association_by_exact_name sample_walk ∅ "a" "XML"
                eq_refl eq_refl eq_refl eq_refl) as Hx.
  cbv zeta in Hx. exact (proj1 Hx).
Defined.

(** The sample walk: [a.XML] is associated with [a.pdf]; [b.PDF] is
    collected, and [b.xml] is left without a PDF. *)
Example sample_walk_run :
  collect_xml sample_walk = ["./temp_files/sub/a.XML"; "./temp_files/sub/b.xml"]
  /\ collect_pdfs sample_walk ∅ !! "b.PDF" = Some "./temp_files/b.PDF"
  /\ identify_pdf "a.XML" (collect_pdfs sample_walk ∅) = "a.pdf"
  /\ identify_pdf "b.xml" (collect_pdfs sample_walk ∅) = "No encontrado".
Proof. repeat split; vm_compute; reflexivity. Qed.

(** *** From the walk to the rows *)

Lemma ends_with_slash d :
  ends_with "/" d = true -> exists d', d = d' ++ "/".
Proof.
  induction d as [| c d IH]; [discriminate |].
  cbn [ends_with]. intros [Heq | Hd]%orb_prop.
  - apply String.eqb_eq in Heq as ->. by exists "".
  - destruct (IH Hd) as [d' ->]. by exists (String c d').
Qed.

Lemma basename_path_join root_dir file :
  no_char "/" file = true -> os_path.basename (path_join root_dir file) = file.
Proof.
  intros Hf. unfold path_join.
  assert (Hfirst : match file with
                   | String "/" _ => False
                   | _ => True
                   end).
  { destruct file as [| c r]; [done |]. cbn [no_char] in Hf.
    apply andb_prop in Hf as [Hc _].
    destruct (Ascii.eqb_spec c "/") as [-> | Hne]; [discriminate |].
    by destruct c as [[] [] [] [] [] [] [] []]. }
  assert (Hjoin : forall d, os_path.basename (d ++ "/" ++ file) = file).
  { intros d. unfold os_path.basename.
    change ("/" ++ file) with (String "/" file).
    by rewrite os_path_facts.after_last_app. }
  assert (Hgoal : os_path.basename
                    (if String.eqb root_dir "" || endswith root_dir "/"
                     then root_dir ++ file else root_dir ++ "/" ++ file) = file).
  { destruct (String.eqb_spec root_dir "") as [-> | Hne]; cbn [orb].
    - change ("" ++ file) with file. by apply os_path_facts.basename_plain.
    - destruct (endswith root_dir "/") eqn:E; [| apply Hjoin].
      destruct (ends_with_slash _ E) as [d' ->].
      assert (Hassoc : forall a b c : string, (a ++ b) ++ c = a ++ b ++ c).
      { intros a b c. induction a as [| x a IH]; [reflexivity |].
        by rewrite !PyFloatFacts.append_String, IH. }
      rewrite Hassoc. apply Hjoin. }
  destruct file as [| c r]; [exact Hgoal |].
  destruct c as [[] [] [] [] [] [] [] []]; try exact Hgoal; contradiction.
Qed.

Section walked_batch.
Context `{DatetimeLib} `{SortLib}.

(** X19 -- [process_uploaded_files] from the walk on.  When no file name
    holds a ["/"] (as [os.walk] gives them), every row of the frame comes
    from a walked file whose name ends in [.xml] in any letter case: its
    ['XML_File'] is that name, and its ['PDF Asociado'] is what
    [identify_pdf] answers for that name on the PDF files collected from the
    same walk, which are the second component returned. *)
Theorem walked_batch_rows (fs : string -> ET.file)
    (walk : list (string * list string)) (pdf_files : gmap string string)
    (df : DataFrame) (printed : list (string * exn)) :
  Forall (fun '(_, files) => Forall (fun file => no_char "/" file = true) files)
    walk ->
  fst (process_walked_files fs walk pdf_files) = (printed, Ok df) ->
  snd (process_walked_files fs walk pdf_files) = collect_pdfs walk pdf_files
  /\ Forall (fun row : dict =>
               exists root_dir files file,
                 (root_dir, files) ∈ walk /\ file ∈ files
                 /\ endswith (py_lower file) ".xml" = true
                 /\ recognized (fs (path_join root_dir file)) = true
                 /\ row !! "XML_File" = Some (PStr file)
                 /\ row !! "PDF Asociado"
                    = Some (PStr (identify_pdf file (collect_pdfs walk pdf_files))))
       df.
Proof.
  intros Hnames. unfold process_walked_files. cbn [fst snd].
  intros (_ & _ & ->)%process_uploaded_files_inv.
  split; [reflexivity |].
  apply Forall_forall. intros row Hrow.
  destruct (batch_row_inv _ _ _ _ Hrow)
    as (p & ns & policy & root & Hp & _ & Hrec & ->).
  apply elem_of_collect_xml in Hp as (d & files & file & Hw & Hf & Hx & ->).
  assert (Hfile : no_char "/" file = true).
  { rewrite Forall_forall in Hnames. specialize (Hnames _ Hw). cbn in Hnames.
    rewrite Forall_forall in Hnames. by apply Hnames. }
  exists d, files, file. do 4 (split; [done |]).
  unfold float_columns, float_cell, with_file_fields. cbv zeta.
  rewrite (basename_path_join d file Hfile). split; by simplify_map_eq.
Qed.

End walked_batch.

Lemma walked_batch_rows_witness :
  let ran := process_walked_files sample_files
               [("", ["a.xml"; "b.xml"; "a.pdf"])] ∅ in
  let df := drop_column "FechaEmision"
              (nargsort "FechaEmision"
                 (map float_columns
                    (collected sample_files
                       (collect_pdfs [("", ["a.xml"; "b.xml"; "a.pdf"])] ∅)
                       (collect_xml [("", ["a.xml"; "b.xml"; "a.pdf"])])))) in
  Forall (fun '(_, files) => Forall (fun file => no_char "/" file = true) files)
    [("", ["a.xml"; "b.xml"; "a.pdf"])]
  /\ fst ran
     = (printed_lines sample_files
          (collect_xml [("", ["a.xml"; "b.xml"; "a.pdf"])]), Ok df)
  /\ snd ran = collect_pdfs [("", ["a.xml"; "b.xml"; "a.pdf"])] ∅.
Proof.
  intros ran df.
  assert (Hnames : Forall (fun '(_, files) =>
                             Forall (fun file => no_char "/" file = true) files)
                     [("", ["a.xml"; "b.xml"; "a.pdf"])])
    by (repeat constructor).
  assert (Hrun : fst ran
                 = (printed_lines sample_files
                      (collect_xml [("", ["a.xml"; "b.xml"; "a.pdf"])]), Ok df))
    by (apply process_uploaded_files_ok; vm_compute; reflexivity).
  split; [exact Hnames |]. split; [exact Hrun |].
  exact (proj1 (walked_batch_rows sample_files _ ∅ df _ Hnames Hrun)).
Defined.
